(** * st-util GDB server: a shallow embedding of [src/st-util/gdb-server.c]

    The file follows the C source function by function.  The debug probe
    (the [stlink_*] library), the semihosting handler and the RSP framing
    helpers ([gdb_*]) are external to the source file: they are an
    interface ([Probe], [Remote]) over which every definition and theorem
    is parametric.  Server code runs in a small state-and-trace monad [M]:
    the state holds the file-scope variables of gdb-server.c and the locals
    of [serve]; the trace lists the calls made to the outside world. *)

From Stdlib Require Import ZArith Lia List String Ascii Bool.
From stdpp Require Import base option list list_numbers gmap.
Import ListNotations.
Local Open Scope Z_scope.

(** ** Machine integers *)

(** [uint32_t] arithmetic wraps modulo 2^32. *)
Definition u32 (z : Z) : Z := z mod 2 ^ 32.

(** [uint8_t] and [uint16_t] truncation. *)
Definition u8 (z : Z) : Z := z mod 2 ^ 8.
Definition u16 (z : Z) : Z := z mod 2 ^ 16.

(** Conversion to [int32_t] (two's complement, as gcc and clang do it). *)
Definition s32 (z : Z) : Z :=
  let w := z mod 2 ^ 32 in if w <? 2 ^ 31 then w else w - 2 ^ 32.

(** Array read [a[i]]; the arrays of the source are never read out of
    range on the paths modelled, the default stands for such a read. *)
Definition zth {A} (d : A) (l : list A) (i : Z) : A :=
  if i <? 0 then d else nth (Z.to_nat i) l d.

(** Array write [a[i] = x]. *)
Definition zset {A} (l : list A) (i : Z) (x : A) : list A :=
  if i <? 0 then l else <[Z.to_nat i := x]> l.

(** [memcpy(dst + off, src, n)] on byte buffers: defined when
    [off + n <= length dst] and [n <= length src]. *)
Definition memcpy (dst : list Z) (off : Z) (src : list Z) (n : Z) : list Z :=
  take (Z.to_nat off) dst ++ take (Z.to_nat n) src ++ drop (Z.to_nat (off + n)) dst.

(** ** Declarations of the probe library used by the server *)

(** Modelled from the spec: the enumerations of stlink.h, which is not part
    of the sources; section 6.3 of the specification names their members. *)
Inductive target_state :=
  TARGET_UNKNOWN | TARGET_RUNNING | TARGET_HALTED | TARGET_RESET | TARGET_DEBUG_RUNNING.
Inductive run_type := RUN_NORMAL | RUN_FLASH_LOADER.
Inductive reset_type := RESET_AUTO | RESET_HARD | RESET_SOFT | RESET_SOFT_AND_HALT.
Inductive connect_type := CONNECT_HOT_PLUG | CONNECT_NORMAL | CONNECT_UNDER_RESET.

(** Modelled from the spec: [struct stlink_reg] of stlink.h (section 6.3:
    r[16], xpsr, main_sp, process_sp, control, faultmask, basepri, primask,
    s[32], fpscr). *)
Record stlink_reg := {
  r : list Z;
  s : list Z;
  xpsr : Z;
  main_sp : Z;
  process_sp : Z;
  control : Z;
  faultmask : Z;
  basepri : Z;
  primask : Z;
  fpscr : Z }.

(** The debug registers the server addresses.  register.h is not part of
    the sources, so the registers stay symbolic. *)
Inductive debug_reg :=
  | STLINK_REG_CM3_CPUID
  | STLINK_REG_CM3_FP_CTRL
  | STLINK_REG_CM3_FP_COMPn (n : Z)
  | STLINK_REG_CM3_DEMCR
  | STLINK_REG_CM3_DWT_COMPn (n : Z)
  | STLINK_REG_CM3_DWT_MASKn (n : Z)
  | STLINK_REG_CM3_DWT_FUNn (n : Z)
  | STLINK_REG_CM7_CTR
  | STLINK_REG_CM7_CLIDR
  | STLINK_REG_CM7_CCR
  | STLINK_REG_CM7_CSSELR
  | STLINK_REG_CM7_CCSIDR
  | STLINK_REG_CM7_DCCSW
  | STLINK_REG_CM7_ICIALLU
  | STLINK_REG_CM7_FP_LAR.

(** The fields of [stlink_t] the server reads or writes itself; the rest of
    the handle is the opaque [backend_data]. *)
Record stlink_t (B : Type) := {
  q_buf : list Z;
  core_stat : target_state;
  chip_id : Z;
  core_id : Z;
  flash_size : Z;
  sram_size : Z;
  flash_pgsz : Z;
  sys_base : Z;
  sys_size : Z;
  backend_data : B }.
Arguments q_buf {B}.
Arguments core_stat {B}.
Arguments chip_id {B}.
Arguments core_id {B}.
Arguments flash_size {B}.
Arguments sram_size {B}.
Arguments flash_pgsz {B}.
Arguments sys_base {B}.
Arguments sys_size {B}.
Arguments backend_data {B}.

(** [sl->q_buf] replaced. *)
Definition set_q_buf {B} (q : list Z) (h : stlink_t B) : stlink_t B :=
  {| q_buf := q; core_stat := core_stat h; chip_id := chip_id h; core_id := core_id h;
     flash_size := flash_size h; sram_size := sram_size h; flash_pgsz := flash_pgsz h;
     sys_base := sys_base h; sys_size := sys_size h; backend_data := backend_data h |}.

(** The probe facade (section 6.3 of the specification): synchronous
    operations with an integer status, 0 meaning success.  Every operation
    receives the handle and returns it, since the C functions take
    [stlink_t *].  Out-parameters are returned next to the status. *)
Class Probe (B : Type) := {
  probe_target_connect : stlink_t B -> connect_type -> Z * stlink_t B;
  probe_force_debug : stlink_t B -> Z * stlink_t B;
  probe_run : stlink_t B -> run_type -> Z * stlink_t B;
  probe_step : stlink_t B -> Z * stlink_t B;
  probe_status : stlink_t B -> Z * stlink_t B;
  probe_reset : stlink_t B -> reset_type -> Z * stlink_t B;
  probe_exit_debug_mode : stlink_t B -> Z * stlink_t B;
  probe_close : stlink_t B -> stlink_t B;
  (* stlink_open_usb(logging_level, connect_mode, serialnumber, freq): the closed
     handle stands for the USB bus the call searches; None is NULL *)
  probe_open_usb : stlink_t B -> Z -> connect_type -> string -> Z -> option (stlink_t B);
  probe_read_all_regs : stlink_t B -> Z * stlink_reg * stlink_t B;
  probe_read_reg : stlink_t B -> Z -> Z * stlink_reg * stlink_t B;
  probe_read_unsupported_reg : stlink_t B -> Z -> Z * stlink_reg * stlink_t B;
  probe_write_reg : stlink_t B -> Z -> Z -> Z * stlink_t B;
  probe_write_unsupported_reg : stlink_t B -> Z -> Z -> Z * stlink_t B;
  probe_read_mem32 : stlink_t B -> Z -> Z -> Z * stlink_t B;
  probe_write_mem32 : stlink_t B -> Z -> Z -> Z * stlink_t B;
  probe_write_mem8 : stlink_t B -> Z -> Z -> Z * stlink_t B;
  probe_read_debug32 : stlink_t B -> debug_reg -> Z * Z * stlink_t B;
  probe_write_debug32 : stlink_t B -> debug_reg -> Z -> Z * stlink_t B;
  probe_calculate_pagesize : stlink_t B -> Z -> Z * stlink_t B;
  probe_get_erased_pattern : stlink_t B -> Z;
  probe_erase_flash_page : stlink_t B -> Z -> Z * stlink_t B;
  probe_flashloader_start : stlink_t B -> Z * stlink_t B;
  probe_flashloader_write : stlink_t B -> Z -> list Z -> Z -> Z * stlink_t B;
  probe_flashloader_stop : stlink_t B -> Z * stlink_t B;
  (* do_semihosting(sl, r0, r1, &ret): status and the value left in *ret *)
  probe_do_semihosting : stlink_t B -> Z -> Z -> Z * Z * stlink_t B;
  (* make_memory_map(sl): the templates of memory-map.h are not in the sources *)
  probe_make_memory_map : stlink_t B -> string;
  (* bit masks and keys of register.h *)
  STLINK_REG_CM3_DEMCR_TRCENA : Z;
  STLINK_REG_CM7_CCR_IC : Z;
  STLINK_REG_CM7_CCR_DC : Z;
  STLINK_REG_CM7_FP_LAR_KEY : Z;
  STM32_CHIPID_UNKNOWN : Z }.

(** ** Requests

    A request packet after the libc parsing calls of [serve] ([strsep],
    [strtoul], [strtok_r], [sscanf] in [unhexify]): the fields are the values
    those calls return. *)

Inductive q_query :=
  | Q_thread_info                       (* qP, qC, qL *)
  | Q_Supported
  | Q_Xfer (type op annex : string) (addr length : Z)
  | Q_Rcmd (cmd : string)               (* the unhexified monitor command *)
  | Q_other.

Inductive v_command :=
  | V_FlashErase (addr length : Z)
  | V_FlashWrite (addr : Z) (data : list Z)   (* the payload as received, escapes included *)
  | V_FlashDone
  | V_Kill
  | V_other.

Inductive packet :=
  | Pkt_q (q : q_query)
  | Pkt_v (v : v_command)
  | Pkt_c
  | Pkt_s
  | Pkt_status                          (* '?' *)
  | Pkt_g
  | Pkt_p (id : Z)
  | Pkt_P (reg value : Z)
  | Pkt_G (regs : list Z)               (* the 16 parsed words *)
  | Pkt_m (start count : Z)
  | Pkt_M (start count : Z) (hexdata : list Z)   (* the bytes of the hex field *)
  | Pkt_Z (kind : ascii) (addr len : Z)
  | Pkt_z (kind : ascii) (addr : Z)
  | Pkt_extended                        (* '!' *)
  | Pkt_R
  | Pkt_k
  | Pkt_unknown.

(** The RSP framing helpers of gdb-remote.c (not part of the sources) over
    the client socket [K]. *)
Class Remote (K : Type) := {
  remote_recv_packet : K -> Z * packet * K;
  remote_send_packet : K -> string -> Z * K;
  remote_check_for_interrupt : K -> Z * K }.

(** ** Trace of calls *)

Definition ptr := positive.

Inductive event :=
  | EvTargetConnect (mode : connect_type) (ret : Z)
  | EvForceDebug (ret : Z)
  | EvRun (type : run_type) (ret : Z)
  | EvStep (ret : Z)
  | EvStatus (ret : Z)
  | EvReset (type : reset_type) (ret : Z)
  | EvExitDebugMode (ret : Z)
  | EvClose
  | EvOpenUsb (opened : bool)
  | EvReadAllRegs (ret : Z)
  | EvReadReg (idx ret : Z)
  | EvReadUnsupportedReg (id ret : Z)
  | EvWriteReg (val idx ret : Z)
  | EvWriteUnsupportedReg (val id ret : Z)
  | EvReadMem32 (addr len ret : Z)
  | EvWriteMem32 (addr len : Z) (data : list Z) (ret : Z)
  | EvWriteMem8 (addr len : Z) (data : list Z) (ret : Z)
  | EvReadDebug32 (reg : debug_reg) (ret val : Z)
  | EvWriteDebug32 (reg : debug_reg) (val ret : Z)
  | EvCalculatePagesize (addr pgsz : Z)
  | EvEraseFlashPage (addr ret : Z)
  | EvFlashloaderStart (ret : Z)
  | EvFlashloaderWrite (addr : Z) (data : list Z) (len ret : Z)
  | EvFlashloaderStop (ret : Z)
  | EvSemihosting (r0 r1 ret : Z)
  | EvCacheSync                         (* cache_sync(sl) entered *)
  | EvMalloc (p : ptr)
  | EvFree (p : ptr)
  | EvCheckForInterrupt (status : Z)
  | EvRecvPacket (status : Z)
  | EvSendPacket (reply : string) (result : Z)
  | EvCloseSocket
  | EvUsleep (usec : Z).

(** ** File-scope data of gdb-server.c *)

Inductive watchfun := WATCHDISABLED | WATCHREAD | WATCHWRITE | WATCHACCESS.

(** [enum watchfun { WATCHDISABLED = 0, WATCHREAD = 5, WATCHWRITE = 6, WATCHACCESS = 7 }] *)
Definition watchfun_value (wf : watchfun) : Z :=
  match wf with WATCHDISABLED => 0 | WATCHREAD => 5 | WATCHWRITE => 6 | WATCHACCESS => 7 end.

Definition watchfun_eqb (a b : watchfun) : bool :=
  watchfun_value a =? watchfun_value b.

Definition DATA_WATCH_NUM : Z := 4.

Record code_hw_watchpoint := {
  wp_addr : Z;
  wp_mask : Z;
  wp_fun : watchfun }.

Definition CODE_BREAK_NUM_MAX : Z := 15.
Definition CODE_BREAK_LOW : Z := 0x01.
Definition CODE_BREAK_HIGH : Z := 0x02.
Definition CODE_BREAK_REMAP : Z := 0x04.
Definition CODE_BREAK_REV_V1 : Z := 0x00.
Definition CODE_BREAK_REV_V2 : Z := 0x01.

Record code_hw_breakpoint := {
  bp_addr : Z;
  bp_type : Z }.

Definition FLASH_BASE : Z := 0x08000000.

(** A node of the staging list.  [fb_self] and [fb_data_ptr] are the two
    heap allocations of the node ([malloc(sizeof(struct flash_block))] and
    [malloc(length)]); [fb_data] is the content of the second.  The [next]
    pointers are the order of the Rocq list that holds the nodes. *)
Record flash_block := {
  fb_self : ptr;
  fb_addr : Z;
  fb_length : Z;
  fb_data_ptr : ptr;
  fb_data : list Z }.

Record cache_level_desc := {
  nsets : Z;
  nways : Z;
  log2_nways : Z;
  width : Z }.

Record cache_desc_t := {
  used : Z;
  dminline : Z;
  iminline : Z;
  louu : Z;
  icache : list cache_level_desc;
  dcache : list cache_level_desc }.

Record st_state_t := {
  logging_level : Z;
  listen_port : Z;
  persistent : Z;
  connect_mode : connect_type;
  freq : Z;
  serialnumber : string;
  semihosting : bool;
  current_memory_map : string }.

Definition set_persistent (v : Z) (t : st_state_t) : st_state_t :=
  {| logging_level := logging_level t; listen_port := listen_port t; persistent := v;
     connect_mode := connect_mode t; freq := freq t; serialnumber := serialnumber t;
     semihosting := semihosting t; current_memory_map := current_memory_map t |}.

Definition set_semihosting (v : bool) (t : st_state_t) : st_state_t :=
  {| logging_level := logging_level t; listen_port := listen_port t; persistent := persistent t;
     connect_mode := connect_mode t; freq := freq t; serialnumber := serialnumber t;
     semihosting := v; current_memory_map := current_memory_map t |}.

Definition set_current_memory_map (v : string) (t : st_state_t) : st_state_t :=
  {| logging_level := logging_level t; listen_port := listen_port t; persistent := persistent t;
     connect_mode := connect_mode t; freq := freq t; serialnumber := serialnumber t;
     semihosting := semihosting t; current_memory_map := v |}.

(** The state a session runs on: the probe handle, the client socket, the
    [st_state_t] of the command line, the static tables and flags of
    gdb-server.c, the set of live heap allocations of the staging list, and
    the local [attached] of [serve]. *)
Record server (B K : Type) := {
  sl : stlink_t B;
  client : K;
  st : st_state_t;
  data_watches : list code_hw_watchpoint;
  code_break_num : Z;
  code_lit_num : Z;
  code_break_rev : Z;
  code_breaks : list code_hw_breakpoint;
  flash_root : list flash_block;
  heap : gset ptr;
  cache_desc : cache_desc_t;
  cache_modified : Z;
  attached : Z }.
Arguments sl {B K}.
Arguments client {B K}.
Arguments st {B K}.
Arguments data_watches {B K}.
Arguments code_break_num {B K}.
Arguments code_lit_num {B K}.
Arguments code_break_rev {B K}.
Arguments code_breaks {B K}.
Arguments flash_root {B K}.
Arguments heap {B K}.
Arguments cache_desc {B K}.
Arguments cache_modified {B K}.
Arguments attached {B K}.

(** Field updates of [server]. *)
Definition set_sl {B K} (v : stlink_t B) (x : server B K) : server B K :=
  {| sl := v; client := client x; st := st x; data_watches := data_watches x;
     code_break_num := code_break_num x; code_lit_num := code_lit_num x;
     code_break_rev := code_break_rev x; code_breaks := code_breaks x;
     flash_root := flash_root x; heap := heap x; cache_desc := cache_desc x;
     cache_modified := cache_modified x; attached := attached x |}.

Definition set_client {B K} (v : K) (x : server B K) : server B K :=
  {| sl := sl x; client := v; st := st x; data_watches := data_watches x;
     code_break_num := code_break_num x; code_lit_num := code_lit_num x;
     code_break_rev := code_break_rev x; code_breaks := code_breaks x;
     flash_root := flash_root x; heap := heap x; cache_desc := cache_desc x;
     cache_modified := cache_modified x; attached := attached x |}.

Definition set_st {B K} (v : st_state_t) (x : server B K) : server B K :=
  {| sl := sl x; client := client x; st := v; data_watches := data_watches x;
     code_break_num := code_break_num x; code_lit_num := code_lit_num x;
     code_break_rev := code_break_rev x; code_breaks := code_breaks x;
     flash_root := flash_root x; heap := heap x; cache_desc := cache_desc x;
     cache_modified := cache_modified x; attached := attached x |}.

Definition set_data_watches {B K} (v : list code_hw_watchpoint) (x : server B K) : server B K :=
  {| sl := sl x; client := client x; st := st x; data_watches := v;
     code_break_num := code_break_num x; code_lit_num := code_lit_num x;
     code_break_rev := code_break_rev x; code_breaks := code_breaks x;
     flash_root := flash_root x; heap := heap x; cache_desc := cache_desc x;
     cache_modified := cache_modified x; attached := attached x |}.

Definition set_code_break_regs {B K} (num lit rev : Z) (x : server B K) : server B K :=
  {| sl := sl x; client := client x; st := st x; data_watches := data_watches x;
     code_break_num := num; code_lit_num := lit;
     code_break_rev := rev; code_breaks := code_breaks x;
     flash_root := flash_root x; heap := heap x; cache_desc := cache_desc x;
     cache_modified := cache_modified x; attached := attached x |}.

Definition set_code_breaks {B K} (v : list code_hw_breakpoint) (x : server B K) : server B K :=
  {| sl := sl x; client := client x; st := st x; data_watches := data_watches x;
     code_break_num := code_break_num x; code_lit_num := code_lit_num x;
     code_break_rev := code_break_rev x; code_breaks := v;
     flash_root := flash_root x; heap := heap x; cache_desc := cache_desc x;
     cache_modified := cache_modified x; attached := attached x |}.

Definition set_flash_root {B K} (v : list flash_block) (x : server B K) : server B K :=
  {| sl := sl x; client := client x; st := st x; data_watches := data_watches x;
     code_break_num := code_break_num x; code_lit_num := code_lit_num x;
     code_break_rev := code_break_rev x; code_breaks := code_breaks x;
     flash_root := v; heap := heap x; cache_desc := cache_desc x;
     cache_modified := cache_modified x; attached := attached x |}.

Definition set_heap {B K} (v : gset ptr) (x : server B K) : server B K :=
  {| sl := sl x; client := client x; st := st x; data_watches := data_watches x;
     code_break_num := code_break_num x; code_lit_num := code_lit_num x;
     code_break_rev := code_break_rev x; code_breaks := code_breaks x;
     flash_root := flash_root x; heap := v; cache_desc := cache_desc x;
     cache_modified := cache_modified x; attached := attached x |}.

Definition set_cache_desc {B K} (v : cache_desc_t) (x : server B K) : server B K :=
  {| sl := sl x; client := client x; st := st x; data_watches := data_watches x;
     code_break_num := code_break_num x; code_lit_num := code_lit_num x;
     code_break_rev := code_break_rev x; code_breaks := code_breaks x;
     flash_root := flash_root x; heap := heap x; cache_desc := v;
     cache_modified := cache_modified x; attached := attached x |}.

Definition set_cache_modified {B K} (v : Z) (x : server B K) : server B K :=
  {| sl := sl x; client := client x; st := st x; data_watches := data_watches x;
     code_break_num := code_break_num x; code_lit_num := code_lit_num x;
     code_break_rev := code_break_rev x; code_breaks := code_breaks x;
     flash_root := flash_root x; heap := heap x; cache_desc := cache_desc x;
     cache_modified := v; attached := attached x |}.

Definition set_attached {B K} (v : Z) (x : server B K) : server B K :=
  {| sl := sl x; client := client x; st := st x; data_watches := data_watches x;
     code_break_num := code_break_num x; code_lit_num := code_lit_num x;
     code_break_rev := code_break_rev x; code_breaks := code_breaks x;
     flash_root := flash_root x; heap := heap x; cache_desc := cache_desc x;
     cache_modified := cache_modified x; attached := v |}.

(** ** The monad of server code

    A computation takes the state and returns a result, the calls it made,
    in order, and the new state.  [Diverge] is the result of a run that does
    not return: a C loop that does not finish within the fuel the model runs
    it with, or a step whose behaviour C leaves undefined (a copy past the end
    of its buffer); the calls made up to that point and the state reached
    before it are kept. *)

Inductive result (A : Type) :=
  | Done (a : A)
  | Diverge.
Arguments Done {A}.
Arguments Diverge {A}.

Definition M (B K A : Type) : Type := server B K -> result A * list event * server B K.

Definition ret {B K A} (a : A) : M B K A := fun x => (Done a, [], x).

Definition bind {B K A A'} (m : M B K A) (f : A -> M B K A') : M B K A' :=
  fun x =>
    match m x with
    | (Done a, e1, x1) =>
        match f a x1 with
        | (res, e2, x2) => (res, e1 ++ e2, x2)
        end
    | (Diverge, e1, x1) => (Diverge, e1, x1)
    end.

Definition diverge {B K A} : M B K A := fun x => (Diverge, [], x).
Definition gets {B K A} (f : server B K -> A) : M B K A := fun x => (Done (f x), [], x).
Definition modify {B K} (f : server B K -> server B K) : M B K unit := fun x => (Done tt, [], f x).
Definition emit {B K} (e : event) : M B K unit := fun x => (Done tt, [e], x).

(** The three components of a run. *)
Definition result_of {B K A} (o : result A * list event * server B K) : result A := fst (fst o).
Definition events_of {B K A} (o : result A * list event * server B K) : list event := snd (fst o).
Definition state_of {B K A} (o : result A * list event * server B K) : server B K := snd o.

Declare Scope server_scope.
Delimit Scope server_scope with server.
Notation "x <- m ; k" := (bind m (fun x => k))
  (at level 20, m at level 100, k at level 200, only parsing) : server_scope.
Notation "' p <- m ; k" := (bind m (fun x => match x with p => k end))
  (at level 20, p pattern, m at level 100, k at level 200, only parsing) : server_scope.
Notation "m ;; k" := (bind m (fun _ => k))
  (at level 100, k at level 200, right associativity, only parsing) : server_scope.
Local Open Scope server_scope.

(** [for (i = lo; i < lo + n; i++) body], where the body leaves the function
    ([return], [break], [goto]) by answering [Some]. *)
Fixpoint for_first {B K A} (n : nat) (i : Z) (body : Z -> M B K (option A)) : M B K (option A) :=
  match n with
  | O => ret None
  | S n' =>
      o <- body i;
      match o with
      | Some a => ret (Some a)
      | None => for_first n' (i + 1) body
      end
  end.

(** [for (i = lo; i < lo + n; i++) body] without early exit. *)
Fixpoint for_range {B K} (n : nat) (i : Z) (body : Z -> M B K unit) : M B K unit :=
  match n with
  | O => ret tt
  | S n' => body i ;; for_range n' (i + 1) body
  end.

(** ** The target description served by qXfer:features:read *)

Fixpoint concat_strings (l : list string) : string :=
  match l with
  | [] => EmptyString
  | x :: rest => (x ++ concat_strings rest)%string
  end.

(** A double quote character. *)
Definition dq : string := String (ascii_of_nat 34) EmptyString.

(** [static const char* const target_description], line by line; [dq] stands
    for each escaped double quote of the C literal. *)
Definition target_description : string :=
  concat_strings [
    "<?xml version="; dq; "1.0"; dq; "?>";
    "<!DOCTYPE target SYSTEM "; dq; "gdb-target.dtd"; dq; ">";
    "<target version="; dq; "1.0"; dq; ">";
    "   <architecture>arm</architecture>";
    "   <feature name="; dq; "org.gnu.gdb.arm.m-profile"; dq; ">";
    "       <reg name="; dq; "r0"; dq; " bitsize="; dq; "32"; dq; "/>";
    "       <reg name="; dq; "r1"; dq; " bitsize="; dq; "32"; dq; "/>";
    "       <reg name="; dq; "r2"; dq; " bitsize="; dq; "32"; dq; "/>";
    "       <reg name="; dq; "r3"; dq; " bitsize="; dq; "32"; dq; "/>";
    "       <reg name="; dq; "r4"; dq; " bitsize="; dq; "32"; dq; "/>";
    "       <reg name="; dq; "r5"; dq; " bitsize="; dq; "32"; dq; "/>";
    "       <reg name="; dq; "r6"; dq; " bitsize="; dq; "32"; dq; "/>";
    "       <reg name="; dq; "r7"; dq; " bitsize="; dq; "32"; dq; "/>";
    "       <reg name="; dq; "r8"; dq; " bitsize="; dq; "32"; dq; "/>";
    "       <reg name="; dq; "r9"; dq; " bitsize="; dq; "32"; dq; "/>";
    "       <reg name="; dq; "r10"; dq; " bitsize="; dq; "32"; dq; "/>";
    "       <reg name="; dq; "r11"; dq; " bitsize="; dq; "32"; dq; "/>";
    "       <reg name="; dq; "r12"; dq; " bitsize="; dq; "32"; dq; "/>";
    "       <reg name="; dq; "sp"; dq; " bitsize="; dq; "32"; dq; " type="; dq; "data_ptr"; dq; "/>";
    "       <reg name="; dq; "lr"; dq; " bitsize="; dq; "32"; dq; "/>";
    "       <reg name="; dq; "pc"; dq; " bitsize="; dq; "32"; dq; " type="; dq; "code_ptr"; dq; "/>";
    "       <reg name="; dq; "xpsr"; dq; " bitsize="; dq; "32"; dq; " regnum="; dq; "25"; dq; "/>";
    "       <reg name="; dq; "msp"; dq; " bitsize="; dq; "32"; dq; " regnum="; dq; "26"; dq; " type="; dq; "data_ptr"; dq; " group="; dq; "general"; dq; " />";
    "       <reg name="; dq; "psp"; dq; " bitsize="; dq; "32"; dq; " regnum="; dq; "27"; dq; " type="; dq; "data_ptr"; dq; " group="; dq; "general"; dq; " />";
    "       <reg name="; dq; "control"; dq; " bitsize="; dq; "8"; dq; " regnum="; dq; "28"; dq; " type="; dq; "int"; dq; " group="; dq; "general"; dq; " />";
    "       <reg name="; dq; "faultmask"; dq; " bitsize="; dq; "8"; dq; " regnum="; dq; "29"; dq; " type="; dq; "int"; dq; " group="; dq; "general"; dq; " />";
    "       <reg name="; dq; "basepri"; dq; " bitsize="; dq; "8"; dq; " regnum="; dq; "30"; dq; " type="; dq; "int"; dq; " group="; dq; "general"; dq; " />";
    "       <reg name="; dq; "primask"; dq; " bitsize="; dq; "8"; dq; " regnum="; dq; "31"; dq; " type="; dq; "int"; dq; " group="; dq; "general"; dq; " />";
    "       <reg name="; dq; "s0"; dq; " bitsize="; dq; "32"; dq; " regnum="; dq; "32"; dq; " type="; dq; "float"; dq; " group="; dq; "float"; dq; " />";
    "       <reg name="; dq; "s1"; dq; " bitsize="; dq; "32"; dq; " type="; dq; "float"; dq; " group="; dq; "float"; dq; " />";
    "       <reg name="; dq; "s2"; dq; " bitsize="; dq; "32"; dq; " type="; dq; "float"; dq; " group="; dq; "float"; dq; " />";
    "       <reg name="; dq; "s3"; dq; " bitsize="; dq; "32"; dq; " type="; dq; "float"; dq; " group="; dq; "float"; dq; " />";
    "       <reg name="; dq; "s4"; dq; " bitsize="; dq; "32"; dq; " type="; dq; "float"; dq; " group="; dq; "float"; dq; " />";
    "       <reg name="; dq; "s5"; dq; " bitsize="; dq; "32"; dq; " type="; dq; "float"; dq; " group="; dq; "float"; dq; " />";
    "       <reg name="; dq; "s6"; dq; " bitsize="; dq; "32"; dq; " type="; dq; "float"; dq; " group="; dq; "float"; dq; " />";
    "       <reg name="; dq; "s7"; dq; " bitsize="; dq; "32"; dq; " type="; dq; "float"; dq; " group="; dq; "float"; dq; " />";
    "       <reg name="; dq; "s8"; dq; " bitsize="; dq; "32"; dq; " type="; dq; "float"; dq; " group="; dq; "float"; dq; " />";
    "       <reg name="; dq; "s9"; dq; " bitsize="; dq; "32"; dq; " type="; dq; "float"; dq; " group="; dq; "float"; dq; " />";
    "       <reg name="; dq; "s10"; dq; " bitsize="; dq; "32"; dq; " type="; dq; "float"; dq; " group="; dq; "float"; dq; " />";
    "       <reg name="; dq; "s11"; dq; " bitsize="; dq; "32"; dq; " type="; dq; "float"; dq; " group="; dq; "float"; dq; " />";
    "       <reg name="; dq; "s12"; dq; " bitsize="; dq; "32"; dq; " type="; dq; "float"; dq; " group="; dq; "float"; dq; " />";
    "       <reg name="; dq; "s13"; dq; " bitsize="; dq; "32"; dq; " type="; dq; "float"; dq; " group="; dq; "float"; dq; " />";
    "       <reg name="; dq; "s14"; dq; " bitsize="; dq; "32"; dq; " type="; dq; "float"; dq; " group="; dq; "float"; dq; " />";
    "       <reg name="; dq; "s15"; dq; " bitsize="; dq; "32"; dq; " type="; dq; "float"; dq; " group="; dq; "float"; dq; " />";
    "       <reg name="; dq; "s16"; dq; " bitsize="; dq; "32"; dq; " type="; dq; "float"; dq; " group="; dq; "float"; dq; " />";
    "       <reg name="; dq; "s17"; dq; " bitsize="; dq; "32"; dq; " type="; dq; "float"; dq; " group="; dq; "float"; dq; " />";
    "       <reg name="; dq; "s18"; dq; " bitsize="; dq; "32"; dq; " type="; dq; "float"; dq; " group="; dq; "float"; dq; " />";
    "       <reg name="; dq; "s19"; dq; " bitsize="; dq; "32"; dq; " type="; dq; "float"; dq; " group="; dq; "float"; dq; " />";
    "       <reg name="; dq; "s20"; dq; " bitsize="; dq; "32"; dq; " type="; dq; "float"; dq; " group="; dq; "float"; dq; " />";
    "       <reg name="; dq; "s21"; dq; " bitsize="; dq; "32"; dq; " type="; dq; "float"; dq; " group="; dq; "float"; dq; " />";
    "       <reg name="; dq; "s22"; dq; " bitsize="; dq; "32"; dq; " type="; dq; "float"; dq; " group="; dq; "float"; dq; " />";
    "       <reg name="; dq; "s23"; dq; " bitsize="; dq; "32"; dq; " type="; dq; "float"; dq; " group="; dq; "float"; dq; " />";
    "       <reg name="; dq; "s24"; dq; " bitsize="; dq; "32"; dq; " type="; dq; "float"; dq; " group="; dq; "float"; dq; " />";
    "       <reg name="; dq; "s25"; dq; " bitsize="; dq; "32"; dq; " type="; dq; "float"; dq; " group="; dq; "float"; dq; " />";
    "       <reg name="; dq; "s26"; dq; " bitsize="; dq; "32"; dq; " type="; dq; "float"; dq; " group="; dq; "float"; dq; " />";
    "       <reg name="; dq; "s27"; dq; " bitsize="; dq; "32"; dq; " type="; dq; "float"; dq; " group="; dq; "float"; dq; " />";
    "       <reg name="; dq; "s28"; dq; " bitsize="; dq; "32"; dq; " type="; dq; "float"; dq; " group="; dq; "float"; dq; " />";
    "       <reg name="; dq; "s29"; dq; " bitsize="; dq; "32"; dq; " type="; dq; "float"; dq; " group="; dq; "float"; dq; " />";
    "       <reg name="; dq; "s30"; dq; " bitsize="; dq; "32"; dq; " type="; dq; "float"; dq; " group="; dq; "float"; dq; " />";
    "       <reg name="; dq; "s31"; dq; " bitsize="; dq; "32"; dq; " type="; dq; "float"; dq; " group="; dq; "float"; dq; " />";
    "       <reg name="; dq; "fpscr"; dq; " bitsize="; dq; "32"; dq; " type="; dq; "int"; dq; " group="; dq; "float"; dq; " />";
    "   </feature>";
    "</target>"
  ]%string.

(** ** Cache synchronisation and resumes in a trace *)

(** Reading a trace from the left with the flag [synced] (a [cache_sync]
    has been entered since the last resume): [stlink_run] and [stlink_step]
    need the flag and clear it, [cache_sync] sets it.  [None]: some resume
    of the trace was not preceded by a [cache_sync]; [Some b]: none was, and
    [b] is the flag at the end. *)
Fixpoint sync_state (synced : bool) (tr : list event) : option bool :=
  match tr with
  | [] => Some synced
  | EvCacheSync :: rest => sync_state true rest
  | EvRun _ _ :: rest => if synced then sync_state false rest else None
  | EvStep _ :: rest => if synced then sync_state false rest else None
  | _ :: rest => sync_state synced rest
  end.

(** Every resume of the trace comes after a [cache_sync] of its own. *)
Definition resumes_synced (tr : list event) : bool :=
  match sync_state false tr with
  | Some _ => true
  | None => false
  end.

(** An event that is neither a resume nor a [cache_sync]. *)
Definition quiet_event (e : event) : bool :=
  match e with
  | EvCacheSync | EvRun _ _ | EvStep _ => false
  | _ => true
  end.

(** ** The phases of a flash commit in a trace *)



(** The bytes of a loader write are those staged for its page in one of
    [blocks]. *)
Definition staged_write (blocks : list flash_block) (e : event) : Prop :=
  match e with
  | EvFlashloaderWrite page data len _ =>
      exists fb, In fb blocks /\
        data = take (Z.to_nat len) (drop (Z.to_nat (u32 (page - fb_addr fb))) (fb_data fb))
  | _ => True
  end.


Section Server.
Context {B K : Type} `{Probe B} `{Remote K}.

(** ** Calls to the probe library, each logged in the trace *)

Definition call {A} (op : stlink_t B -> A * stlink_t B) (ev : A -> event) : M B K A :=
  fun x => match op (sl x) with (a, h) => (Done a, [ev a], set_sl h x) end.

Definition stlink_target_connect (mode : connect_type) : M B K Z :=
  call (fun h => probe_target_connect h mode) (EvTargetConnect mode).
Definition stlink_force_debug : M B K Z := call probe_force_debug EvForceDebug.
Definition stlink_run (type : run_type) : M B K Z :=
  call (fun h => probe_run h type) (EvRun type).
Definition stlink_step : M B K Z := call probe_step EvStep.
Definition stlink_status : M B K Z := call probe_status EvStatus.
Definition stlink_reset (type : reset_type) : M B K Z :=
  call (fun h => probe_reset h type) (EvReset type).
Definition stlink_exit_debug_mode : M B K Z := call probe_exit_debug_mode EvExitDebugMode.
Definition stlink_close : M B K unit :=
  call (fun h => (tt, probe_close h)) (fun _ => EvClose).
Definition stlink_read_all_regs : M B K (Z * stlink_reg) :=
  call probe_read_all_regs (fun a => EvReadAllRegs (fst a)).
Definition stlink_read_reg (idx : Z) : M B K (Z * stlink_reg) :=
  call (fun h => probe_read_reg h idx) (fun a => EvReadReg idx (fst a)).
Definition stlink_read_unsupported_reg (id : Z) : M B K (Z * stlink_reg) :=
  call (fun h => probe_read_unsupported_reg h id) (fun a => EvReadUnsupportedReg id (fst a)).
Definition stlink_write_reg (val idx : Z) : M B K Z :=
  call (fun h => probe_write_reg h val idx) (EvWriteReg val idx).
Definition stlink_write_unsupported_reg (val id : Z) : M B K Z :=
  call (fun h => probe_write_unsupported_reg h val id) (EvWriteUnsupportedReg val id).
Definition stlink_read_mem32 (addr len : Z) : M B K Z :=
  call (fun h => probe_read_mem32 h addr len) (EvReadMem32 addr len).
Definition stlink_write_mem32 (addr len : Z) : M B K Z :=
  fun x => call (fun h => probe_write_mem32 h addr len)
             (EvWriteMem32 addr len (take (Z.to_nat len) (q_buf (sl x)))) x.
Definition stlink_write_mem8 (addr len : Z) : M B K Z :=
  fun x => call (fun h => probe_write_mem8 h addr len)
             (EvWriteMem8 addr len (take (Z.to_nat len) (q_buf (sl x)))) x.
Definition stlink_read_debug32 (reg : debug_reg) : M B K (Z * Z) :=
  call (fun h => probe_read_debug32 h reg) (fun a => EvReadDebug32 reg (fst a) (snd a)).
Definition stlink_write_debug32 (reg : debug_reg) (val : Z) : M B K Z :=
  call (fun h => probe_write_debug32 h reg val) (EvWriteDebug32 reg val).
Definition stlink_calculate_pagesize (addr : Z) : M B K Z :=
  call (fun h => probe_calculate_pagesize h addr) (EvCalculatePagesize addr).
Definition stlink_get_erased_pattern : M B K Z :=
  gets (fun x => probe_get_erased_pattern (sl x)).
Definition stlink_erase_flash_page (addr : Z) : M B K Z :=
  call (fun h => probe_erase_flash_page h addr) (EvEraseFlashPage addr).
Definition stlink_flashloader_start : M B K Z :=
  call probe_flashloader_start EvFlashloaderStart.
Definition stlink_flashloader_write (addr : Z) (data : list Z) (len : Z) : M B K Z :=
  call (fun h => probe_flashloader_write h addr data len) (EvFlashloaderWrite addr data len).
Definition stlink_flashloader_stop : M B K Z :=
  call probe_flashloader_stop EvFlashloaderStop.
Definition do_semihosting (r0 r1 : Z) : M B K (Z * Z) :=
  call (fun h => probe_do_semihosting h r0 r1) (fun a => EvSemihosting r0 r1 (fst a)).

(** [#define FLASH_PAGE (sl->flash_pgsz)] *)
Definition FLASH_PAGE : M B K Z := gets (fun x => flash_pgsz (sl x)).

(** Calls on the client socket. *)
Definition on_client {A} (op : K -> A * K) (ev : A -> event) : M B K A :=
  fun x => match op (client x) with (a, c) => (Done a, [ev a], set_client c x) end.

Definition gdb_recv_packet : M B K (Z * packet) :=
  on_client remote_recv_packet (fun a => EvRecvPacket (fst a)).
Definition gdb_send_packet (reply : string) : M B K Z :=
  on_client (fun c => remote_send_packet c reply) (EvSendPacket reply).
Definition gdb_check_for_interrupt : M B K Z :=
  on_client remote_check_for_interrupt EvCheckForInterrupt.
Definition close_socket : M B K unit := emit EvCloseSocket.
Definition usleep (usec : Z) : M B K unit := emit (EvUsleep usec).

(** [malloc] and [free] on the set of live allocations. *)
Definition malloc : M B K ptr :=
  fun x => let p := fresh (heap x) in (Done p, [EvMalloc p], set_heap ({[p]} ∪ heap x) x).
Definition free (p : ptr) : M B K unit :=
  fun x => (Done tt, [EvFree p], set_heap (heap x ∖ {[p]}) x).

(** ** Watchpoints *)

Definition no_watch : code_hw_watchpoint :=
  {| wp_addr := 0; wp_mask := 0; wp_fun := WATCHDISABLED |}.

Definition init_data_watchpoints : M B K unit :=
  ' (_, data) <- stlink_read_debug32 STLINK_REG_CM3_DEMCR;
  let data := Z.lor data STLINK_REG_CM3_DEMCR_TRCENA in
  stlink_write_debug32 STLINK_REG_CM3_DEMCR data;;
  for_range (Z.to_nat DATA_WATCH_NUM) 0 (fun i =>
    dw <- gets data_watches;
    let w := zth no_watch dw i in
    modify (set_data_watches
      (zset dw i {| wp_addr := wp_addr w; wp_mask := wp_mask w; wp_fun := WATCHDISABLED |}));;
    stlink_write_debug32 (STLINK_REG_CM3_DWT_FUNn i) 0;;
    ret tt).

(** [while (i) { i >>= 1; mask++; }] with [int32_t i] and [uint32_t mask];
    [>>] on a negative [int32_t] is the arithmetic shift.  [None]: the loop
    is still running after [fuel] iterations. *)
Fixpoint count_shifts (fuel : nat) (i mask : Z) : option Z :=
  match fuel with
  | O => None
  | S fuel' =>
      if i =? 0 then Some mask
      else count_shifts fuel' (Z.shiftr i 1) (u32 (mask + 1))
  end.

(** The body of the loop over the slots of [add_data_watchpoint]: [Some 0]
    is [return (0)]. *)
Definition add_data_watchpoint_slot (wf : watchfun) (addr mask : Z) (i : Z)
  : M B K (option Z) :=
  dw <- gets data_watches;
  (* is this an empty slot ? *)
  if watchfun_eqb (wp_fun (zth no_watch dw i)) WATCHDISABLED then
    modify (set_data_watches
      (zset dw i {| wp_addr := addr; wp_mask := u8 mask; wp_fun := wf |}));;
    stlink_write_debug32 (STLINK_REG_CM3_DWT_COMPn i) addr;;
    stlink_write_debug32 (STLINK_REG_CM3_DWT_MASKn i) mask;;
    stlink_write_debug32 (STLINK_REG_CM3_DWT_FUNn i) (watchfun_value wf);;
    stlink_read_debug32 (STLINK_REG_CM3_DWT_FUNn i);;
    ret (Some 0)
  else ret None.

Definition add_data_watchpoint (wf : watchfun) (addr len : Z) : M B K Z :=
  match count_shifts 64 (s32 len) (u32 (-1)) with
  | None => diverge
  | Some mask =>
      o <- (if negb (mask =? u32 (-1)) && (mask <? 16) then
              for_first (Z.to_nat DATA_WATCH_NUM) 0 (add_data_watchpoint_slot wf addr mask)
            else ret None);
      match o with
      | Some v => ret v
      | None => ret (-1)
      end
  end.

(** The body of the loop of [delete_data_watchpoint]. *)
Definition delete_data_watchpoint_slot (addr : Z) (i : Z) : M B K (option Z) :=
  dw <- gets data_watches;
  let w := zth no_watch dw i in
  if (wp_addr w =? addr) && negb (watchfun_eqb (wp_fun w) WATCHDISABLED) then
    modify (set_data_watches
      (zset dw i {| wp_addr := wp_addr w; wp_mask := wp_mask w; wp_fun := WATCHDISABLED |}));;
    stlink_write_debug32 (STLINK_REG_CM3_DWT_FUNn i) 0;;
    ret (Some 0)
  else ret None.

Definition delete_data_watchpoint (addr : Z) : M B K Z :=
  o <- for_first (Z.to_nat DATA_WATCH_NUM) 0 (delete_data_watchpoint_slot addr);
  match o with
  | Some v => ret v
  | None => ret (-1)
  end.

(** ** Breakpoints *)

Definition no_break : code_hw_breakpoint := {| bp_addr := 0; bp_type := 0 |}.

Definition init_code_breakpoints : M B K unit :=
  modify (fun x => set_sl (set_q_buf ([0; 0; 0; 0] ++ drop 4 (q_buf (sl x))) (sl x)) x);;
  stlink_write_debug32 STLINK_REG_CM3_FP_CTRL 0x03;;
  ' (_, val) <- stlink_read_debug32 STLINK_REG_CM3_FP_CTRL;
  modify (set_code_break_regs (Z.land (Z.shiftr val 4) 0xf)
                              (Z.land (Z.shiftr val 8) 0xf)
                              (Z.land (Z.shiftr val 28) 0xf));;
  ' (_, val) <- stlink_read_debug32 STLINK_REG_CM3_CPUID;
  (if Z.land (Z.shiftr val 4) 0xFFF =? 0xC27 then
     stlink_write_debug32 STLINK_REG_CM7_FP_LAR STLINK_REG_CM7_FP_LAR_KEY;; ret tt
   else ret tt);;
  num <- gets code_break_num;
  for_range (Z.to_nat num) 0 (fun i =>
    cb <- gets code_breaks;
    modify (set_code_breaks
      (zset cb i {| bp_addr := bp_addr (zth no_break cb i); bp_type := 0 |}));;
    stlink_write_debug32 (STLINK_REG_CM3_FP_COMPn i) 0;;
    ret tt).

(** The body of the loop of [has_breakpoint]. *)
Definition has_breakpoint_slot (addr : Z) (i : Z) : M B K (option Z) :=
  cb <- gets code_breaks;
  if bp_addr (zth no_break cb i) =? addr then ret (Some 1) else ret None.

Definition has_breakpoint (addr : Z) : M B K Z :=
  num <- gets code_break_num;
  o <- for_first (Z.to_nat num) 0 (has_breakpoint_slot addr);
  match o with
  | Some v => ret v
  | None => ret 0
  end.

(** The body of the search loop of [update_code_breakpoint]: [Some i] is
    [id = i; break]. *)
Definition update_code_breakpoint_slot (fpb_addr set : Z) (i : Z) : M B K (option Z) :=
  cb <- gets code_breaks;
  if (fpb_addr =? bp_addr (zth no_break cb i))
     || (negb (set =? 0) && (bp_type (zth no_break cb i) =? 0))
  then ret (Some i) else ret None.

Definition update_code_breakpoint (addr : Z) (set : Z) : M B K Z :=
  if negb (Z.land addr 1 =? 0) then ret (-1)
  else
    rev <- gets code_break_rev;
    let type :=
      if rev =? CODE_BREAK_REV_V1
      then (if negb (Z.land addr 0x2 =? 0) then CODE_BREAK_HIGH else CODE_BREAK_LOW)
      else CODE_BREAK_REMAP in
    let fpb_addr :=
      if rev =? CODE_BREAK_REV_V1 then Z.land addr 0x1FFFFFFC else addr in
    num <- gets code_break_num;
    id <- for_first (Z.to_nat num) 0 (update_code_breakpoint_slot fpb_addr set);
    match id with
    | None => if negb (set =? 0) then ret (-1) else ret 0
    | Some id =>
        cb <- gets code_breaks;
        let old := bp_type (zth no_break cb id) in
        let new := if negb (set =? 0) then Z.lor old type else Z.land old (Z.lnot type) in
        modify (set_code_breaks (zset cb id {| bp_addr := fpb_addr; bp_type := new |}));;
        (* DDI0403E, p. 759, FP_COMPn register description *)
        let mask := u32 (Z.lor (Z.lor (Z.shiftl (Z.land new 0x03) 30) fpb_addr) 1) in
        (if new =? 0
         then stlink_write_debug32 (STLINK_REG_CM3_FP_COMPn id) 0
         else stlink_write_debug32 (STLINK_REG_CM3_FP_COMPn id) mask);;
        ret 0
    end.

(** ** Flash staging *)

Definition flash_add_block (addr length : Z) : M B K Z :=
  fsz <- gets (fun x => flash_size (sl x));
  if (addr <? FLASH_BASE) || (u32 (addr + length) >? u32 (FLASH_BASE + fsz)) then ret (-1)
  else
    stlink_calculate_pagesize addr;;
    pg <- FLASH_PAGE;
    if negb (addr mod pg =? 0) || negb (length mod pg =? 0) then ret (-1)
    else
      new <- malloc;
      data <- malloc;
      pattern <- stlink_get_erased_pattern;
      modify (fun x => set_flash_root
        ({| fb_self := new; fb_addr := addr; fb_length := length; fb_data_ptr := data;
            fb_data := repeat pattern (Z.to_nat length) |} :: flash_root x) x);;
      ret 0.

(** The body of the loop of [flash_populate] on one block: the block after
    the copy, and the number of bytes that fitted ([None] when the block does
    not intersect the data). *)
Definition flash_populate_block (addr : Z) (data : list Z) (length : Z) (fb : flash_block)
  : flash_block * option Z :=
  let X := fb_addr fb in
  let Y := u32 (fb_addr fb + fb_length fb) in
  let a := addr in
  let b := u32 (addr + length) in
  if (a <? Y) && (b >? X) then
    let start := u32 ((if a >? X then a else X) - X) in
    let end_ := u32 ((if b >? Y then Y else b) - X) in
    ({| fb_self := fb_self fb; fb_addr := fb_addr fb; fb_length := fb_length fb;
        fb_data_ptr := fb_data_ptr fb;
        fb_data := memcpy (fb_data fb) start data (u32 (end_ - start)) |},
     Some (u32 (end_ - start)))
  else (fb, None).

(** [for (fb = flash_root; fb; fb = fb->next)] of [flash_populate]: the
    blocks after the copies, [fit_blocks] and [fit_length]. *)
Fixpoint flash_populate_blocks (addr : Z) (data : list Z) (length : Z)
    (blocks : list flash_block) (fit_blocks fit_length : Z)
  : list flash_block * Z * Z :=
  match blocks with
  | [] => ([], fit_blocks, fit_length)
  | fb :: next =>
      let '(fb', fit) := flash_populate_block addr data length fb in
      let fit_blocks := match fit with Some _ => u32 (fit_blocks + 1) | None => fit_blocks end in
      let fit_length := match fit with Some n => u32 (fit_length + n) | None => fit_length end in
      let '(next', fit_blocks, fit_length) :=
        flash_populate_blocks addr data length next fit_blocks fit_length in
      (fb' :: next', fit_blocks, fit_length)
  end.

Definition flash_populate (addr : Z) (data : list Z) (length : Z) : M B K Z :=
  root <- gets flash_root;
  let '(root', fit_blocks, fit_length) := flash_populate_blocks addr data length root 0 0 in
  modify (set_flash_root root');;
  if fit_blocks =? 0 then ret (-1)
  else ret 0.       (* fit_length != length only logs a warning *)

(** The page loop of the erase pass of [flash_go] on one block, from [page]
    on; [Some ret]: [goto error]. *)
Fixpoint flash_erase_pages (fuel : nat) (fb : flash_block) (page : Z) : M B K (option Z) :=
  match fuel with
  | O => diverge
  | S fuel' =>
      if page <? u32 (fb_addr fb + fb_length fb) then
        stlink_calculate_pagesize page;;
        e <- stlink_erase_flash_page page;
        if negb (e =? 0) then ret (Some e)
        else
          pg <- FLASH_PAGE;
          flash_erase_pages fuel' fb (u32 (page + u32 pg))
      else ret None
  end.

Fixpoint flash_erase_blocks (fuel : nat) (blocks : list flash_block) : M B K (option Z) :=
  match blocks with
  | [] => ret None
  | fb :: rest =>
      o <- flash_erase_pages fuel fb (fb_addr fb);
      match o with
      | Some e => ret (Some e)
      | None => flash_erase_blocks fuel rest
      end
  end.

(** The page loop of the write pass of [flash_go]. *)
Fixpoint flash_write_pages (fuel : nat) (fb : flash_block) (page : Z) : M B K (option Z) :=
  match fuel with
  | O => diverge
  | S fuel' =>
      if page <? u32 (fb_addr fb + fb_length fb) then
        let length := u32 (fb_length fb - u32 (page - fb_addr fb)) in
        stlink_calculate_pagesize page;;
        pg <- FLASH_PAGE;
        let len := if length >? pg then u32 pg else length in
        let off := u32 (page - fb_addr fb) in
        e <- stlink_flashloader_write page
               (take (Z.to_nat len) (drop (Z.to_nat off) (fb_data fb))) len;
        if negb (e =? 0) then ret (Some e)
        else
          pg <- FLASH_PAGE;
          flash_write_pages fuel' fb (u32 (page + u32 pg))
      else ret None
  end.

Fixpoint flash_write_blocks (fuel : nat) (blocks : list flash_block) : M B K (option Z) :=
  match blocks with
  | [] => ret None
  | fb :: rest =>
      o <- flash_write_pages fuel fb (fb_addr fb);
      match o with
      | Some e => ret (Some e)
      | None => flash_write_blocks fuel rest
      end
  end.

(** The loop after the label [error:] of [flash_go]. *)
Fixpoint flash_free_blocks (blocks : list flash_block) : M B K unit :=
  match blocks with
  | [] => ret tt
  | fb :: next =>
      free (fb_data_ptr fb);;
      free (fb_self fb);;
      flash_free_blocks next
  end.

(** [flash_go] from the first erase loop to [error = 0]: the value of
    [error] at the label [error:].  [fuel] bounds the iterations of each
    page loop. *)
Definition flash_go_commit (fuel : nat) (blocks : list flash_block) : M B K Z :=
  o <- flash_erase_blocks fuel blocks;
  match o with
  | Some _ => ret (-1)
  | None =>
      e <- stlink_flashloader_start;
      if negb (e =? 0) then ret (-1)
      else
        o <- flash_write_blocks fuel blocks;
        match o with
        | Some _ => ret (-1)
        | None =>
            stlink_flashloader_stop;;
            stlink_reset RESET_SOFT_AND_HALT;;
            ret 0
        end
  end.

Definition flash_go (fuel : nat) : M B K Z :=
  mode <- gets (fun x => connect_mode (st x));
  stlink_target_connect mode;;
  stlink_force_debug;;
  root <- gets flash_root;
  error <- flash_go_commit fuel root;
  (* error: *)
  root <- gets flash_root;
  flash_free_blocks root;;
  modify (set_flash_root []);;
  ret error.

(** ** Cache synchronisation *)

Definition no_level : cache_level_desc :=
  {| nsets := 0; nways := 0; log2_nways := 0; width := 0 |}.

(** [for (res = 0; (1U << res) < v; res++);] for [v <= 2^31]. *)
Fixpoint ceil_log2_from (fuel : nat) (res v : Z) : Z :=
  match fuel with
  | O => res
  | S fuel' => if u32 (Z.shiftl 1 res) <? v then ceil_log2_from fuel' (res + 1) v else res
  end.

Definition ceil_log2 (v : Z) : Z := ceil_log2_from 32 0 v.

Definition read_cache_level_desc : M B K cache_level_desc :=
  ' (_, ccsidr) <- stlink_read_debug32 STLINK_REG_CM7_CCSIDR;
  let nsets_ := Z.land (Z.shiftr ccsidr 13) 0x3fff + 1 in
  let nways_ := Z.land (Z.shiftr ccsidr 3) 0x1ff + 1 in
  ret {| nsets := nsets_; nways := nways_; log2_nways := ceil_log2 nways_;
         width := 4 + Z.land ccsidr 7 + ceil_log2 nsets_ |}.

Definition with_width0 (d : cache_level_desc) : cache_level_desc :=
  {| nsets := nsets d; nways := nways d; log2_nways := log2_nways d; width := 0 |}.

Definition set_dcache (i : Z) (f : cache_level_desc -> cache_level_desc) (c : cache_desc_t)
  : cache_desc_t :=
  {| used := used c; dminline := dminline c; iminline := iminline c; louu := louu c;
     icache := icache c; dcache := zset (dcache c) i (f (zth no_level (dcache c) i)) |}.

Definition set_icache (i : Z) (f : cache_level_desc -> cache_level_desc) (c : cache_desc_t)
  : cache_desc_t :=
  {| used := used c; dminline := dminline c; iminline := iminline c; louu := louu c;
     icache := zset (icache c) i (f (zth no_level (icache c) i)); dcache := dcache c |}.

Definition init_cache : M B K unit :=
  ' (_, ctr) <- stlink_read_debug32 STLINK_REG_CM7_CTR;
  c <- gets cache_desc;
  if negb (Z.shiftr ctr 29 =? 0x04) then
    modify (set_cache_desc
      {| used := 0; dminline := dminline c; iminline := iminline c; louu := louu c;
         icache := icache c; dcache := dcache c |})
  else
    ' (_, clidr) <- stlink_read_debug32 STLINK_REG_CM7_CLIDR;
    modify (set_cache_desc
      {| used := 1;
         dminline := u32 (Z.shiftl 4 (Z.land (Z.shiftr ctr 16) 0x0f));
         iminline := u32 (Z.shiftl 4 (Z.land ctr 0x0f));
         louu := Z.land (Z.shiftr clidr 27) 7;
         icache := icache c; dcache := dcache c |});;
    stlink_read_debug32 STLINK_REG_CM7_CCR;;
    for_range 7 0 (fun i =>
      let ct := Z.land (Z.shiftr clidr (3 * i)) 0x07 in
      modify (fun x => set_cache_desc
        (set_icache i with_width0 (set_dcache i with_width0 (cache_desc x))) x);;
      (if (ct =? 2) || (ct =? 3) || (ct =? 4) then
         stlink_write_debug32 STLINK_REG_CM7_CSSELR (Z.shiftl i 1);;
         d <- read_cache_level_desc;
         modify (fun x => set_cache_desc (set_dcache i (fun _ => d) (cache_desc x)) x)
       else ret tt);;
      (if (ct =? 1) || (ct =? 3) then
         stlink_write_debug32 STLINK_REG_CM7_CSSELR (Z.lor (Z.shiftl i 1) 1);;
         d <- read_cache_level_desc;
         modify (fun x => set_cache_desc (set_icache i (fun _ => d) (cache_desc x)) x)
       else ret tt)).

(** [for (addr = ...; addr < max_addr; addr += cache_desc.dminline)] of
    [cache_flush], with the loop over the ways inside. *)
Fixpoint cache_flush_sets (fuel : nat) (desc : cache_level_desc) (addr max_addr way_sh dminl : Z)
  : M B K unit :=
  match fuel with
  | O => diverge
  | S fuel' =>
      if addr <? max_addr then
        for_range (Z.to_nat (nways desc)) 0 (fun way =>
          stlink_write_debug32 STLINK_REG_CM7_DCCSW
            (Z.lor addr (u32 (Z.shiftl way way_sh)));;
          ret tt);;
        cache_flush_sets fuel' desc (u32 (addr + dminl)) max_addr way_sh dminl
      else ret tt
  end.

(** [for (level = cache_desc.louu - 1; level >= 0; level--)]: [n] is
    [level + 1]. *)
Fixpoint cache_flush_levels (n : nat) : M B K unit :=
  match n with
  | O => ret tt
  | S n' =>
      let level := Z.of_nat n' in
      c <- gets cache_desc;
      let desc := zth no_level (dcache c) level in
      let max_addr := u32 (Z.shiftl 1 (width desc)) in
      let way_sh := u32 (32 - log2_nways desc) in
      cache_flush_sets (S (Z.to_nat max_addr)) desc (Z.shiftl level 1) max_addr way_sh
        (dminline c);;
      cache_flush_levels n'
  end.

Definition cache_flush (ccr : Z) : M B K unit :=
  (if negb (Z.land ccr STLINK_REG_CM7_CCR_DC =? 0) then
     c <- gets cache_desc;
     cache_flush_levels (Z.to_nat (louu c))
   else ret tt);;
  (if negb (Z.land ccr STLINK_REG_CM7_CCR_IC =? 0) then
     stlink_write_debug32 STLINK_REG_CM7_ICIALLU 0;; ret tt
   else ret tt).

Definition cache_change (start count : Z) : M B K unit :=
  if count =? 0 then ret tt
  else modify (set_cache_modified 1).

Definition cache_sync : M B K unit :=
  emit EvCacheSync;;
  c <- gets cache_desc;
  if used c =? 0 then ret tt
  else
    cm <- gets cache_modified;
    if cm =? 0 then ret tt
    else
      modify (set_cache_modified 0);;
      ' (_, ccr) <- stlink_read_debug32 STLINK_REG_CM7_CCR;
      if negb (Z.land ccr (Z.lor STLINK_REG_CM7_CCR_IC STLINK_REG_CM7_CCR_DC) =? 0)
      then cache_flush ccr
      else ret tt.

(** ** Replies *)

(** [static const char hex[] = "0123456789abcdef"] *)
Definition hex : string := "0123456789abcdef".

Definition hex_char (n : Z) : ascii :=
  match String.get (Z.to_nat n) hex with
  | Some c => c
  | None => "0"%char
  end.

(** The two digits [hex[b >> 4]], [hex[b & 0xf]] of a byte. *)
Definition hex_byte (b : Z) : string :=
  String (hex_char (Z.shiftr b 4)) (String (hex_char (Z.land b 0xf)) EmptyString).

(** [sprintf(.., "%08x", v)] *)
Definition sprintf_08x (v : Z) : string :=
  (hex_byte (Z.land (Z.shiftr v 24) 0xff) ++ hex_byte (Z.land (Z.shiftr v 16) 0xff)
   ++ hex_byte (Z.land (Z.shiftr v 8) 0xff) ++ hex_byte (Z.land v 0xff))%string.

(** [htonl] and [ntohl] on a little-endian host: the four bytes reversed. *)
Definition htonl (v : Z) : Z :=
  Z.lor (Z.lor (Z.shiftl (Z.land v 0xff) 24) (Z.shiftl (Z.land (Z.shiftr v 8) 0xff) 16))
        (Z.lor (Z.shiftl (Z.land (Z.shiftr v 16) 0xff) 8) (Z.land (Z.shiftr v 24) 0xff)).
Definition ntohl (v : Z) : Z := htonl v.

Definition strlen (str : string) : Z := Z.of_nat (String.length str).

(** [strncpy(dst, src, n)] into a zeroed buffer, read back as a C string:
    the first [n] characters of [src], or all of [src] when it is shorter. *)
Fixpoint strncpy (src : string) (n : Z) : string :=
  match src with
  | EmptyString => EmptyString
  | String c rest => if n <=? 0 then EmptyString else String c (strncpy rest (n - 1))
  end.

(** [!strncmp(str, lit, strlen(lit))] *)
Definition starts_with (lit str : string) : bool := String.prefix lit str.

(** What a command hands back to the loop of [serve]: the reply (None is
    [reply == NULL]) with the flag [critical_error], or the fact that the
    command left [serve] with [return (1)], or the process with [exit(1)]. *)
Inductive handled :=
  | Reply (reply : option string) (critical_error : Z)
  | Return1
  | Exit1.

(** ** [serve]: the query packets *)


(** Lines 1020-1031: the reply to a qXfer read of the document [data].
    The sum [addr + length], the difference [data_length - addr] and the size
    [length + 2] are computed in [uint32_t].  [None]: the buffer of
    [calloc(length + 2, 1)] is too short for the 'm' and the [length] bytes
    [strncpy] writes after it (the size wrapped around), so the copy runs past
    the buffer. *)
Definition xfer_reply (data : string) (addr length : Z) : option string :=
  let data_length := u32 (strlen data) in
  let length := if u32 (addr + length) >? data_length then u32 (data_length - addr) else length in
  if length =? 0 then Some "l"%string
  else if u32 (length + 2) <? 1 + length then None
  else Some (String "m" (strncpy data length)).

Definition serve_q_Xfer (type op : string) (addr length : Z) : M B K (option string) :=
  mm <- gets (fun x => current_memory_map (st x));
  let data :=
    if negb (op =? "read")%string then None
    else if (type =? "memory-map")%string then Some mm
    else if (type =? "features")%string then Some target_description
    else None in
  match data with
  | Some data =>
      match xfer_reply data addr length with
      | Some reply => ret (Some reply)
      | None => diverge
      end
  | None => ret None
  end.

Definition isspace (c : ascii) : bool :=
  let n := Z.of_nat (nat_of_ascii c) in (n =? 32) || ((9 <=? n) && (n <=? 13)).

(** [str + n] on a C string at least [n] characters long. *)
Fixpoint string_drop (n : nat) (str : string) : string :=
  match n, str with
  | S n', String _ rest => string_drop n' rest
  | _, _ => str
  end.

(** [while (isspace( *arg)) { arg++; }] *)
Fixpoint skip_spaces (arg : string) : string :=
  match arg with
  | EmptyString => EmptyString
  | String c rest => if isspace c then skip_spaces rest else arg
  end.

Definition serve_q_Rcmd (cmd : string) : M B K (option string) :=
  if starts_with "resume" cmd then
    cache_sync;;
    e <- stlink_run RUN_NORMAL;
    if negb (e =? 0) then ret (Some "E00"%string) else ret (Some "OK"%string)
  else if starts_with "halt" cmd then
    e <- stlink_force_debug;
    if negb (e =? 0) then ret (Some "E00"%string) else ret (Some "OK"%string)
  else if starts_with "jtag_reset" cmd then
    let reply := "OK"%string in
    e <- stlink_reset RESET_HARD;
    let reply := if negb (e =? 0) then "E00"%string else reply in
    e <- stlink_force_debug;
    let reply := if negb (e =? 0) then "E00"%string else reply in
    ret (Some reply)
  else if starts_with "reset" cmd then
    let reply : option string := None in
    e <- stlink_force_debug;
    let reply := if negb (e =? 0) then Some "E00"%string else reply in
    e <- stlink_reset RESET_SOFT_AND_HALT;
    let reply := if negb (e =? 0) then Some "E00"%string else reply in
    init_code_breakpoints;;
    init_data_watchpoints;;
    match reply with
    | None => ret (Some "OK"%string)
    | Some _ => ret reply
    end
  else if starts_with "semihosting " cmd then
    let arg := skip_spaces (string_drop 12 cmd) in
    if starts_with "enable" arg || starts_with "1" arg then
      modify (fun x => set_st (set_semihosting true (st x)) x);;
      ret (Some "OK"%string)
    else if starts_with "disable" arg || starts_with "0" arg then
      modify (fun x => set_st (set_semihosting false (st x)) x);;
      ret (Some "OK"%string)
    else ret None
  else ret None.

Definition serve_q (q : q_query) : M B K handled :=
  match q with
  | Q_thread_info => ret (Reply (Some ""%string) 0)
  | _ =>
      reply <-
        match q with
        | Q_Supported =>
            ret (Some "PacketSize=3fff;qXfer:memory-map:read+;qXfer:features:read+"%string)
        | Q_Xfer type op annex addr length => serve_q_Xfer type op addr length
        | Q_Rcmd cmd => serve_q_Rcmd cmd
        | _ => ret None
        end;
      match reply with
      | None => ret (Reply (Some ""%string) 0)
      | Some _ => ret (Reply reply 0)
      end
  end.

(** ** [serve]: the v packets *)

(** Lines 1190-1197, the loop that removes the escapes of a binary payload:
    [for (i = 0; i < data_length; i++)], the body reading [data[i]] and, after
    an escape byte, [data[i + 1]].  The result is the buffer [decoded],
    [dec_index], and the indices of [data] the loop read, in order.  [None]:
    the loop is still running after [fuel] iterations. *)
Fixpoint unescape_loop (fuel : nat) (data : list Z) (data_length i : Z)
    (decoded : list Z) (dec_index : Z) (reads : list Z)
  : option (list Z * Z * list Z) :=
  match fuel with
  | O => None
  | S fuel' =>
      if i <? data_length then
        if zth 0 data i =? 0x7d then
          let i' := u32 (i + 1) in
          unescape_loop fuel' data data_length (u32 (i' + 1))
            (zset decoded dec_index (u8 (Z.lxor (zth 0 data i') 0x20)))
            (u32 (dec_index + 1)) (reads ++ [i; i'])
        else
          unescape_loop fuel' data data_length (u32 (i + 1))
            (zset decoded dec_index (zth 0 data i))
            (u32 (dec_index + 1)) (reads ++ [i])
      else Some (decoded, dec_index, reads)
  end.

(** The payload decoded: [calloc(data_length + 1, 1)], the loop from
    [i = 0], and the alignment fix. *)
Definition unescape (data : list Z) : option (list Z * Z * list Z) :=
  let data_length := u32 (Z.of_nat (length data)) in
  match unescape_loop (S (length data)) data data_length 0
          (repeat 0 (S (length data))) 0 [] with
  | Some (decoded, dec_index, reads) =>
      Some (decoded, if negb (dec_index mod 2 =? 0) then u32 (dec_index + 1) else dec_index, reads)
  | None => None
  end.

Definition serve_v (fuel : nat) (v : v_command) : M B K handled :=
  reply <-
    match v with
    | V_FlashErase addr length =>
        e <- flash_add_block addr length;
        if e <? 0 then ret (Some "E00"%string) else ret (Some "OK"%string)
    | V_FlashWrite addr data =>
        match unescape data with
        | None => diverge
        | Some (decoded, dec_index, _) =>
            e <- flash_populate addr decoded dec_index;
            if e <? 0 then ret (Some "E00"%string) else ret (Some "OK"%string)
        end
    | V_FlashDone =>
        e <- flash_go fuel;
        if negb (e =? 0) then ret (Some "E08"%string) else ret (Some "OK"%string)
    | V_Kill =>
        modify (set_attached 0);;
        ret (Some "OK"%string)
    | V_other => ret None
    end;
  match reply with
  | None => ret (Reply (Some ""%string) 0)
  | Some _ => ret (Reply reply 0)
  end.

(** ** [serve]: continue and step *)

(** How the polling loop of the 'c' command ends: [break], or
    [return (1)] out of [serve]. *)
Inductive loop_exit :=
  | LoopBreak
  | LoopReturn1.

(** [memcpy(&insn, &sl->q_buf[offset], sizeof(insn))] on a little-endian
    host: the half-word at [offset] of the buffer. *)
Definition insn_at (q : list Z) (offset : Z) : Z :=
  zth 0 q offset + 256 * zth 0 q (offset + 1).

(** Lines 1251-1305: the body of [if (sl->core_stat == TARGET_HALTED)].
    [true]: the body ends in [break]; [false]: the loop goes on. *)
Definition serve_c_halted : M B K bool :=
  semi <- gets (fun x => semihosting (st x));
  if negb semi then ret true
  else
    ' (_, reg) <- stlink_read_all_regs;
    let pc := zth 0 (r reg) 15 in
    let offset := pc mod 4 in
    let addr := u32 (pc - offset) in
    e <- stlink_read_mem32 addr (if offset >? 2 then 8 else 4);
    if negb (e =? 0) then ret true
    else
      q <- gets (fun x => q_buf (sl x));
      let insn := insn_at q offset in
      hb <- has_breakpoint addr;
      if (insn =? 0xBEAB) && (hb =? 0) then
        ' (_, r0) <- do_semihosting (zth 0 (r reg) 0) (zth 0 (r reg) 1);
        stlink_write_reg r0 0;;
        stlink_write_reg (u32 (pc + 2)) 15;;
        cache_sync;;
        stlink_run RUN_NORMAL;;
        ret false
      else ret true.

(** Lines 1234-1305: one turn of [while (1)] of the 'c' command, up to the
    [usleep].  [Some e]: the turn leaves the loop; [None]: it reaches the
    [usleep] at the end of the body. *)
Definition serve_c_poll : M B K (option loop_exit) :=
  status <- gdb_check_for_interrupt;
  if status <? 0 then close_socket;; ret (Some LoopReturn1)
  else if status =? 1 then stlink_force_debug;; ret (Some LoopBreak)
  else
    stlink_status;;
    cs <- gets (fun x => core_stat (sl x));
    match cs with
    | TARGET_HALTED =>
        stop <- serve_c_halted;
        if (stop : bool) then ret (Some LoopBreak) else ret None
    | _ => ret None
    end.

(** Lines 1233-1308: [while (1)] of the 'c' command. *)
Fixpoint serve_c_loop (fuel : nat) : M B K loop_exit :=
  match fuel with
  | O => diverge
  | S fuel' =>
      o <- serve_c_poll;
      match o with
      | Some e => ret e
      | None => usleep 100000;; serve_c_loop fuel'
      end
  end.

Definition serve_c (fuel : nat) : M B K handled :=
  cache_sync;;
  stlink_run RUN_NORMAL;;
  e <- serve_c_loop fuel;
  match e with
  | LoopReturn1 => ret Return1
  | LoopBreak => ret (Reply (Some "S05"%string) 0)
  end.

Definition serve_s : M B K handled :=
  cache_sync;;
  e <- stlink_step;
  if negb (e =? 0) then ret (Reply (Some "E00"%string) 1)
  else ret (Reply (Some "S05"%string) 0).

(** ** [serve]: registers and memory *)

Definition serve_g : M B K handled :=
  ' (_, regp) <- stlink_read_all_regs;
  ret (Reply (Some (concat_strings
        (map (fun i => sprintf_08x (htonl (zth 0 (r regp) i))) (seqZ 0 16)))) 0).

Definition serve_p (id : Z) : M B K handled :=
  o <- (if id <? 16 then
          ' (_, regp) <- stlink_read_reg id; ret (Some (htonl (zth 0 (r regp) id)))
        else if id =? 0x19 then
          ' (_, regp) <- stlink_read_reg 16; ret (Some (htonl (xpsr regp)))
        else if id =? 0x1A then
          ' (_, regp) <- stlink_read_reg 17; ret (Some (htonl (main_sp regp)))
        else if id =? 0x1B then
          ' (_, regp) <- stlink_read_reg 18; ret (Some (htonl (process_sp regp)))
        else if id =? 0x1C then
          ' (_, regp) <- stlink_read_unsupported_reg id; ret (Some (htonl (control regp)))
        else if id =? 0x1D then
          ' (_, regp) <- stlink_read_unsupported_reg id; ret (Some (htonl (faultmask regp)))
        else if id =? 0x1E then
          ' (_, regp) <- stlink_read_unsupported_reg id; ret (Some (htonl (basepri regp)))
        else if id =? 0x1F then
          ' (_, regp) <- stlink_read_unsupported_reg id; ret (Some (htonl (primask regp)))
        else if (0x20 <=? id) && (id <? 0x40) then
          ' (_, regp) <- stlink_read_unsupported_reg id;
          ret (Some (htonl (zth 0 (s regp) (id - 0x20))))
        else if id =? 0x40 then
          ' (_, regp) <- stlink_read_unsupported_reg id; ret (Some (htonl (fpscr regp)))
        else ret None);
  match o with
  | None => ret (Reply (Some "E00"%string) 0)
  | Some myreg => ret (Reply (Some (sprintf_08x myreg)) 0)
  end.

Definition serve_P (reg value : Z) : M B K handled :=
  if reg <? 16 then stlink_write_reg (ntohl value) reg;; ret (Reply (Some "OK"%string) 0)
  else if reg =? 0x19 then stlink_write_reg (ntohl value) 16;; ret (Reply (Some "OK"%string) 0)
  else if reg =? 0x1A then stlink_write_reg (ntohl value) 17;; ret (Reply (Some "OK"%string) 0)
  else if reg =? 0x1B then stlink_write_reg (ntohl value) 18;; ret (Reply (Some "OK"%string) 0)
  else if (reg =? 0x1C) || (reg =? 0x1D) || (reg =? 0x1E) || (reg =? 0x1F)
          || ((0x20 <=? reg) && (reg <? 0x40)) || (reg =? 0x40) then
    stlink_write_unsupported_reg (ntohl value) reg;; ret (Reply (Some "OK"%string) 0)
  else ret (Reply (Some "E00"%string) 0).

Definition serve_G (regs : list Z) : M B K handled :=
  for_range 16 0 (fun i =>
    let reg := zth 0 regs i in
    stlink_write_reg (ntohl reg) i;;
    ret tt);;
  ret (Reply (Some "OK"%string) 0).

Definition serve_m (start count : Z) : M B K handled :=
  let adj_start := start mod 4 in
  let count_rnd := u32 (u32 (count + adj_start + 4 - 1) / 4 * 4) in
  pgsz <- gets (fun x => flash_pgsz (sl x));
  let count_rnd := if count_rnd >? pgsz then pgsz else count_rnd in
  let count_rnd := if count_rnd >? 0x1800 then 0x1800 else count_rnd in
  let count := if count_rnd <? count then count_rnd else count in
  e <- stlink_read_mem32 (u32 (start - adj_start)) count_rnd;
  let count := if negb (e =? 0) then 0 else count in
  q <- gets (fun x => q_buf (sl x));
  ret (Reply (Some (concat_strings
        (map (fun i => hex_byte (zth 0 q (i + adj_start))) (seqZ 0 count)))) 0).

(** [for (i = 0; i < n; i++) sl->q_buf[i] = <byte i of hexdata>] *)
Definition fill_q_buf (hexdata : list Z) (n : Z) : M B K unit :=
  modify (fun x => set_sl
    (set_q_buf (map (fun i => zth 0 hexdata i) (seqZ 0 n) ++ drop (Z.to_nat n) (q_buf (sl x)))
       (sl x)) x).

Definition serve_M (start count : Z) (hexdata : list Z) : M B K handled :=
  let err := 0 in
  ' (start, count, hexdata, err) <-
    (if negb (start mod 4 =? 0) then
       let align_count := u32 (4 - start mod 4) in
       let align_count := if align_count >? count then count else align_count in
       fill_q_buf hexdata align_count;;
       e <- stlink_write_mem8 start align_count;
       cache_change start align_count;;
       ret (u32 (start + align_count), u32 (count - align_count),
            drop (Z.to_nat align_count) hexdata, Z.lor err e)
     else ret (start, count, hexdata, err));
  ' (start, count, hexdata, err) <-
    (if negb (u32 (count - count mod 4) =? 0) then
       let aligned_count := u32 (count - count mod 4) in
       fill_q_buf hexdata aligned_count;;
       e <- stlink_write_mem32 start aligned_count;
       cache_change start aligned_count;;
       ret (u32 (start + aligned_count), u32 (count - aligned_count),
            drop (Z.to_nat aligned_count) hexdata, Z.lor err e)
     else ret (start, count, hexdata, err));
  err <-
    (if negb (count =? 0) then
       fill_q_buf hexdata count;;
       e <- stlink_write_mem8 start count;
       cache_change start count;;
       ret (Z.lor err e)
     else ret err);
  ret (Reply (Some (if negb (err =? 0) then "E00"%string else "OK"%string)) 0).

(** ** [serve]: breakpoints, watchpoints, session control *)

Definition serve_Z (kind : ascii) (addr len : Z) : M B K handled :=
  if (kind =? "1")%char then
    e <- update_code_breakpoint addr 1;
    if e <? 0 then ret (Reply (Some "E00"%string) 0) else ret (Reply (Some "OK"%string) 0)
  else if (kind =? "2")%char || (kind =? "3")%char || (kind =? "4")%char then
    let wf :=
      if (kind =? "2")%char then WATCHWRITE
      else if (kind =? "3")%char then WATCHREAD
      else WATCHACCESS in
    e <- add_data_watchpoint wf addr len;
    if e <? 0 then ret (Reply (Some "E00"%string) 0) else ret (Reply (Some "OK"%string) 0)
  else ret (Reply (Some ""%string) 0).

Definition serve_z (kind : ascii) (addr : Z) : M B K handled :=
  if (kind =? "1")%char then
    update_code_breakpoint addr 0;;
    ret (Reply (Some "OK"%string) 0)
  else if (kind =? "2")%char || (kind =? "3")%char || (kind =? "4")%char then
    e <- delete_data_watchpoint addr;
    if e <? 0 then ret (Reply (Some "E00"%string) 0) else ret (Reply (Some "OK"%string) 0)
  else ret (Reply (Some ""%string) 0).

Definition serve_R : M B K handled :=
  stlink_reset RESET_SOFT_AND_HALT;;
  init_code_breakpoints;;
  init_data_watchpoints;;
  modify (set_attached 1);;
  ret (Reply (Some "OK"%string) 0).

(** [_cleanup()] on [connected_stlink]. *)
Definition _cleanup : M B K unit :=
  stlink_run RUN_NORMAL;;
  stlink_exit_debug_mode;;
  stlink_close.

(** The 'k' command.  Until [connected_stlink = sl] the state keeps the
    closed handle, which is the one [cleanup(0)] works on. *)
Definition serve_k : M B K handled :=
  stlink_run RUN_NORMAL;;
  stlink_exit_debug_mode;;
  stlink_close;;
  x <- gets (fun x => x);
  let opened :=
    probe_open_usb (sl x) (logging_level (st x)) (connect_mode (st x))
      (serialnumber (st x)) (freq (st x)) in
  emit (EvOpenUsb (match opened with Some _ => true | None => false end));;
  match opened with
  | None => _cleanup;; ret Exit1
  | Some h =>
      if chip_id h =? STM32_CHIPID_UNKNOWN then _cleanup;; ret Exit1
      else
        modify (set_sl h);;
        stlink_force_debug;;
        init_cache;;
        init_code_breakpoints;;
        init_data_watchpoints;;
        ret (Reply None 0)
  end.

(** [switch (packet[0])] of [serve]. *)
Definition serve_packet (fuel : nat) (p : packet) : M B K handled :=
  match p with
  | Pkt_q q => serve_q q
  | Pkt_v v => serve_v fuel v
  | Pkt_c => serve_c fuel
  | Pkt_s => serve_s
  | Pkt_status =>
      a <- gets attached;
      if negb (a =? 0) then ret (Reply (Some "S05"%string) 0)
      else ret (Reply (Some "OK"%string) 0)
  | Pkt_g => serve_g
  | Pkt_p id => serve_p id
  | Pkt_P reg value => serve_P reg value
  | Pkt_G regs => serve_G regs
  | Pkt_m start count => serve_m start count
  | Pkt_M start count hexdata => serve_M start count hexdata
  | Pkt_Z kind addr len => serve_Z kind addr len
  | Pkt_z kind addr => serve_z kind addr
  | Pkt_extended =>
      modify (fun x => set_st (set_persistent 1 (st x)) x);;
      ret (Reply (Some "OK"%string) 0)
  | Pkt_R => serve_R
  | Pkt_k => serve_k
  | Pkt_unknown => ret (Reply (Some ""%string) 0)
  end.

(** How a session ends. *)
Inductive session_end :=
  | Returned (v : Z)        (* serve returned v *)
  | Exited (code : Z).      (* exit(code) *)

(** One turn of [while (1)] of [serve]: a request read, dispatched and
    answered.  [None]: the loop goes on. *)
Definition serve_iteration (fuel : nat) : M B K (option session_end) :=
  ' (status, p) <- gdb_recv_packet;
  if status <? 0 then close_socket;; ret (Some (Returned 1))
  else
    h <- serve_packet fuel p;
    match h with
    | Return1 => ret (Some (Returned 1))
    | Exit1 => ret (Some (Exited 1))
    | Reply reply critical_error =>
        sent <-
          match reply with
          | Some text =>
              result <- gdb_send_packet text;
              if negb (result =? 0) then close_socket;; ret (Some (Returned 1))
              else ret None
          | None => ret None
          end;
        match sent with
        | Some e => ret (Some e)
        | None =>
            if negb (critical_error =? 0) then close_socket;; ret (Some (Returned 1))
            else ret None
        end
    end.

(** [while (1)] of [serve], run for at most [turns] requests. *)
Fixpoint serve_loop (turns fuel : nat) : M B K session_end :=
  match turns with
  | O => diverge
  | S turns' =>
      o <- serve_iteration fuel;
      match o with
      | Some e => ret e
      | None => serve_loop turns' fuel
      end
  end.

(** [serve] from the accepted client on. *)
Definition serve (turns fuel : nat) : M B K session_end :=
  mode <- gets (fun x => connect_mode (st x));
  stlink_target_connect mode;;
  stlink_force_debug;;
  init_code_breakpoints;;
  init_data_watchpoints;;
  init_cache;;
  modify (fun x => set_st (set_current_memory_map (probe_make_memory_map (sl x)) (st x)) x);;
  modify (set_attached 1);;
  serve_loop turns fuel.

(** ** Notions used by the statements about the tables *)

(** Slot [i] of the watchpoint table is free ([fun == WATCHDISABLED]). *)
Definition wp_free (x : server B K) (i : Z) : Prop :=
  wp_fun (zth no_watch (data_watches x) i) = WATCHDISABLED.

(** The qXfer reply the specification states: the slice
    [addr, min (addr + length, doclen)) of the document, after 'm' when bytes
    of the document remain after the slice and after 'l' when the slice
    reaches the end of the document. *)
Definition spec_xfer_reply (data : string) (addr length : Z) : string :=
  let stop := Z.min (addr + length) (strlen data) in
  String (if stop <? strlen data then "m"%char else "l"%char)
    (String.substring (Z.to_nat addr) (Z.to_nat (stop - addr)) data).

(** The mask the specification states for a watchpoint of [len] bytes: the
    smallest [m] with [2^m >= len]. *)
Definition spec_watch_mask (len : Z) : Z := Z.log2_up len.

(** The table holds at most one active entry per address. *)
Definition one_watch_per_address (dw : list code_hw_watchpoint) : Prop :=
  forall i j, 0 <= i < 4 -> 0 <= j < 4 ->
    wp_fun (zth no_watch dw i) <> WATCHDISABLED ->
    wp_fun (zth no_watch dw j) <> WATCHDISABLED ->
    wp_addr (zth no_watch dw i) = wp_addr (zth no_watch dw j) ->
    i = j.

(** No active entry of the table watches [addr]. *)
Definition unwatched (dw : list code_hw_watchpoint) (addr : Z) : bool :=
  forallb (fun w => watchfun_eqb (wp_fun w) WATCHDISABLED || negb (wp_addr w =? addr)) dw.

(** The test of [delete_data_watchpoint] on slot [i]. *)
Definition wp_match (x : server B K) (addr i : Z) : bool :=
  (wp_addr (zth no_watch (data_watches x) i) =? addr)
  && negb (watchfun_eqb (wp_fun (zth no_watch (data_watches x) i)) WATCHDISABLED).

(** A watchpoint request: [Z2/Z3/Z4,addr,len] or [z2/z3/z4,addr]. *)
Inductive wp_op :=
  | WpInsert (wf : watchfun) (addr len : Z)
  | WpRemove (addr : Z).

Definition watch_op (op : wp_op) : M B K Z :=
  match op with
  | WpInsert wf addr len => add_data_watchpoint wf addr len
  | WpRemove addr => delete_data_watchpoint addr
  end.

Fixpoint watch_ops (ops : list wp_op) : M B K unit :=
  match ops with
  | [] => ret tt
  | op :: rest => watch_op op;; watch_ops rest
  end.

(** Every insertion of [ops], run from [x], is at an address no active
    entry watches at that moment. *)
Fixpoint inserts_fresh (ops : list wp_op) (x : server B K) : bool :=
  match ops with
  | [] => true
  | op :: rest =>
      match op with
      | WpInsert _ addr _ => unwatched (data_watches x) addr
      | WpRemove _ => true
      end && inserts_fresh rest (state_of (watch_op op x))
  end.

(** Some comparator slot among the first [code_break_num] holds [addr] in
    its address field: what [has_breakpoint] tests. *)
Definition breakpoint_slot_holds (x : server B K) (addr : Z) : bool :=
  existsb (fun i => bp_addr (zth no_break (code_breaks x) i) =? addr)
    (seqZ 0 (code_break_num x)).

(** The events of a halted check that ends without servicing the trap: at
    most the two reads. *)
Definition read_event (e : event) : bool :=
  match e with
  | EvReadAllRegs _ | EvReadMem32 _ _ _ => true
  | _ => false
  end.


(** [m] returns from every state. *)
Definition returns {A} (m : M B K A) : Prop :=
  forall x, exists a, result_of (m x) = Done a.


(** A cache description as [init_cache] fills it in: a positive line size
    ([4 << n]), at most seven levels, and for every data level below LoUU a
    width below 32.  With it the loops of [cache_flush] finish. *)
Definition cache_geometry_ok (c : cache_desc_t) : Prop :=
  0 < dminline c <= 2 ^ 31 /\
  louu c <= 7 /\
  forall level, 0 <= level < louu c -> 0 <= width (zth no_level (dcache c) level) <= 31.

(** [m] only makes calls that are neither resumes nor [cache_sync]. *)
Definition quiet {A} (m : M B K A) : Prop :=
  forall x, forallb quiet_event (events_of (m x)) = true.

(** Run with the flag [b], [m] performs no resume without a [cache_sync]
    before it, and leaves the flag [b'] when it returns. *)
Definition syncs {A} (b b' : bool) (m : M B K A) : Prop :=
  forall x, exists c,
    sync_state b (events_of (m x)) = Some c /\
    (forall a, result_of (m x) = Done a -> c = b').

(** What [flash_go] relies on for its page loops to advance: the page
    size [stlink_calculate_pagesize] leaves in [sl->flash_pgsz] is positive
    (and at most 2^31), and erasing or writing a page does not change it. *)
Definition pagesize_contract : Prop :=
  (forall h a, 0 < flash_pgsz (snd (probe_calculate_pagesize h a)) <= 2 ^ 31) /\
  (forall h a, flash_pgsz (snd (probe_erase_flash_page h a)) = flash_pgsz h) /\
  (forall h a d l, flash_pgsz (snd (probe_flashloader_write h a d l)) = flash_pgsz h).

(** A staged block lies in the lower half of the address space, as every
    block [flash_add_block] accepts does (flash starts at 0x08000000). *)
Definition block_in_range (fb : flash_block) : Prop :=
  0 <= fb_addr fb /\ 0 <= fb_length fb /\ fb_addr fb + fb_length fb <= 2 ^ 31.

(** The comparator type and address [update_code_breakpoint] computes for
    [addr] under the FPB revision [rev]. *)
Definition fpb_type (rev addr : Z) : Z :=
  if rev =? CODE_BREAK_REV_V1
  then (if negb (Z.land addr 0x2 =? 0) then CODE_BREAK_HIGH else CODE_BREAK_LOW)
  else CODE_BREAK_REMAP.

Definition fpb_address (rev addr : Z) : Z :=
  if rev =? CODE_BREAK_REV_V1 then Z.land addr 0x1FFFFFFC else addr.

(** The test of the search loop of [update_code_breakpoint] on slot [i]. *)
Definition bp_search (x : server B K) (fpb_addr set i : Z) : bool :=
  (fpb_addr =? bp_addr (zth no_break (code_breaks x) i))
  || (negb (set =? 0) && (bp_type (zth no_break (code_breaks x) i) =? 0)).

(** The value [update_code_breakpoint] writes to FP_COMPn for a slot of
    type [type] and address [fpb_addr]. *)
Definition fp_comp_value (type fpb_addr : Z) : Z :=
  if type =? 0 then 0
  else u32 (Z.lor (Z.lor (Z.shiftl (Z.land type 0x03) 30) fpb_addr) 1).

(** A user breakpoint is set at [addr]: a comparator slot among the first
    [code_break_num] holds the comparator address of [addr] and has the type
    bit of [addr] set, as a Z1 request at [addr] leaves it and a z1 request
    clears it again. *)
Definition user_breakpoint_at (x : server B K) (addr : Z) : bool :=
  existsb (fun i =>
             (bp_addr (zth no_break (code_breaks x) i) =? fpb_address (code_break_rev x) addr)
             && negb (Z.land (bp_type (zth no_break (code_breaks x) i))
                             (fpb_type (code_break_rev x) addr) =? 0))
    (seqZ 0 (code_break_num x)).

(** [m] leaves the part [f] of the state as it found it. *)
Definition keeps {A T} (f : server B K -> T) (m : M B K A) : Prop :=
  forall x, f (state_of (m x)) = f x.

(** The session tables: watchpoints, breakpoint comparators, staged flash
    blocks and their allocations. *)
Definition tables (x : server B K)
  : list code_hw_watchpoint * list code_hw_breakpoint * Z * list flash_block * gset ptr :=
  (data_watches x, code_breaks x, code_break_num x, flash_root x, heap x).

(** The commands that may change the session tables: breakpoint and
    watchpoint requests, the flash commands, 'R', 'k' and monitor reset. *)
Definition touches_tables (p : packet) : bool :=
  match p with
  | Pkt_Z _ _ _ | Pkt_z _ _ | Pkt_R | Pkt_k => true
  | Pkt_v (V_FlashErase _ _) | Pkt_v (V_FlashWrite _ _) | Pkt_v V_FlashDone => true
  | Pkt_q (Q_Rcmd cmd) =>
      negb (starts_with "resume" cmd) && negb (starts_with "halt" cmd)
      && negb (starts_with "jtag_reset" cmd) && starts_with "reset" cmd
  | _ => false
  end.

(** The run [o] returned, with a result and a final state that satisfy
    [Q]. *)
Definition post {A} (Q : A -> server B K -> Prop) (o : result A * list event * server B K)
  : Prop :=
  exists a, result_of o = Done a /\ Q a (state_of o).


(** Every call [m] makes satisfies [P]. *)
Definition emits {A} (P : event -> Prop) (m : M B K A) : Prop :=
  forall x, Forall P (events_of (m x)).

(** When [m] returns [a], the value and the trace of the run satisfy [R]. *)
Definition ends {A} (R : A -> list event -> Prop) (m : M B K A) : Prop :=
  forall x a, result_of (m x) = Done a -> R a (events_of (m x)).

(** The last call made before a handler leaves [serve]: the client socket
    is closed before [return (1)], the probe before [exit(1)]. *)
Definition handled_end (h : handled) (tr : list event) : Prop :=
  match h with
  | Return1 => last tr = Some EvCloseSocket
  | Exit1 => last tr = Some EvClose
  | Reply _ _ => True
  end.

(** The same for the session: [serve] returns 1 or the process exits with
    status 1. *)
Definition session_closed (e : session_end) (tr : list event) : Prop :=
  (e = Returned 1 /\ last tr = Some EvCloseSocket) \/
  (e = Exited 1 /\ last tr = Some EvClose).

(** The test of [flash_populate] on one block: the write range
    [addr, addr + length) meets the block. *)
Definition block_intersects (addr length : Z) (fb : flash_block) : bool :=
  (addr <? u32 (fb_addr fb + fb_length fb)) && (u32 (addr + length) >? fb_addr fb).

(** The heap allocations of the staged blocks. *)
Definition staged_pointers (blocks : list flash_block) : gset ptr :=
  list_to_set (flat_map (fun fb => [fb_data_ptr fb; fb_self fb]) blocks).

(** The number of occupied slots ([type != 0]) among the [code_break_num]
    comparators. *)
Definition occupied_slots (x : server B K) : nat :=
  length (filter (fun b => bp_type b <> 0)
            (take (Z.to_nat (code_break_num x)) (code_breaks x))).

End Server.

(** ** A scripted probe and client, for concrete runs

    Every operation answers with the status [sim_status]; reads deliver the
    registers [sim_regs] and the memory bytes [sim_mem]; [stlink_status]
    reports [sim_core]; the flash page size is 0x400 everywhere. *)

Record sim := {
  sim_status : Z;
  sim_regs : stlink_reg;
  sim_mem : list Z;
  sim_core : target_state;
  sim_semihosting_ret : Z }.

Definition sim_set_core_stat (c : target_state) (h : stlink_t sim) : stlink_t sim :=
  {| q_buf := q_buf h; core_stat := c; chip_id := chip_id h; core_id := core_id h;
     flash_size := flash_size h; sram_size := sram_size h; flash_pgsz := flash_pgsz h;
     sys_base := sys_base h; sys_size := sys_size h; backend_data := backend_data h |}.

Definition sim_set_flash_pgsz (p : Z) (h : stlink_t sim) : stlink_t sim :=
  {| q_buf := q_buf h; core_stat := core_stat h; chip_id := chip_id h; core_id := core_id h;
     flash_size := flash_size h; sram_size := sram_size h; flash_pgsz := p;
     sys_base := sys_base h; sys_size := sys_size h; backend_data := backend_data h |}.

Definition sim_answer (h : stlink_t sim) : Z * stlink_t sim :=
  (sim_status (backend_data h), h).

#[global] Instance sim_probe : Probe sim := {|
  probe_target_connect h _ := sim_answer h;
  probe_force_debug h := sim_answer h;
  probe_run h _ := sim_answer h;
  probe_step h := sim_answer h;
  probe_status h := (sim_status (backend_data h), sim_set_core_stat (sim_core (backend_data h)) h);
  probe_reset h _ := sim_answer h;
  probe_exit_debug_mode h := sim_answer h;
  probe_close h := h;
  probe_open_usb h _ _ _ _ := Some h;
  probe_read_all_regs h := (sim_status (backend_data h), sim_regs (backend_data h), h);
  probe_read_reg h _ := (sim_status (backend_data h), sim_regs (backend_data h), h);
  probe_read_unsupported_reg h _ := (sim_status (backend_data h), sim_regs (backend_data h), h);
  probe_write_reg h _ _ := sim_answer h;
  probe_write_unsupported_reg h _ _ := sim_answer h;
  probe_read_mem32 h _ _ := (sim_status (backend_data h), set_q_buf (sim_mem (backend_data h)) h);
  probe_write_mem32 h _ _ := sim_answer h;
  probe_write_mem8 h _ _ := sim_answer h;
  probe_read_debug32 h _ := (sim_status (backend_data h), 0, h);
  probe_write_debug32 h _ _ := sim_answer h;
  probe_calculate_pagesize h _ := (0x400, sim_set_flash_pgsz 0x400 h);
  probe_get_erased_pattern _ := 0xff;
  probe_erase_flash_page h _ := sim_answer h;
  probe_flashloader_start h := sim_answer h;
  probe_flashloader_write h _ _ _ := sim_answer h;
  probe_flashloader_stop h := sim_answer h;
  probe_do_semihosting h _ _ := (sim_status (backend_data h), sim_semihosting_ret (backend_data h), h);
  probe_make_memory_map _ := "<memory-map/>"%string;
  STLINK_REG_CM3_DEMCR_TRCENA := 2 ^ 24;
  STLINK_REG_CM7_CCR_IC := 2 ^ 17;
  STLINK_REG_CM7_CCR_DC := 2 ^ 16;
  STLINK_REG_CM7_FP_LAR_KEY := 0xC5ACCE55;
  STM32_CHIPID_UNKNOWN := 0 |}.

(** The client of the concrete runs: it never interrupts and sends nothing
    the server understands. *)
Record sim_client := { sim_interrupt : Z }.

#[global] Instance sim_remote : Remote sim_client := {|
  remote_recv_packet c := (1, Pkt_unknown, c);
  remote_send_packet c _ := (0, c);
  remote_check_for_interrupt c := (sim_interrupt c, c) |}.

(** Registers with the given [r0], [r1] and [pc], all others zero. *)
Definition sim_regs_at (r0 r1 pc : Z) : stlink_reg :=
  {| r := [r0; r1; 0; 0; 0; 0; 0; 0; 0; 0; 0; 0; 0; 0; 0; pc]; s := repeat 0 32;
     xpsr := 0; main_sp := 0; process_sp := 0; control := 0; faultmask := 0;
     basepri := 0; primask := 0; fpscr := 0 |}.

(** A target that answers every call with [status], halted at [pc] on the
    memory bytes [mem]. *)
Definition sim_target (status pc : Z) (mem : list Z) : sim :=
  {| sim_status := status; sim_regs := sim_regs_at 7 9 pc; sim_mem := mem;
     sim_core := TARGET_HALTED; sim_semihosting_ret := 42 |}.

(** A session right after [serve] has initialised its tables: no
    breakpoint, no watchpoint, nothing staged, six FPB comparators of
    revision [rev], no cache. *)
Definition sim_server (b : sim) (rev : Z) (semi : bool) : server sim sim_client :=
  {| sl := {| q_buf := repeat 0 16; core_stat := TARGET_UNKNOWN; chip_id := 0x413;
              core_id := 0x2BA01477; flash_size := 0x100000; sram_size := 0x20000;
              flash_pgsz := 0x400; sys_base := 0x1fff0000; sys_size := 0x7800;
              backend_data := b |};
     client := {| sim_interrupt := 0 |};
     st := {| logging_level := 0; listen_port := 4242; persistent := 0;
              connect_mode := CONNECT_NORMAL; freq := 0; serialnumber := ""%string;
              semihosting := semi; current_memory_map := "<memory-map/>"%string |};
     data_watches := repeat no_watch 4;
     code_break_num := 6; code_lit_num := 2; code_break_rev := rev;
     code_breaks := repeat no_break 15;
     flash_root := []; heap := ∅;
     cache_desc := {| used := 0; dminline := 0; iminline := 0; louu := 0;
                      icache := repeat no_level 7; dcache := repeat no_level 7 |};
     cache_modified := 0; attached := 1 |}.

(** A client that has hung up: every call on its socket answers [-1]. *)
Record sim_hangup := { hangup_status : Z }.

#[global] Instance hangup_remote : Remote sim_hangup := {|
  remote_recv_packet c := (hangup_status c, Pkt_unknown, c);
  remote_send_packet c _ := (hangup_status c, c);
  remote_check_for_interrupt c := (hangup_status c, c) |}.

(** The session of [sim_server] with the client gone. *)
Definition hangup_server (b : sim) : server sim sim_hangup :=
  let x := sim_server b 0 false in
  {| sl := sl x; client := {| hangup_status := -1 |}; st := st x;
     data_watches := data_watches x;
     code_break_num := code_break_num x; code_lit_num := code_lit_num x;
     code_break_rev := code_break_rev x; code_breaks := code_breaks x;
     flash_root := flash_root x; heap := heap x;
     cache_desc := cache_desc x; cache_modified := cache_modified x;
     attached := attached x |}.

(** A scripted probe for a Cortex-M7: every operation succeeds, and a debug
    register reads as [dbg_value] says; writes to debug registers are
    accepted and change nothing. *)
Record sim_dbg := { dbg_value : debug_reg -> Z }.

#[global] Instance dbg_probe : Probe sim_dbg := {|
  probe_target_connect h _ := (0, h);
  probe_force_debug h := (0, h);
  probe_run h _ := (0, h);
  probe_step h := (0, h);
  probe_status h := (0, h);
  probe_reset h _ := (0, h);
  probe_exit_debug_mode h := (0, h);
  probe_close h := h;
  probe_open_usb h _ _ _ _ := Some h;
  probe_read_all_regs h := (0, sim_regs_at 0 0 0, h);
  probe_read_reg h _ := (0, sim_regs_at 0 0 0, h);
  probe_read_unsupported_reg h _ := (0, sim_regs_at 0 0 0, h);
  probe_write_reg h _ _ := (0, h);
  probe_write_unsupported_reg h _ _ := (0, h);
  probe_read_mem32 h _ _ := (0, h);
  probe_write_mem32 h _ _ := (0, h);
  probe_write_mem8 h _ _ := (0, h);
  probe_read_debug32 h reg := (0, dbg_value (backend_data h) reg, h);
  probe_write_debug32 h _ _ := (0, h);
  probe_calculate_pagesize h _ := (0x400, h);
  probe_get_erased_pattern _ := 0xff;
  probe_erase_flash_page h _ := (0, h);
  probe_flashloader_start h := (0, h);
  probe_flashloader_write h _ _ _ := (0, h);
  probe_flashloader_stop h := (0, h);
  probe_do_semihosting h _ _ := (0, 0, h);
  probe_make_memory_map _ := "<memory-map/>"%string;
  STLINK_REG_CM3_DEMCR_TRCENA := 2 ^ 24;
  STLINK_REG_CM7_CCR_IC := 2 ^ 17;
  STLINK_REG_CM7_CCR_DC := 2 ^ 16;
  STLINK_REG_CM7_FP_LAR_KEY := 0xC5ACCE55;
  STM32_CHIPID_UNKNOWN := 0 |}.

(** The debug registers of a Cortex-M7 with six breakpoint comparators of
    FPB revision 1 ([FP_CTRL = 0x260]) and, per level-1 cache, 128 sets of 4
    ways with lines of 32 bytes. *)
Definition m7_registers (reg : debug_reg) : Z :=
  match reg with
  | STLINK_REG_CM3_CPUID => 0x410FC271
  | STLINK_REG_CM3_FP_CTRL => 0x260
  | STLINK_REG_CM7_CTR => 0x8303C003
  | STLINK_REG_CM7_CLIDR => 0x09200003
  | STLINK_REG_CM7_CCR => 0x00030000
  | STLINK_REG_CM7_CCSIDR => 0xF00FE019
  | _ => 0
  end.

(** A session on that probe in which slot 0 of the comparators holds a
    breakpoint at 0x08000100 and slot 0 of the watchpoints an active write
    watchpoint; nothing is known about the caches yet. *)
Definition m7_server : server sim_dbg sim_client :=
  {| sl := {| q_buf := repeat 0 16; core_stat := TARGET_UNKNOWN; chip_id := 0x449;
              core_id := 0x5BA02477; flash_size := 0x100000; sram_size := 0x50000;
              flash_pgsz := 0x400; sys_base := 0x1ff00000; sys_size := 0xEDC0;
              backend_data := {| dbg_value := m7_registers |} |};
     client := {| sim_interrupt := 0 |};
     st := {| logging_level := 0; listen_port := 4242; persistent := 0;
              connect_mode := CONNECT_NORMAL; freq := 0; serialnumber := ""%string;
              semihosting := false; current_memory_map := "<memory-map/>"%string |};
     data_watches := {| wp_addr := 0x20000000; wp_mask := 2; wp_fun := WATCHWRITE |}
                     :: repeat no_watch 3;
     code_break_num := 6; code_lit_num := 2; code_break_rev := 0;
     code_breaks := {| bp_addr := 0x08000100; bp_type := CODE_BREAK_LOW |}
                    :: repeat no_break 14;
     flash_root := []; heap := ∅;
     cache_desc := {| used := 0; dminline := 0; iminline := 0; louu := 0;
                      icache := repeat no_level 7; dcache := repeat no_level 7 |};
     cache_modified := 0; attached := 0 |}.

#[local] Set Warnings "-clear-no-such-hyp".
(** * Proofs *)

(** Case analysis on the answer of the next call to the outside world. *)
Ltac next_call :=
  match goal with
  | |- context [probe_target_connect ?h ?m] => destruct (probe_target_connect h m) as [? ?] eqn:?
  | |- context [probe_force_debug ?h] => destruct (probe_force_debug h) as [? ?] eqn:?
  | |- context [probe_run ?h ?t] => destruct (probe_run h t) as [? ?] eqn:?
  | |- context [probe_step ?h] => destruct (probe_step h) as [? ?] eqn:?
  | |- context [probe_status ?h] => destruct (probe_status h) as [? ?] eqn:?
  | |- context [probe_reset ?h ?t] => destruct (probe_reset h t) as [? ?] eqn:?
  | |- context [probe_exit_debug_mode ?h] => destruct (probe_exit_debug_mode h) as [? ?] eqn:?
  | |- context [probe_read_all_regs ?h] => destruct (probe_read_all_regs h) as [[? ?] ?] eqn:?
  | |- context [probe_read_reg ?h ?i] => destruct (probe_read_reg h i) as [[? ?] ?] eqn:?
  | |- context [probe_read_unsupported_reg ?h ?i] =>
      destruct (probe_read_unsupported_reg h i) as [[? ?] ?] eqn:?
  | |- context [probe_write_reg ?h ?v ?i] => destruct (probe_write_reg h v i) as [? ?] eqn:?
  | |- context [probe_write_unsupported_reg ?h ?v ?i] =>
      destruct (probe_write_unsupported_reg h v i) as [? ?] eqn:?
  | |- context [probe_read_mem32 ?h ?a ?l] => destruct (probe_read_mem32 h a l) as [? ?] eqn:?
  | |- context [probe_write_mem32 ?h ?a ?l] => destruct (probe_write_mem32 h a l) as [? ?] eqn:?
  | |- context [probe_write_mem8 ?h ?a ?l] => destruct (probe_write_mem8 h a l) as [? ?] eqn:?
  | |- context [probe_read_debug32 ?h ?r] => destruct (probe_read_debug32 h r) as [[? ?] ?] eqn:?
  | |- context [probe_write_debug32 ?h ?r ?v] =>
      destruct (probe_write_debug32 h r v) as [? ?] eqn:?
  | |- context [probe_calculate_pagesize ?h ?a] =>
      destruct (probe_calculate_pagesize h a) as [? ?] eqn:?
  | |- context [probe_erase_flash_page ?h ?a] =>
      destruct (probe_erase_flash_page h a) as [? ?] eqn:?
  | |- context [probe_flashloader_start ?h] => destruct (probe_flashloader_start h) as [? ?] eqn:?
  | |- context [probe_flashloader_write ?h ?a ?d ?l] =>
      destruct (probe_flashloader_write h a d l) as [? ?] eqn:?
  | |- context [probe_flashloader_stop ?h] => destruct (probe_flashloader_stop h) as [? ?] eqn:?
  | |- context [probe_do_semihosting ?h ?a ?b] =>
      destruct (probe_do_semihosting h a b) as [[? ?] ?] eqn:?
  | |- context [remote_check_for_interrupt ?c] =>
      destruct (remote_check_for_interrupt c) as [? ?] eqn:?
  | |- context [remote_send_packet ?c ?r] => destruct (remote_send_packet c r) as [? ?] eqn:?
  | |- context [remote_recv_packet ?c] => destruct (remote_recv_packet c) as [[? ?] ?] eqn:?
  end.

(** The monad and the logged calls unfolded. *)
Ltac unfold_calls :=
  unfold bind, ret, gets, modify, emit, diverge,
    stlink_target_connect, stlink_force_debug, stlink_run, stlink_step, stlink_status,
    stlink_reset, stlink_exit_debug_mode, stlink_close, stlink_read_all_regs,
    stlink_read_reg, stlink_read_unsupported_reg, stlink_write_reg,
    stlink_write_unsupported_reg, stlink_read_mem32, stlink_write_mem32, stlink_write_mem8,
    stlink_read_debug32, stlink_write_debug32, stlink_calculate_pagesize,
    stlink_get_erased_pattern, stlink_erase_flash_page, stlink_flashloader_start,
    stlink_flashloader_write, stlink_flashloader_stop, do_semihosting, FLASH_PAGE,
    gdb_recv_packet, gdb_send_packet, gdb_check_for_interrupt, close_socket, usleep,
    call, on_client, emit in *.

Ltac run_calls :=
  change (Z.to_nat DATA_WATCH_NUM) with 4%nat in *;
  repeat first [ progress unfold_calls | progress cbn | next_call ].

(** ** Machine integers and the monad *)

Lemma s32_small z : 0 <= z < 2 ^ 31 -> s32 z = z.
Proof.
  intros Hz. unfold s32. rewrite Z.mod_small by lia.
  destruct (Z.ltb_spec z (2 ^ 31)); lia.
Qed.

Lemma u32_small z : 0 <= z < 2 ^ 32 -> u32 z = z.
Proof. intros Hz. unfold u32. apply Z.mod_small. lia. Qed.

Lemma count_shifts_log2 fuel : forall i k,
  1 <= i < 2 ^ (Z.of_nat fuel - 1) -> 0 <= k -> k + Z.of_nat fuel < 2 ^ 32 ->
  count_shifts fuel i (u32 (k - 1)) = Some (k + Z.log2 i).
Proof.
  induction fuel as [|fuel IH]; intros i k Hi Hk Hb.
  - simpl in Hi. change (2 ^ (0 - 1)) with 0 in Hi. lia.
  - cbn [count_shifts].
    destruct (Z.eqb_spec i 0) as [->|_]; [lia|].
    assert (Hu : u32 (u32 (k - 1) + 1) = u32 (k + 1 - 1)).
    { unfold u32. rewrite Zplus_mod_idemp_l. f_equal. lia. }
    rewrite Hu.
    destruct (Z.eq_dec i 1) as [->|Hne].
    + change (Z.shiftr 1 1) with 0.
      destruct fuel as [|fuel]; [simpl in Hi; lia|].
      cbn [count_shifts]. simpl (0 =? 0). cbn iota.
      rewrite u32_small by lia. change (Z.log2 1) with 0. f_equal. lia.
    + assert (Hd : Z.shiftr i 1 = i / 2) by (rewrite Z.shiftr_div_pow2 by lia; reflexivity).
      assert (Hi2 : 1 <= i / 2) by (apply Z.div_le_lower_bound; lia).
      rewrite IH.
      * f_equal. rewrite Z.log2_shiftr by lia.
        assert (1 <= Z.log2 i) by (apply Z.log2_le_pow2; simpl; lia). lia.
      * rewrite Hd. split; [lia|]. apply Z.div_lt_upper_bound; [lia|].
        destruct fuel as [|fuel]; [simpl in Hi; lia|].
        replace (Z.of_nat (S (S fuel)) - 1) with (Z.succ (Z.of_nat (S fuel) - 1)) in Hi by lia.
        rewrite Z.pow_succ_r in Hi by lia. lia.
      * lia.
      * lia.
Qed.

Section Tables.
Context {B K : Type} `{Probe B} `{Remote K}.
Local Open Scope server_scope.

Lemma bind_gets {A A'} (f : server B K -> A) (k : A -> M B K A') x :
  bind (gets f) k x = k (f x) x.
Proof. unfold bind, gets. destruct (k (f x) x) as [[? ?] ?]. reflexivity. Qed.

Lemma bind_ret {A A'} (a : A) (k : A -> M B K A') x : bind (ret a) k x = k a x.
Proof. unfold bind, ret. destruct (k a x) as [[? ?] ?]. reflexivity. Qed.

Lemma bind_modify {A'} (g : server B K -> server B K) (k : unit -> M B K A') x :
  bind (modify g) k x = k tt (g x).
Proof. unfold bind, modify. destruct (k tt (g x)) as [[? ?] ?]. reflexivity. Qed.

Lemma bind_done {A A'} (m : M B K A) (k : A -> M B K A') x a e x1 :
  m x = (Done a, e, x1) ->
  bind m k x = (result_of (k a x1), e ++ events_of (k a x1), state_of (k a x1)).
Proof. intros Hm. unfold bind. rewrite Hm. destruct (k a x1) as [[? ?] ?]. reflexivity. Qed.

Lemma bind_diverge {A A'} (m : M B K A) (k : A -> M B K A') x e x1 :
  m x = (Diverge, e, x1) -> bind m k x = (Diverge, e, x1).
Proof. intros Hm. unfold bind. rewrite Hm. reflexivity. Qed.

Lemma run_eta {A} (o : result A * list event * server B K) :
  (result_of o, events_of o, state_of o) = o.
Proof. destruct o as [[? ?] ?]. reflexivity. Qed.

Lemma for_first_none {A} n : forall i (body : Z -> M B K (option A)) x,
  (forall j, i <= j < i + Z.of_nat n -> body j x = (Done None, [], x)) ->
  for_first n i body x = (Done None, [], x).
Proof.
  induction n as [|n IH]; intros i body x Hb; [reflexivity|].
  cbn [for_first]. unfold bind at 1. rewrite Hb by lia.
  rewrite IH; [reflexivity|]. intros j Hj. apply Hb. lia.
Qed.

Lemma for_first_hit {A} n : forall (k : nat) i (body : Z -> M B K (option A)) x a e x',
  (k < n)%nat ->
  (forall j, i <= j < i + Z.of_nat k -> body j x = (Done None, [], x)) ->
  body (i + Z.of_nat k) x = (Done (Some a), e, x') ->
  for_first n i body x = (Done (Some a), e, x').
Proof.
  induction n as [|n IH]; intros k i body x a e x' Hk Hn Hh; [lia|].
  cbn [for_first]. unfold bind at 1.
  destruct k as [|k].
  - replace (i + Z.of_nat 0) with i in Hh by lia. rewrite Hh.
    unfold ret. rewrite app_nil_r. reflexivity.
  - rewrite Hn by lia.
    rewrite (IH k (i + 1) body x a e x'); [reflexivity|lia| |].
    + intros j Hj. apply Hn. lia.
    + rewrite <- Hh. f_equal. lia.
Qed.

(** The first index in [i, i + n) at which [p] holds. *)
Lemma first_index_dec (p : Z -> bool) n : forall i,
  (forall j, i <= j < i + Z.of_nat n -> p j = false) \/
  (exists k : nat, (k < n)%nat /\ p (i + Z.of_nat k) = true /\
     forall j, i <= j < i + Z.of_nat k -> p j = false).
Proof.
  induction n as [|n IH]; intros i.
  - left. intros j Hj. lia.
  - destruct (p i) eqn:Hp.
    + right. exists 0%nat. split; [lia|]. split.
      * rewrite Z.add_0_r. exact Hp.
      * intros j Hj. lia.
    + destruct (IH (i + 1)) as [Hnone|(k & Hk & Hpk & Hlt)].
      * left. intros j Hj. destruct (Z.eq_dec j i) as [->|]; [exact Hp|]. apply Hnone. lia.
      * right. exists (S k). split; [lia|]. split.
        -- rewrite <- Hpk. f_equal. lia.
        -- intros j Hj. destruct (Z.eq_dec j i) as [->|]; [exact Hp|]. apply Hlt. lia.
Qed.

Lemma zth_zset_eq {A} (d : A) l i v :
  0 <= i < Z.of_nat (length l) -> zth d (zset l i v) i = v.
Proof.
  intros Hi. unfold zth, zset.
  destruct (Z.ltb_spec i 0); [lia|].
  apply nth_lookup_Some with (d := d). apply list_lookup_insert_eq. lia.
Qed.

Lemma zth_zset_ne {A} (d : A) l i j v :
  i <> j -> zth d (zset l i v) j = zth d l j.
Proof.
  intros Hij. unfold zth, zset.
  destruct (Z.ltb_spec j 0); [reflexivity|].
  destruct (Z.ltb_spec i 0); [reflexivity|].
  rewrite !nth_lookup. rewrite list_lookup_insert_ne by lia. reflexivity.
Qed.

Lemma length_zset {A} (l : list A) i v : length (zset l i v) = length l.
Proof. unfold zset. destruct (i <? 0); [reflexivity|]. apply length_insert. Qed.

Lemma watchfun_eqb_spec a b : watchfun_eqb a b = true <-> a = b.
Proof. destruct a, b; unfold watchfun_eqb; simpl; split; intros; congruence. Qed.

Lemma watchfun_eqb_false a b : watchfun_eqb a b = false <-> a <> b.
Proof. destruct a, b; unfold watchfun_eqb; simpl; split; intros; congruence. Qed.


Lemma count_shifts_len len :
  1 <= len < 2 ^ 31 -> count_shifts 64 (s32 len) (u32 (-1)) = Some (Z.log2 len).
Proof.
  intros Hlen. rewrite s32_small by lia.
  change (u32 (-1)) with (u32 (0 - 1)).
  rewrite (count_shifts_log2 64 len 0) by (simpl; lia).
  reflexivity.
Qed.

Lemma log2_lt_16 len : 1 <= len -> (Z.log2 len < 16 <-> len < 65536).
Proof.
  intros Hlen. change 65536 with (2 ^ 16). symmetry. apply Z.log2_lt_pow2. lia.
Qed.

Lemma add_data_watchpoint_reject wf addr len (x : server B K) :
  len = 0 \/ 65536 <= len < 2 ^ 31 ->
  add_data_watchpoint wf addr len x = (Done (-1), [], x).
Proof.
  intros [->|Hlen]; [reflexivity|].
  unfold add_data_watchpoint. rewrite count_shifts_len by lia.
  assert (Hl : 16 <= Z.log2 len < 31).
  { split.
    - destruct (Z.lt_ge_cases (Z.log2 len) 16) as [Hlt|]; [|lia].
      apply log2_lt_16 in Hlt; lia.
    - apply Z.log2_lt_pow2; lia. }
  destruct (Z.ltb_spec (Z.log2 len) 16); [lia|].
  rewrite andb_false_r. reflexivity.
Qed.

Lemma add_data_watchpoint_full wf addr len (x : server B K) :
  1 <= len < 65536 ->
  (forall i, 0 <= i < 4 -> ~ wp_free x i) ->
  add_data_watchpoint wf addr len x = (Done (-1), [], x).
Proof.
  intros Hlen Hfull.
  unfold add_data_watchpoint. rewrite count_shifts_len by lia.
  assert (Hl : 0 <= Z.log2 len < 16).
  { split; [apply Z.log2_nonneg|]. apply log2_lt_16; lia. }
  destruct (Z.ltb_spec (Z.log2 len) 16); [|lia].
  change (u32 (-1)) with 4294967295.
  destruct (Z.eqb_spec (Z.log2 len) 4294967295); [lia|].
  cbn [negb andb]. unfold bind at 1.
  rewrite for_first_none; [reflexivity|].
  intros j Hj. change (Z.of_nat (Z.to_nat DATA_WATCH_NUM)) with 4 in Hj.
  unfold add_data_watchpoint_slot, bind, gets. cbn.
  specialize (Hfull j ltac:(lia)). unfold wp_free in Hfull.
  apply watchfun_eqb_false in Hfull. rewrite Hfull. reflexivity.
Qed.

Lemma add_data_watchpoint_hit wf addr len (x : server B K) i :
  1 <= len < 65536 ->
  0 <= i < 4 -> wp_free x i -> (forall j, 0 <= j < i -> ~ wp_free x j) ->
  exists e1 e2 e3 e4 v h,
    add_data_watchpoint wf addr len x =
      (Done 0,
       [EvWriteDebug32 (STLINK_REG_CM3_DWT_COMPn i) addr e1;
        EvWriteDebug32 (STLINK_REG_CM3_DWT_MASKn i) (Z.log2 len) e2;
        EvWriteDebug32 (STLINK_REG_CM3_DWT_FUNn i) (watchfun_value wf) e3;
        EvReadDebug32 (STLINK_REG_CM3_DWT_FUNn i) e4 v],
       set_sl h (set_data_watches
         (zset (data_watches x) i {| wp_addr := addr; wp_mask := Z.log2 len; wp_fun := wf |}) x)).
Proof.
  intros Hlen Hi Hfree Hbefore.
  unfold add_data_watchpoint. rewrite count_shifts_len by lia.
  assert (Hl : 0 <= Z.log2 len < 16).
  { split; [apply Z.log2_nonneg|]. apply log2_lt_16; lia. }
  destruct (Z.ltb_spec (Z.log2 len) 16); [|lia].
  change (u32 (-1)) with 4294967295.
  destruct (Z.eqb_spec (Z.log2 len) 4294967295); [lia|].
  cbn [negb andb].
  set (body := add_data_watchpoint_slot wf addr (Z.log2 len)).
  assert (Hbody : exists e1 e2 e3 e4 v h,
            body (0 + Z.of_nat (Z.to_nat i)) x =
              (Done (Some 0),
               [EvWriteDebug32 (STLINK_REG_CM3_DWT_COMPn i) addr e1;
                EvWriteDebug32 (STLINK_REG_CM3_DWT_MASKn i) (Z.log2 len) e2;
                EvWriteDebug32 (STLINK_REG_CM3_DWT_FUNn i) (watchfun_value wf) e3;
                EvReadDebug32 (STLINK_REG_CM3_DWT_FUNn i) e4 v],
               set_sl h (set_data_watches
                 (zset (data_watches x) i
                    {| wp_addr := addr; wp_mask := Z.log2 len; wp_fun := wf |}) x))).
  { subst body. rewrite Z.add_0_l, Z2Nat.id by lia.
    unfold add_data_watchpoint_slot, bind, gets, modify, ret, stlink_write_debug32, stlink_read_debug32, call.
    cbn. unfold wp_free in Hfree. rewrite Hfree. cbn.
    repeat match goal with
           | |- context [probe_write_debug32 ?h ?r ?v] =>
               destruct (probe_write_debug32 h r v) as [? ?]; cbn
           | |- context [probe_read_debug32 ?h ?r] =>
               destruct (probe_read_debug32 h r) as [[? ?] ?]; cbn
           end.
    unfold u8. rewrite Z.mod_small by lia.
    do 6 eexists. reflexivity. }
  destruct Hbody as (e1 & e2 & e3 & e4 & v & h & Hbody).
  exists e1, e2, e3, e4, v, h.
  assert (Hlt : (Z.to_nat i < Z.to_nat DATA_WATCH_NUM)%nat)
    by (change DATA_WATCH_NUM with 4; lia).
  assert (Hmiss : forall j, 0 <= j < 0 + Z.of_nat (Z.to_nat i) -> body j x = (Done None, [], x)).
  { intros j Hj. subst body. unfold add_data_watchpoint_slot, bind, gets. cbn.
    specialize (Hbefore j ltac:(lia)). unfold wp_free in Hbefore.
    apply watchfun_eqb_false in Hbefore. rewrite Hbefore. reflexivity. }
  unfold bind at 1.
  rewrite (for_first_hit _ _ _ _ _ _ _ _ Hlt Hmiss Hbody).
  reflexivity.
Qed.

(** Some slot is free, or none is; with the first free one. *)
Lemma wp_first_free (x : server B K) :
  (forall i, 0 <= i < 4 -> ~ wp_free x i) \/
  (exists i, 0 <= i < 4 /\ wp_free x i /\ forall j, 0 <= j < i -> ~ wp_free x j).
Proof.
  destruct (first_index_dec
              (fun i => watchfun_eqb (wp_fun (zth no_watch (data_watches x) i)) WATCHDISABLED)
              4 0) as [Hnone|(k & Hk & Hpk & Hbefore)].
  - left. intros i Hi Hfree. specialize (Hnone i ltac:(lia)).
    apply watchfun_eqb_false in Hnone. contradiction.
  - right. exists (Z.of_nat k). rewrite Z.add_0_l in Hpk. split; [lia|]. split.
    + apply watchfun_eqb_spec. exact Hpk.
    + intros j Hj Hfree. specialize (Hbefore j ltac:(lia)).
      apply watchfun_eqb_false in Hbefore. contradiction.
Qed.

(** C2 (amended): for a watchpoint insertion of length [len] below 2^31,
    the programmed mask is the largest [m] with [2^m <= len] (so 1 gives 0,
    2..3 give 1, 4..7 give 2, ..., 32768..65535 give 15); the insertion is
    accepted, into the first free slot, exactly when [1 <= len < 65536] and a
    slot is free, and is rejected with -1, nothing written, otherwise (length
    0, a mask of 16 or more, or a full table). *)
Theorem add_data_watchpoint_mask_law (wf : watchfun) (addr len : Z) (x : server B K) :
  0 <= len < 2 ^ 31 ->
  let out := add_data_watchpoint wf addr len x in
  (result_of out = Done 0 \/ result_of out = Done (-1)) /\
  (result_of out = Done 0 <-> 1 <= len < 65536 /\ exists i, 0 <= i < 4 /\ wp_free x i) /\
  (result_of out = Done 0 ->
     exists i e1 e2 e3 e4 v,
       0 <= i < 4 /\ wp_free x i /\ (forall j, 0 <= j < i -> ~ wp_free x j) /\
       2 ^ Z.log2 len <= len < 2 ^ (Z.log2 len + 1) /\
       data_watches (state_of out) =
         zset (data_watches x) i {| wp_addr := addr; wp_mask := Z.log2 len; wp_fun := wf |} /\
       events_of out =
         [EvWriteDebug32 (STLINK_REG_CM3_DWT_COMPn i) addr e1;
          EvWriteDebug32 (STLINK_REG_CM3_DWT_MASKn i) (Z.log2 len) e2;
          EvWriteDebug32 (STLINK_REG_CM3_DWT_FUNn i) (watchfun_value wf) e3;
          EvReadDebug32 (STLINK_REG_CM3_DWT_FUNn i) e4 v]) /\
  (result_of out = Done (-1) -> events_of out = [] /\ state_of out = x).
Proof.
  intros Hlen out.
  assert (Hcase : len = 0 \/ 65536 <= len < 2 ^ 31 \/ 1 <= len < 65536) by lia.
  destruct Hcase as [Hz|[Hbig|Hok]].
  - subst out. rewrite add_data_watchpoint_reject by auto. cbn.
    repeat split; try (intros; congruence); auto. intros [? _]. lia.
  - subst out. rewrite add_data_watchpoint_reject by auto. cbn.
    repeat split; try (intros; congruence); auto. intros [? _]. lia.
  - destruct (wp_first_free x) as [Hfull|(i & Hi & Hfree & Hbefore)].
    + subst out. rewrite add_data_watchpoint_full by auto. cbn.
      repeat split; try (intros; congruence); auto.
      intros (_ & i & Hi & Hfree). exfalso. exact (Hfull i Hi Hfree).
    + destruct (add_data_watchpoint_hit wf addr len x i Hok Hi Hfree Hbefore)
        as (e1 & e2 & e3 & e4 & v & h & Hrun).
      subst out. rewrite Hrun. cbn.
      repeat split; try (intros; congruence); auto; try lia.
      * exists i. auto.
      * intros _. exists i, e1, e2, e3, e4, v.
        repeat split; auto; try lia.
        -- apply Z.log2_spec. lia.
        -- rewrite Z.add_1_r. apply Z.log2_spec. lia.
Qed.
End Tables.

(** ** The watchpoint table under sequences of requests *)

Section WatchTable.
Context {B K : Type} `{Probe B} `{Remote K}.
Local Open Scope server_scope.

Lemma add_slot_miss wf addr mask i (x : server B K) :
  ~ wp_free x i -> add_data_watchpoint_slot wf addr mask i x = (Done None, [], x).
Proof.
  intros Hbusy. unfold add_data_watchpoint_slot, bind, gets. cbn.
  apply watchfun_eqb_false in Hbusy. rewrite Hbusy. reflexivity.
Qed.

Lemma add_slot_table wf addr mask i (x : server B K) :
  wp_free x i ->
  result_of (add_data_watchpoint_slot wf addr mask i x) = Done (Some 0) /\
  data_watches (state_of (add_data_watchpoint_slot wf addr mask i x)) =
    zset (data_watches x) i {| wp_addr := addr; wp_mask := u8 mask; wp_fun := wf |}.
Proof.
  intros Hfree. unfold wp_free in Hfree.
  unfold add_data_watchpoint_slot, bind, gets, modify, ret,
    stlink_write_debug32, stlink_read_debug32, call.
  cbn. rewrite Hfree. cbn.
  repeat match goal with
         | |- context [probe_write_debug32 ?h ?r ?v] =>
             destruct (probe_write_debug32 h r v) as [? ?]; cbn
         | |- context [probe_read_debug32 ?h ?r] =>
             destruct (probe_read_debug32 h r) as [[? ?] ?]; cbn
         end.
  split; reflexivity.
Qed.

(** What an insertion does to the table: nothing, or the first free slot
    filled with an entry for [addr]. *)
Lemma add_data_watchpoint_table wf addr len (x : server B K) :
  let out := add_data_watchpoint wf addr len x in
  data_watches (state_of out) = data_watches x \/
  exists i mask, 0 <= i < 4 /\ wp_free x i /\
    data_watches (state_of out) =
      zset (data_watches x) i {| wp_addr := addr; wp_mask := mask; wp_fun := wf |}.
Proof.
  cbn zeta. unfold add_data_watchpoint.
  destruct (count_shifts 64 (s32 len) (u32 (-1))) as [mask|]; [|left; reflexivity].
  destruct (negb (mask =? u32 (-1)) && (mask <? 16)); [|left; reflexivity].
  destruct (wp_first_free x) as [Hfull|(i & Hi & Hfree & Hbefore)].
  - left. unfold bind at 1. rewrite for_first_none; [reflexivity|].
    intros j Hj. apply add_slot_miss. apply Hfull.
    change (Z.of_nat (Z.to_nat DATA_WATCH_NUM)) with 4 in Hj. lia.
  - right. exists i, (u8 mask). split; [exact Hi|]. split; [exact Hfree|].
    destruct (add_slot_table wf addr mask i x Hfree) as [Hres Htab].
    destruct (add_data_watchpoint_slot wf addr mask i x) as [[res evs] x'] eqn:Hslot.
    cbn in Hres, Htab. subst res.
    unfold bind at 1.
    rewrite (for_first_hit (Z.to_nat DATA_WATCH_NUM) (Z.to_nat i) 0 _ x 0 evs x').
    + cbn. exact Htab.
    + change DATA_WATCH_NUM with 4. lia.
    + intros j Hj. apply add_slot_miss. apply Hbefore. lia.
    + rewrite Z.add_0_l, Z2Nat.id by lia. exact Hslot.
Qed.

(** What a removal does to the table: nothing, or one slot disabled. *)
Lemma delete_data_watchpoint_table addr (x : server B K) :
  let out := delete_data_watchpoint addr x in
  data_watches (state_of out) = data_watches x \/
  exists i, 0 <= i < 4 /\
    data_watches (state_of out) =
      zset (data_watches x) i
        {| wp_addr := wp_addr (zth no_watch (data_watches x) i);
           wp_mask := wp_mask (zth no_watch (data_watches x) i);
           wp_fun := WATCHDISABLED |}.
Proof.
  cbn zeta. unfold delete_data_watchpoint.
  assert (Hmiss : forall j, wp_match x addr j = false ->
            delete_data_watchpoint_slot addr j x = (Done None, [], x)).
  { intros j Hj. unfold delete_data_watchpoint_slot, bind, gets. cbn.
    unfold wp_match in Hj. rewrite Hj. reflexivity. }
  destruct (first_index_dec (wp_match x addr) 4 0) as [Hnone|(k & Hk & Hpk & Hbefore)].
  - left. unfold bind at 1. rewrite for_first_none; [reflexivity|].
    intros j Hj. apply Hmiss. apply Hnone.
    change (Z.of_nat (Z.to_nat DATA_WATCH_NUM)) with 4 in Hj. lia.
  - right. exists (Z.of_nat k). split; [lia|].
    rewrite Z.add_0_l in Hpk.
    destruct (delete_data_watchpoint_slot addr (Z.of_nat k) x) as [[res evs] x'] eqn:Hslot.
    assert (Hres : res = Done (Some 0) /\
              data_watches x' = zset (data_watches x) (Z.of_nat k)
                {| wp_addr := wp_addr (zth no_watch (data_watches x) (Z.of_nat k));
                   wp_mask := wp_mask (zth no_watch (data_watches x) (Z.of_nat k));
                   wp_fun := WATCHDISABLED |}).
    { revert Hslot.
      unfold delete_data_watchpoint_slot, bind, gets, modify, ret, stlink_write_debug32, call.
      cbn. unfold wp_match in Hpk. rewrite Hpk. cbn.
      destruct (probe_write_debug32 _ _ _) as [? ?]. cbn.
      intros [= <- <- <-]. split; reflexivity. }
    destruct Hres as [-> Htab].
    unfold bind at 1.
    rewrite (for_first_hit (Z.to_nat DATA_WATCH_NUM) k 0 _ x 0 evs x').
    + cbn. exact Htab.
    + exact Hk.
    + intros j Hj. apply Hmiss. apply Hbefore. lia.
    + rewrite Z.add_0_l. exact Hslot.
Qed.

Lemma one_watch_disable dw i :
  length dw = 4%nat -> 0 <= i < 4 ->
  one_watch_per_address dw ->
  one_watch_per_address
    (zset dw i {| wp_addr := wp_addr (zth no_watch dw i);
                  wp_mask := wp_mask (zth no_watch dw i); wp_fun := WATCHDISABLED |}).
Proof.
  intros Hlen Hi Hone a b Ha Hb Hact_a Hact_b Heq.
  destruct (Z.eq_dec a i) as [->|Hai].
  { rewrite zth_zset_eq in Hact_a by lia. cbn in Hact_a. congruence. }
  destruct (Z.eq_dec b i) as [->|Hbi].
  { rewrite zth_zset_eq in Hact_b by lia. cbn in Hact_b. congruence. }
  rewrite zth_zset_ne in Hact_a, Hact_b, Heq by congruence.
  rewrite zth_zset_ne in Heq by congruence.
  apply Hone; assumption.
Qed.

Lemma unwatched_spec dw addr :
  length dw = 4%nat -> unwatched dw addr = true ->
  forall i, 0 <= i < 4 ->
    wp_fun (zth no_watch dw i) <> WATCHDISABLED -> wp_addr (zth no_watch dw i) <> addr.
Proof.
  intros Hlen Hun i Hi Hact Heq.
  destruct dw as [|w0 [|w1 [|w2 [|w3 [|]]]]]; try discriminate.
  cbn in Hun. rewrite !andb_true_iff in Hun.
  destruct Hun as (H0' & H1' & H2' & H3' & _).
  assert (Hc : i = 0 \/ i = 1 \/ i = 2 \/ i = 3) by lia.
  destruct Hc as [-> | [-> | [-> | ->]]]; cbn in Hact, Heq;
    match goal with
    | Hw : watchfun_eqb (wp_fun ?w) _ || _ = true, Ha : wp_fun ?w <> _ |- _ =>
        apply orb_true_iff in Hw; destruct Hw as [Hw|Hw];
        [apply watchfun_eqb_spec in Hw; contradiction
        |apply negb_true_iff, Z.eqb_neq in Hw; contradiction]
    end.
Qed.

Lemma one_watch_insert dw i addr mask wf :
  length dw = 4%nat -> 0 <= i < 4 ->
  one_watch_per_address dw -> unwatched dw addr = true ->
  wp_fun (zth no_watch dw i) = WATCHDISABLED ->
  one_watch_per_address (zset dw i {| wp_addr := addr; wp_mask := mask; wp_fun := wf |}).
Proof.
  intros Hlen Hi Hone Hun' Hfree a b Ha Hb Hact_a Hact_b Heq.
  pose proof (unwatched_spec dw addr Hlen Hun') as Hun.
  destruct (Z.eq_dec a i) as [->|Hai]; destruct (Z.eq_dec b i) as [->|Hbi]; try reflexivity.
  - rewrite zth_zset_eq in Heq by lia. rewrite zth_zset_ne in Heq, Hact_b by congruence.
    cbn in Heq. exfalso. exact (Hun b Hb Hact_b (eq_sym Heq)).
  - rewrite zth_zset_ne in Heq, Hact_a by congruence. rewrite zth_zset_eq in Heq by lia.
    cbn in Heq. exfalso. exact (Hun a Ha Hact_a Heq).
  - rewrite zth_zset_ne in Hact_a, Hact_b, Heq by congruence.
    rewrite zth_zset_ne in Heq by congruence.
    apply Hone; assumption.
Qed.

Lemma state_of_bind_done {A A'} (m : M B K A) (f : A -> M B K A') x a :
  result_of (m x) = Done a -> state_of (bind m f x) = state_of (f a (state_of (m x))).
Proof.
  unfold bind, result_of, state_of. destruct (m x) as [[res e1] x1]. cbn.
  intros ->. destruct (f a x1) as [[? ?] ?]. reflexivity.
Qed.

Lemma state_of_bind_diverge {A A'} (m : M B K A) (f : A -> M B K A') x :
  result_of (m x) = Diverge -> state_of (bind m f x) = state_of (m x).
Proof.
  unfold bind, result_of, state_of. destruct (m x) as [[res e1] x1]. cbn.
  intros ->. reflexivity.
Qed.

Lemma init_data_watchpoints_table (x : server B K) :
  length (data_watches x) = 4%nat ->
  result_of (init_data_watchpoints x) = Done tt /\
  length (data_watches (state_of (init_data_watchpoints x))) = 4%nat /\
  forall i, 0 <= i < 4 -> wp_free (state_of (init_data_watchpoints x)) i.
Proof.
  intros Hlen.
  destruct (data_watches x) as [|w0 [|w1 [|w2 [|w3 [|]]]]] eqn:Hdw; try discriminate.
  unfold init_data_watchpoints. run_calls. rewrite Hdw. cbn.
  split; [reflexivity|]. split; [reflexivity|].
  intros i Hi. unfold wp_free. cbn.
  assert (Hc : i = 0 \/ i = 1 \/ i = 2 \/ i = 3) by lia.
  destruct Hc as [-> | [-> | [-> | ->]]]; reflexivity.
Qed.

Lemma watch_ops_invariant (ops : list wp_op) : forall x : server B K,
  length (data_watches x) = 4%nat ->
  one_watch_per_address (data_watches x) ->
  inserts_fresh ops x = true ->
  one_watch_per_address (data_watches (state_of (watch_ops ops x))).
Proof.
  induction ops as [|op rest IH]; intros x Hlen Hone Hfresh; [exact Hone|].
  cbn [watch_ops]. cbn [inserts_fresh] in Hfresh.
  apply andb_true_iff in Hfresh. destruct Hfresh as [Hop Hrest].
  assert (Hstep : length (data_watches (state_of (watch_op op x))) = 4%nat /\
                  one_watch_per_address (data_watches (state_of (watch_op op x)))).
  { destruct op as [wf addr len|addr]; cbn [watch_op].
    - destruct (add_data_watchpoint_table wf addr len x) as [->|(i & mask & Hi & Hfree & ->)].
      + auto.
      + split; [rewrite length_zset; exact Hlen|].
        apply one_watch_insert; auto.
    - destruct (delete_data_watchpoint_table addr x) as [->|(i & Hi & ->)].
      + auto.
      + split; [rewrite length_zset; exact Hlen|].
        apply one_watch_disable; auto. }
  destruct Hstep as [Hlen' Hone'].
  destruct (result_of (watch_op op x)) as [a|] eqn:Hres.
  - rewrite (state_of_bind_done _ _ _ a Hres). apply IH; assumption.
  - rewrite (state_of_bind_diverge _ _ _ Hres). exact Hone'.
Qed.

(** C8 (amended): from an initialised table, after any sequence of
    watchpoint insertions and removals in which no insertion is made at an
    address that an active entry already watches, the table holds at most one
    active entry per address. *)
Theorem watchpoints_one_per_address (ops : list wp_op) (x : server B K) :
  length (data_watches x) = 4%nat ->
  inserts_fresh ops (state_of (init_data_watchpoints x)) = true ->
  one_watch_per_address
    (data_watches (state_of ((init_data_watchpoints;; watch_ops ops) x))).
Proof.
  intros Hlen Hfresh.
  destruct (init_data_watchpoints_table x Hlen) as (Hres & Hlen' & Hfree).
  rewrite (state_of_bind_done _ _ _ tt Hres).
  apply watch_ops_invariant; [exact Hlen'| |exact Hfresh].
  intros i j Hi Hj Hact. exfalso. apply Hact. apply Hfree. exact Hi.
Qed.

End WatchTable.

(** C2, counterexample: a write watchpoint of 3 bytes is accepted and
    programmed with mask 1, while the smallest [m] with [2^m >= 3] is 2; one
    of 32769 bytes is accepted with mask 15, while the stated mask is 16 and
    the stated outcome a rejection. *)
Lemma watchpoint_mask_is_not_ceil_log2 :
  let x := sim_server (sim_target 0 0 []) 0 false in
  let out3 := add_data_watchpoint WATCHWRITE 0x20000000 3 x in
  let out32769 := add_data_watchpoint WATCHWRITE 0x20000000 32769 x in
  (result_of out3 = Done 0 /\
   wp_mask (zth no_watch (data_watches (state_of out3)) 0) = 1 /\
   spec_watch_mask 3 = 2) /\
  (result_of out32769 = Done 0 /\
   wp_mask (zth no_watch (data_watches (state_of out32769)) 0) = 15 /\
   spec_watch_mask 32769 = 16).
Proof. vm_compute. repeat split. Qed.

(** The mask law at a read watchpoint of 5 bytes on a fresh session. *)
Lemma add_data_watchpoint_mask_law_witness :
  let x := sim_server (sim_target 0 0 []) 0 false in
  0 <= 5 < 2 ^ 31 /\
  (result_of (add_data_watchpoint WATCHREAD 0x20000000 5 x) = Done 0 <->
     1 <= 5 < 65536 /\ exists i, 0 <= i < 4 /\ wp_free x i).
Proof.
  assert (Hlen : 0 <= 5 < 2 ^ 31) by lia.
  split; [exact Hlen|].
  exact (proj1 (proj2 (add_data_watchpoint_mask_law WATCHREAD 0x20000000 5
                         (sim_server (sim_target 0 0 []) 0 false) Hlen))).
Defined.

(** C8, counterexample: two insertions at the same address, from an
    initialised table, leave two active entries for that address (slots 0
    and 1). *)
Lemma watchpoints_two_per_address :
  ~ one_watch_per_address
      (data_watches (state_of
         ((init_data_watchpoints;;
           watch_ops [WpInsert WATCHWRITE 0x20000000 4; WpInsert WATCHREAD 0x20000000 4])%server
            (sim_server (sim_target 0 0 []) 0 false)))).
Proof.
  intros Hone.
  specialize (Hone 0 1 ltac:(lia) ltac:(lia)).
  vm_compute in Hone.
  assert (H01 : 0 = 1) by (apply Hone; intros; discriminate || reflexivity).
  discriminate H01.
Qed.

(** The invariant after two insertions, a removal and an insertion at the
    address removed. *)
Lemma watchpoints_one_per_address_witness :
  let x := sim_server (sim_target 0 0 []) 0 false in
  let ops := [WpInsert WATCHWRITE 0x20000000 4; WpInsert WATCHREAD 0x20000004 4;
              WpRemove 0x20000000; WpInsert WATCHACCESS 0x20000000 2] in
  one_watch_per_address
    (data_watches (state_of ((init_data_watchpoints;; watch_ops ops)%server x))).
Proof.
  apply (watchpoints_one_per_address
           [WpInsert WATCHWRITE 0x20000000 4; WpInsert WATCHREAD 0x20000004 4;
            WpRemove 0x20000000; WpInsert WATCHACCESS 0x20000000 2]
           (sim_server (sim_target 0 0 []) 0 false)).
  - reflexivity.
  - vm_compute. reflexivity.
Defined.

(** ** Breakpoints of FPB revision 1 *)

Lemma land_low2 a m : 0 <= m < 4 -> Z.land a m = Z.land (a mod 4) m.
Proof.
  intros Hm. replace m with (Z.land 3 m) at 1.
  - rewrite Z.land_assoc. change 3 with (Z.ones 2). rewrite Z.land_ones by lia. reflexivity.
  - assert (Hc : m = 0 \/ m = 1 \/ m = 2 \/ m = 3) by lia.
    destruct Hc as [-> | [-> | [-> | ->]]]; reflexivity.
Qed.

Lemma land_word_mask a r :
  a mod 4 = 0 -> 0 <= r < 4 -> Z.land (a + r) 0x1FFFFFFC = Z.land a 0x1FFFFFFC.
Proof.
  intros Ha Hr. apply Z.bits_inj'. intros n Hn. rewrite !Z.land_spec.
  destruct (Z.lt_ge_cases n 2) as [Hlt|Hge].
  - assert (Hc : n = 0 \/ n = 1) by lia. destruct Hc as [-> | ->]; cbn; rewrite !andb_false_r; reflexivity.
  - f_equal. replace n with ((n - 2) + 2) by lia.
    rewrite <- !Z.div_pow2_bits by lia. f_equal.
    change (2 ^ 2) with 4.
    rewrite (Z.div_mod a 4) at 1 by lia. rewrite Ha, Z.add_0_r.
    rewrite Z.mul_comm, Z.div_add_l by lia.
    rewrite (Z.div_small r 4) by lia. lia.
Qed.

Section BreakTable.
Context {B K : Type} `{Probe B} `{Remote K}.
Local Open Scope server_scope.

(** Setting the half-word breakpoint [type] at an address whose comparator
    address [fpb] is already in slot 0, or whose slot 0 is free. *)
Lemma update_code_breakpoint_slot0 (x : server B K) addr type :
  code_break_rev x = CODE_BREAK_REV_V1 ->
  1 <= code_break_num x ->
  Z.land addr 1 = 0 ->
  type = (if negb (Z.land addr 0x2 =? 0) then CODE_BREAK_HIGH else CODE_BREAK_LOW) ->
  bp_addr (zth no_break (code_breaks x) 0) = Z.land addr 0x1FFFFFFC
    \/ bp_type (zth no_break (code_breaks x) 0) = 0 ->
  Z.lor (bp_type (zth no_break (code_breaks x) 0)) type <> 0 ->
  exists e h,
    update_code_breakpoint addr 1 x =
      (Done 0, [e],
       set_sl h (set_code_breaks
         (zset (code_breaks x) 0
            {| bp_addr := Z.land addr 0x1FFFFFFC;
               bp_type := Z.lor (bp_type (zth no_break (code_breaks x) 0)) type |}) x)).
Proof.
  intros Hrev Hnum Hodd Htype Hslot Hnz.
  unfold update_code_breakpoint. rewrite Hodd. cbn [Z.eqb negb].
  rewrite bind_gets, Hrev. cbn [Z.eqb CODE_BREAK_REV_V1].
  rewrite bind_gets.
  destruct (Z.to_nat (code_break_num x)) as [|n] eqn:Hn; [lia|].
  assert (Hhit : update_code_breakpoint_slot (Z.land addr 0x1FFFFFFC) 1 0 x
                 = (Done (Some 0), [], x)).
  { unfold update_code_breakpoint_slot. rewrite bind_gets.
    destruct Hslot as [-> | ->].
    - rewrite Z.eqb_refl. reflexivity.
    - rewrite orb_true_r. reflexivity. }
  rewrite (bind_done _ _ x (Some 0) [] x).
  2:{ cbn [for_first]. rewrite (bind_done _ _ x (Some 0) [] x Hhit). reflexivity. }
  cbn [app]. rewrite run_eta.
  rewrite bind_gets. rewrite <- Htype. cbn [negb Z.eqb].
  rewrite bind_modify.
  destruct (Z.eqb_spec (Z.lor (bp_type (zth no_break (code_breaks x) 0)) type) 0) as [E|_];
    [contradiction|].
  unfold bind, ret, stlink_write_debug32, call.
  destruct (probe_write_debug32 _ _ _) as [e h]. cbn.
  exists (EvWriteDebug32 (STLINK_REG_CM3_FP_COMPn 0)
            (u32 (Z.lor (Z.lor (Z.shiftl
               (Z.land (Z.lor (bp_type (zth no_break (code_breaks x) 0)) type) 3) 30)
               (Z.land addr 536870908)) 1)) e), h.
  reflexivity.
Qed.

Lemma serve_Z_break_ok (x : server B K) addr len type :
  code_break_rev x = CODE_BREAK_REV_V1 ->
  1 <= code_break_num x ->
  Z.land addr 1 = 0 ->
  type = (if negb (Z.land addr 0x2 =? 0) then CODE_BREAK_HIGH else CODE_BREAK_LOW) ->
  bp_addr (zth no_break (code_breaks x) 0) = Z.land addr 0x1FFFFFFC
    \/ bp_type (zth no_break (code_breaks x) 0) = 0 ->
  Z.lor (bp_type (zth no_break (code_breaks x) 0)) type <> 0 ->
  exists e h,
    serve_Z "1" addr len x =
      (Done (Reply (Some "OK"%string) 0), [e],
       set_sl h (set_code_breaks
         (zset (code_breaks x) 0
            {| bp_addr := Z.land addr 0x1FFFFFFC;
               bp_type := Z.lor (bp_type (zth no_break (code_breaks x) 0)) type |}) x)).
Proof.
  intros Hrev Hnum Hodd Htype Hslot Hnz.
  destruct (update_code_breakpoint_slot0 x addr type Hrev Hnum Hodd Htype Hslot Hnz)
    as (e & h & Hrun).
  exists e, h. unfold serve_Z. cbn [Ascii.eqb Bool.eqb].
  rewrite (bind_done _ _ x _ _ _ Hrun). reflexivity.
Qed.

Lemma serve_Z_break_odd (x : server B K) addr len :
  Z.land addr 1 <> 0 ->
  serve_Z "1" addr len x = (Done (Reply (Some "E00"%string) 0), [], x).
Proof.
  intros Hodd. unfold serve_Z. cbn [Ascii.eqb Bool.eqb].
  unfold update_code_breakpoint.
  destruct (Z.eqb_spec (Z.land addr 1) 0) as [E|_]; [contradiction|].
  cbn [negb]. rewrite bind_ret. reflexivity.
Qed.

Lemma zset_zset {A} (l : list A) i v w : zset (zset l i v) i w = zset l i w.
Proof.
  unfold zset. destruct (i <? 0); [reflexivity|]. apply list_insert_insert_eq.
Qed.

Lemma occupied_none_slot0 (x : server B K) :
  1 <= code_break_num x -> (0 < length (code_breaks x))%nat ->
  occupied_slots x = 0%nat -> bp_type (zth no_break (code_breaks x) 0) = 0.
Proof.
  unfold occupied_slots. intros Hnum Hlen Hocc.
  destruct (Z.to_nat (code_break_num x)) as [|n] eqn:Hn; [lia|].
  destruct (code_breaks x) as [|b0 rest]; [cbn in Hlen; lia|].
  cbn [take] in Hocc. rewrite filter_cons in Hocc.
  destruct (decide (bp_type b0 <> 0)) as [Hb|Hb]; [discriminate Hocc|].
  change (zth no_break (b0 :: rest) 0) with b0.
  destruct (Z.eq_dec (bp_type b0) 0) as [E|E]; [exact E|contradiction].
Qed.

Lemma occupied_one_slot0 (x x' : server B K) v :
  1 <= code_break_num x -> (0 < length (code_breaks x))%nat ->
  occupied_slots x = 0%nat ->
  code_break_num x' = code_break_num x ->
  code_breaks x' = zset (code_breaks x) 0 v ->
  bp_type v <> 0 ->
  occupied_slots x' = 1%nat.
Proof.
  unfold occupied_slots. intros Hnum Hlen Hocc Hnum' Htab Hv.
  rewrite Hnum', Htab.
  destruct (Z.to_nat (code_break_num x)) as [|n] eqn:Hn; [lia|].
  destruct (code_breaks x) as [|b0 rest]; [cbn in Hlen; lia|].
  cbn [take] in Hocc. rewrite filter_cons in Hocc.
  destruct (decide (bp_type b0 <> 0)) as [Hb|Hb]; [discriminate Hocc|].
  change (zset (b0 :: rest) 0 v) with (v :: rest). cbn [take].
  rewrite filter_cons. destruct (decide (bp_type v <> 0)) as [_|Hc]; [|contradiction].
  cbn [length]. rewrite Hocc. reflexivity.
Qed.

(** C7 (amended): with FPB revision 1 and an empty table, breakpoints at
    [a] and [a + 2], [a] a multiple of 4, are both accepted and occupy
    exactly one slot, slot 0, whose address is [a & 0x1FFFFFFC] and whose
    type is LOW|HIGH; a third insertion in the same word is answered OK and
    changes nothing when its address is [a] or [a + 2] again, and is answered
    E00 only when its address is odd ([a + 1] or [a + 3]). *)
Theorem breakpoint_v1_word_shares_slot (x : server B K) (a len : Z) :
  code_break_rev x = CODE_BREAK_REV_V1 ->
  1 <= code_break_num x <= CODE_BREAK_NUM_MAX ->
  length (code_breaks x) = Z.to_nat CODE_BREAK_NUM_MAX ->
  occupied_slots x = 0%nat ->
  0 <= a -> a mod 4 = 0 ->
  let o1 := serve_Z "1" a len x in
  let o2 := serve_Z "1" (a + 2) len (state_of o1) in
  result_of o1 = Done (Reply (Some "OK"%string) 0) /\
  result_of o2 = Done (Reply (Some "OK"%string) 0) /\
  code_breaks (state_of o2) =
    zset (code_breaks x) 0
      {| bp_addr := Z.land a 0x1FFFFFFC; bp_type := Z.lor CODE_BREAK_LOW CODE_BREAK_HIGH |} /\
  occupied_slots (state_of o2) = 1%nat /\
  (forall t, t = a \/ t = a + 2 ->
     result_of (serve_Z "1" t len (state_of o2)) = Done (Reply (Some "OK"%string) 0) /\
     code_breaks (state_of (serve_Z "1" t len (state_of o2))) = code_breaks (state_of o2)) /\
  (forall t, t = a + 1 \/ t = a + 3 ->
     result_of (serve_Z "1" t len (state_of o2)) = Done (Reply (Some "E00"%string) 0) /\
     code_breaks (state_of (serve_Z "1" t len (state_of o2))) = code_breaks (state_of o2)).
Proof.
  intros Hrev Hnum Hlen Hocc Ha Hmod.
  assert (Hlen0 : (0 < length (code_breaks x))%nat) by (rewrite Hlen; cbn; lia).
  assert (Hz : 0 <= 0 < Z.of_nat (length (code_breaks x))) by lia.
  pose proof (occupied_none_slot0 x ltac:(lia) Hlen0 Hocc) as Hfree.
  assert (Ha1 : Z.land a 1 = 0) by (rewrite land_low2, Hmod by lia; reflexivity).
  assert (Ha2 : Z.land a 2 = 0) by (rewrite land_low2, Hmod by lia; reflexivity).
  assert (Hm2 : (a + 2) mod 4 = 2).
  { rewrite Z.add_mod, Hmod by lia. reflexivity. }
  assert (Hb1 : Z.land (a + 2) 1 = 0) by (rewrite land_low2, Hm2 by lia; reflexivity).
  assert (Hb2 : Z.land (a + 2) 2 = 2) by (rewrite land_low2, Hm2 by lia; reflexivity).
  assert (Hw : Z.land (a + 2) 0x1FFFFFFC = Z.land a 0x1FFFFFFC)
    by (apply land_word_mask; lia).
  (* first insertion *)
  destruct (serve_Z_break_ok x a len CODE_BREAK_LOW Hrev ltac:(lia) Ha1) as (e1 & h1 & Hrun1).
  { rewrite Ha2. reflexivity. }
  { right. exact Hfree. }
  { rewrite Hfree. discriminate. }
  rewrite Hfree in Hrun1. change (Z.lor 0 CODE_BREAK_LOW) with 1 in Hrun1.
  cbn zeta. rewrite Hrun1. cbn [state_of result_of fst snd].
  set (x1 := set_sl h1 _) in *.
  assert (Hcb1 : code_breaks x1 =
            zset (code_breaks x) 0 {| bp_addr := Z.land a 0x1FFFFFFC; bp_type := 1 |})
    by reflexivity.
  assert (Hs1 : zth no_break (code_breaks x1) 0
                = {| bp_addr := Z.land a 0x1FFFFFFC; bp_type := 1 |})
    by (rewrite Hcb1; apply zth_zset_eq; exact Hz).
  (* second insertion *)
  destruct (serve_Z_break_ok x1 (a + 2) len CODE_BREAK_HIGH Hrev ltac:(cbn; lia) Hb1)
    as (e2 & h2 & Hrun2).
  { rewrite Hb2. reflexivity. }
  { left. rewrite Hs1, Hw. reflexivity. }
  { rewrite Hs1. discriminate. }
  rewrite Hs1, Hw in Hrun2. cbn [bp_type] in Hrun2.
  change (Z.lor 1 CODE_BREAK_HIGH) with 3 in Hrun2.
  rewrite Hrun2. cbn [state_of result_of fst snd].
  set (x2 := set_sl h2 _) in *.
  assert (Hcb2 : code_breaks x2 =
            zset (code_breaks x) 0 {| bp_addr := Z.land a 0x1FFFFFFC; bp_type := 3 |}).
  { subst x2. cbn [code_breaks set_sl set_code_breaks]. rewrite Hcb1. apply zset_zset. }
  assert (Hs2 : zth no_break (code_breaks x2) 0
                = {| bp_addr := Z.land a 0x1FFFFFFC; bp_type := 3 |})
    by (rewrite Hcb2; apply zth_zset_eq; exact Hz).
  split; [reflexivity|]. split; [reflexivity|]. split; [exact Hcb2|]. split.
  { apply (occupied_one_slot0 x x2 _ ltac:(lia) Hlen0 Hocc eq_refl Hcb2). discriminate. }
  split.
  - (* a third insertion at a or a + 2 *)
    intros t Ht.
    assert (Ht' : exists type, (type = 1 \/ type = 2) /\ Z.land t 1 = 0 /\
              type = (if negb (Z.land t 0x2 =? 0) then CODE_BREAK_HIGH else CODE_BREAK_LOW) /\
              Z.land t 0x1FFFFFFC = Z.land a 0x1FFFFFFC).
    { destruct Ht as [-> | ->].
      - exists 1. rewrite Ha1, Ha2. auto.
      - exists 2. rewrite Hb1, Hb2, Hw. auto. }
    destruct Ht' as (type & Hty & Ht1 & Htype & Htw).
    destruct (serve_Z_break_ok x2 t len type Hrev ltac:(cbn; lia) Ht1 Htype)
      as (e3 & h3 & Hrun3).
    { left. rewrite Hs2, Htw. reflexivity. }
    { rewrite Hs2. cbn [bp_type]. destruct Hty as [-> | ->]; discriminate. }
    rewrite Hrun3. cbn [state_of result_of fst snd]. split; [reflexivity|].
    cbn [code_breaks set_sl set_code_breaks].
    rewrite Hs2, Htw. cbn [bp_type].
    replace (Z.lor 3 type) with 3 by (destruct Hty as [-> | ->]; reflexivity).
    rewrite Hcb2. apply zset_zset.
  - (* a third insertion at an odd address *)
    intros t Ht.
    assert (Hodd : Z.land t 1 <> 0).
    { rewrite land_low2 by lia.
      destruct Ht as [-> | ->]; rewrite Z.add_mod, Hmod by lia; discriminate. }
    rewrite (serve_Z_break_odd x2 t len Hodd). split; reflexivity.
Qed.

End BreakTable.

(** C7, counterexample: with FPB revision 1, after breakpoints at
    0x08000100 and 0x08000102, a third insertion in the same word (at
    0x08000100 again) is answered OK, not E00, and the word still occupies
    one slot. *)
Lemma third_breakpoint_in_word_accepted :
  let x := sim_server (sim_target 0 0 []) CODE_BREAK_REV_V1 false in
  let o := (serve_Z "1" 0x08000100 2;; serve_Z "1" 0x08000102 2;;
            serve_Z "1" 0x08000100 2)%server x in
  result_of o = Done (Reply (Some "OK"%string) 0) /\
  result_of o <> Done (Reply (Some "E00"%string) 0) /\
  occupied_slots (state_of o) = 1%nat.
Proof. vm_compute. repeat split. discriminate. Qed.

(** Breakpoints at 0x08000100 and 0x08000102 on a fresh session of
    revision 1. *)
Lemma breakpoint_v1_word_shares_slot_witness :
  let x := sim_server (sim_target 0 0 []) CODE_BREAK_REV_V1 false in
  occupied_slots
    (state_of (serve_Z "1" (0x08000100 + 2) 2 (state_of (serve_Z "1" 0x08000100 2 x)))) = 1%nat.
Proof.
  refine (proj1 (proj2 (proj2 (proj2
    (breakpoint_v1_word_shares_slot
       (sim_server (sim_target 0 0 []) CODE_BREAK_REV_V1 false) 0x08000100 2
       _ _ _ _ _ _))))).
  - reflexivity.
  - vm_compute. split; discriminate.
  - reflexivity.
  - reflexivity.
  - lia.
  - reflexivity.
Defined.

(** ** qXfer reads *)

Lemma strncpy_length str : forall n, 0 <= n -> strlen (strncpy str n) = Z.min n (strlen str).
Proof.
  unfold strlen. induction str as [|c rest IH]; intros n Hn; cbn [strncpy String.length].
  - lia.
  - destruct (Z.leb_spec n 0).
    + cbn [String.length]. lia.
    + cbn [String.length]. specialize (IH (n - 1) ltac:(lia)). lia.
Qed.

Lemma strncpy_substring str : forall n, 0 <= n ->
  strncpy str n = String.substring 0 (Z.to_nat n) str.
Proof.
  induction str as [|c rest IH]; intros n Hn; cbn [strncpy].
  - destruct (Z.to_nat n); reflexivity.
  - destruct (Z.leb_spec n 0).
    + replace n with 0 by lia. reflexivity.
    + replace (Z.to_nat n) with (S (Z.to_nat (n - 1))) by lia.
      cbn [String.substring]. rewrite IH by lia. reflexivity.
Qed.

Lemma xfer_reply_chunk data addr length :
  0 <= addr <= strlen data -> 0 <= length -> addr + length < 2 ^ 32 ->
  strlen data + 2 < 2 ^ 32 ->
  let n := Z.min length (strlen data - addr) in
  exists reply,
    xfer_reply data addr length = Some reply /\
    (n = 0 -> reply = "l"%string) /\
    (0 < n -> exists payload,
       reply = String "m" payload /\
       strlen payload = n /\
       (addr = 0 -> payload = String.substring 0 (Z.to_nat n) data)).
Proof.
  intros Haddr Hlen Hsum Hdoc n. unfold xfer_reply.
  rewrite (u32_small (strlen data)), (u32_small (addr + length)) by lia.
  assert (Hn : (if addr + length >? strlen data then u32 (strlen data - addr) else length) = n).
  { subst n. destruct (Z.gtb_spec (addr + length) (strlen data)).
    - rewrite u32_small by lia. lia.
    - lia. }
  rewrite Hn. destruct (Z.eqb_spec n 0) as [Hz|Hnz].
  - exists "l"%string. split; [reflexivity|]. split; [reflexivity|]. intros Hpos. lia.
  - assert (Hpos : 0 < n) by lia.
    rewrite (u32_small (n + 2)) by lia.
    destruct (Z.ltb_spec (n + 2) (1 + n)); [lia|].
    exists (String "m" (strncpy data n)). split; [reflexivity|].
    split; [intros Hz; lia|]. intros _.
    exists (strncpy data n). split; [reflexivity|]. split.
    + rewrite strncpy_length by lia. lia.
    + intros _. apply strncpy_substring. lia.
Qed.

(** With a length of 0xffffffff at offset 1 the sum wraps around to 0, the
    length is not cut to the document, [calloc] gets the size 1 and the copy
    of 0xffffffff bytes runs past it. *)
Example xfer_reply_overrun : xfer_reply "<memory-map/>" 1 0xffffffff = None.
Proof. reflexivity. Qed.

Section Xfer.
Context {B K : Type} `{Probe B} `{Remote K}.

(** C4 (amended): a qXfer:memory-map:read or qXfer:features:read request
    with offset [addr] inside the document and [addr + length] below 2^32 is
    answered, with [n = min (length, doclen - addr)], by "l" alone when
    [n = 0] (the offset is the end of the document, or the length is zero)
    and by 'm' followed by exactly [n] bytes otherwise, also when these bytes
    reach the end of the document; for [addr = 0] the bytes are the slice
    [0, n) of the document.  The command makes no call and changes nothing.
    (The document is shorter than 2^32 - 2 bytes, so that the reply buffer
    can hold it.) *)
Theorem qXfer_read_reply (fuel : nat) (x : server B K) (type annex : string) (addr length : Z) :
  type = "memory-map"%string \/ type = "features"%string ->
  let doc := if (type =? "memory-map")%string
             then current_memory_map (st x) else target_description in
  0 <= addr <= strlen doc -> 0 <= length -> addr + length < 2 ^ 32 ->
  strlen doc + 2 < 2 ^ 32 ->
  let n := Z.min length (strlen doc - addr) in
  exists reply,
    serve_packet fuel (Pkt_q (Q_Xfer type "read" annex addr length)) x
      = (Done (Reply (Some reply) 0), [], x) /\
    (n = 0 -> reply = "l"%string) /\
    (0 < n -> exists payload,
       reply = String "m" payload /\
       strlen payload = n /\
       (addr = 0 -> payload = String.substring 0 (Z.to_nat n) doc)).
Proof.
  intros Htype doc Haddr Hlen Hsum Hdoc n.
  destruct (xfer_reply_chunk doc addr length Haddr Hlen Hsum Hdoc) as (reply & Hrun & Hrest).
  exists reply. split; [|exact Hrest].
  unfold serve_packet, serve_q, serve_q_Xfer.
  rewrite (bind_done _ _ x (Some reply) [] x); [reflexivity|].
  rewrite bind_gets. subst doc.
  destruct Htype as [-> | ->]; cbn [String.eqb Ascii.eqb Bool.eqb negb] in *;
    rewrite Hrun; reflexivity.
Qed.

End Xfer.

(** C4, counterexample: a read of the whole memory map (offset 0, length
    0xfff, document of 13 bytes) reaches the end of the document and is
    answered with the prefix 'm', where the stated reply has the prefix 'l'. *)
Lemma qXfer_last_chunk_has_prefix_m :
  let x := sim_server (sim_target 0 0 []) 0 false in
  result_of (serve_packet 0 (Pkt_q (Q_Xfer "memory-map" "read" "" 0 0xfff)) x)
    = Done (Reply (Some "m<memory-map/>"%string) 0) /\
  spec_xfer_reply (current_memory_map (st x)) 0 0xfff = "l<memory-map/>"%string.
Proof. vm_compute. split; reflexivity. Qed.

(** The first read of the target description. *)
Lemma qXfer_read_reply_witness :
  let x := sim_server (sim_target 0 0 []) 0 false in
  exists reply,
    serve_packet 0 (Pkt_q (Q_Xfer "features" "read" "" 0 0xfff)) x
      = (Done (Reply (Some reply) 0), [], x) /\
    (Z.min 0xfff (strlen target_description - 0) = 0 -> reply = "l"%string) /\
    (0 < Z.min 0xfff (strlen target_description - 0) -> exists payload,
       reply = String "m" payload /\
       strlen payload = Z.min 0xfff (strlen target_description - 0) /\
       (0 = 0 -> payload =
          String.substring 0 (Z.to_nat (Z.min 0xfff (strlen target_description - 0)))
            target_description)).
Proof.
  apply (qXfer_read_reply 0 (sim_server (sim_target 0 0 []) 0 false) "features" "" 0 0xfff).
  - right. reflexivity.
  - vm_compute. split; discriminate.
  - lia.
  - reflexivity.
  - reflexivity.
Defined.

(** ** The escape decoding of vFlashWrite *)

Lemma zth_last data n :
  n = Z.of_nat (length data) -> 0 < n -> last data = Some (zth 0 data (n - 1)).
Proof.
  intros -> Hn. rewrite last_lookup. unfold zth.
  destruct (Z.ltb_spec (Z.of_nat (length data) - 1) 0); [lia|].
  replace (Z.to_nat (Z.of_nat (length data) - 1)) with (pred (length data)) by lia.
  rewrite nth_lookup.
  destruct (data !! pred (length data)) as [v|] eqn:Hl; [reflexivity|].
  apply lookup_ge_None in Hl. lia.
Qed.

Lemma unescape_loop_reads data n :
  n = Z.of_nat (length data) -> n < 2 ^ 32 - 1 -> last data <> Some 0x7d ->
  forall fuel i decoded k reads,
    0 <= i <= n -> n - i < Z.of_nat fuel ->
    Forall (fun j => 0 <= j < n) reads ->
    exists decoded' k' reads',
      unescape_loop fuel data n i decoded k reads = Some (decoded', k', reads') /\
      Forall (fun j => 0 <= j < n) reads'.
Proof.
  intros Hn Hbound Hlast.
  induction fuel as [|fuel IH]; intros i decoded k reads Hi Hfuel Hreads; [lia|].
  cbn [unescape_loop].
  destruct (Z.ltb_spec i n) as [Hlt|Hge].
  - destruct (Z.eqb_spec (zth 0 data i) 0x7d) as [Hesc|Hplain].
    + assert (Hnext : i + 1 < n).
      { destruct (Z.eq_dec i (n - 1)) as [->|]; [|lia].
        exfalso. apply Hlast. rewrite (zth_last data n Hn) by lia. f_equal. exact Hesc. }
      rewrite (u32_small (i + 1)) by lia. rewrite (u32_small (i + 1 + 1)) by lia.
      apply IH; [lia|lia|].
      apply Forall_app. split; [exact Hreads|].
      repeat constructor; lia.
    + rewrite (u32_small (i + 1)) by lia.
      apply IH; [lia|lia|].
      apply Forall_app. split; [exact Hreads|].
      repeat constructor; lia.
  - eauto.
Qed.

(** C10: when the last byte of a vFlashWrite payload is not the escape byte
    0x7d, the decoding loop finishes and every index of the payload it reads
    is below the length of the payload. *)
Theorem unescape_reads_in_bounds (data : list Z) :
  Z.of_nat (length data) < 2 ^ 32 - 1 ->
  last data <> Some 0x7d ->
  exists decoded dec_index reads,
    unescape data = Some (decoded, dec_index, reads) /\
    Forall (fun i => 0 <= i < Z.of_nat (length data)) reads.
Proof.
  intros Hbound Hlast. unfold unescape.
  rewrite u32_small by lia.
  destruct (unescape_loop_reads data (Z.of_nat (length data)) eq_refl Hbound Hlast
              (S (length data)) 0 (repeat 0 (S (length data))) 0 [])
    as (decoded & k & reads & Hrun & Hreads); [lia|lia|constructor|].
  rewrite Hrun. eauto.
Qed.

(** A payload with two escapes, none at the end. *)
Lemma unescape_reads_in_bounds_witness :
  exists decoded dec_index reads,
    unescape [0x01; 0x7d; 0x5d; 0x7d; 0x03] = Some (decoded, dec_index, reads) /\
    Forall (fun i => 0 <= i < Z.of_nat (length [0x01; 0x7d; 0x5d; 0x7d; 0x03])) reads.
Proof.
  apply (unescape_reads_in_bounds [0x01; 0x7d; 0x5d; 0x7d; 0x03]).
  - cbn. lia.
  - cbn. discriminate.
Defined.

(** Without the precondition the loop reads one byte past the payload. *)
Example unescape_trailing_escape :
  unescape [0x01; 0x7d] = Some ([0x01; 0x20; 0], 2, [0; 1; 2]).
Proof. reflexivity. Qed.

(** ** flash_populate *)

(** C3, the code at the failing input: one staged block
    [0x08000400, 0x08000800) and a payload of 0x800 bytes for
    [0x08000000, 0x08000800), 0x400 bytes 0x11 followed by 0x400 bytes 0x22.
    The block intersects the second half of the payload, and receives the
    first half. *)
Lemma flash_populate_copies_payload_start :
  let x := sim_server (sim_target 0 0 []) 0 false in
  let payload := repeat 0x11 1024 ++ repeat 0x22 1024 in
  let o := (serve_packet 0 (Pkt_v (V_FlashErase 0x08000400 0x400));;
            serve_packet 0 (Pkt_v (V_FlashWrite 0x08000000 payload)))%server x in
  result_of o = Done (Reply (Some "OK"%string) 0) /\
  map fb_addr (flash_root (state_of o)) = [0x08000400] /\
  map fb_data (flash_root (state_of o)) = [repeat 0x11 1024].
Proof. vm_compute. repeat split. Qed.

(** ** vFlashDone *)

Lemma difference_empty_r (S : gset ptr) : S ∖ ∅ = S.
Proof. set_solver. Qed.

Lemma difference_twice (S T : gset ptr) p q :
  S ∖ {[p]} ∖ {[q]} ∖ T = S ∖ ({[p]} ∪ ({[q]} ∪ T)).
Proof. set_solver. Qed.

Section FlashGo.
Context {B K : Type} `{Probe B} `{Remote K}.
Local Open Scope server_scope.

Lemma call_run {A} (op : stlink_t B -> A * stlink_t B) (ev : A -> event) (x : server B K) :
  call op ev x = (Done (fst (op (sl x))), [ev (fst (op (sl x)))], set_sl (snd (op (sl x))) x).
Proof. unfold call. destruct (op (sl x)) as [a h]. reflexivity. Qed.

Lemma set_sl_set_sl (h h' : stlink_t B) (x : server B K) : set_sl h' (set_sl h x) = set_sl h' x.
Proof. reflexivity. Qed.

Lemma flash_erase_pages_done (fb : flash_block) :
  pagesize_contract -> block_in_range fb ->
  forall fuel page (x : server B K),
    0 <= page < 2 ^ 32 ->
    Z.max 0 (fb_addr fb + fb_length fb - page) < Z.of_nat fuel ->
    exists o evs h, flash_erase_pages fuel fb page x = (Done o, evs, set_sl h x).
Proof.
  intros (Hcalc & Herase & _) (Ha & Hl & Hend).
  induction fuel as [|fuel IH]; intros page x Hpage Hfuel; [lia|].
  cbn [flash_erase_pages]. rewrite (u32_small (fb_addr fb + fb_length fb)) by lia.
  destruct (Z.ltb_spec page (fb_addr fb + fb_length fb)) as [Hlt|Hge].
  - unfold stlink_calculate_pagesize, stlink_erase_flash_page, FLASH_PAGE.
    rewrite (bind_done _ _ x _ _ _ (call_run _ _ x)).
    set (h1 := snd (probe_calculate_pagesize (sl x) page)).
    rewrite (bind_done _ _ (set_sl h1 x) _ _ _ (call_run _ _ _)).
    cbn [sl set_sl]. rewrite set_sl_set_sl.
    set (e := fst (probe_erase_flash_page h1 page)).
    set (h2 := snd (probe_erase_flash_page h1 page)).
    destruct (Z.eqb_spec e 0) as [He|He]; cbn [negb].
    + rewrite bind_gets. cbn [sl set_sl].
      assert (Hpg : 0 < flash_pgsz h2 <= 2 ^ 31).
      { subst h2. rewrite Herase. subst h1. apply Hcalc. }
      rewrite (u32_small (flash_pgsz h2)) by lia.
      rewrite (u32_small (page + flash_pgsz h2)) by lia.
      destruct (IH (page + flash_pgsz h2) (set_sl h2 x)) as (o & evs & h & Hrun); [lia|lia|].
      rewrite Hrun. cbn. eauto.
    + cbn. eauto.
  - exists None, [], (sl x). destruct x; reflexivity.
Qed.

Lemma flash_erase_blocks_done (fuel : nat) :
  pagesize_contract ->
  forall (blocks : list flash_block) (x : server B K),
    Forall (fun fb => block_in_range fb /\ fb_length fb < Z.of_nat fuel) blocks ->
    exists o evs h, flash_erase_blocks fuel blocks x = (Done o, evs, set_sl h x).
Proof.
  intros Hc. induction blocks as [|fb rest IH]; intros x Hall.
  - exists None, [], (sl x). destruct x; reflexivity.
  - apply Forall_cons in Hall. destruct Hall as [[Hfb Hlen] Hrest].
    cbn [flash_erase_blocks].
    destruct (flash_erase_pages_done fb Hc Hfb fuel (fb_addr fb) x) as (o & evs & h & Hrun).
    { destruct Hfb as (? & ? & ?). lia. }
    { destruct Hfb as (? & ? & ?). lia. }
    rewrite (bind_done _ _ x _ _ _ Hrun).
    destruct o as [e|].
    + cbn. rewrite app_nil_r. eauto.
    + destruct (IH (set_sl h x) Hrest) as (o' & evs' & h' & Hrun').
      rewrite Hrun'. cbn. eauto.
Qed.

Lemma flash_write_pages_done (fb : flash_block) :
  pagesize_contract -> block_in_range fb ->
  forall fuel page (x : server B K),
    0 <= page < 2 ^ 32 ->
    Z.max 0 (fb_addr fb + fb_length fb - page) < Z.of_nat fuel ->
    exists o evs h, flash_write_pages fuel fb page x = (Done o, evs, set_sl h x).
Proof.
  intros (Hcalc & _ & Hwrite) (Ha & Hl & Hend).
  induction fuel as [|fuel IH]; intros page x Hpage Hfuel; [lia|].
  cbn [flash_write_pages]. rewrite (u32_small (fb_addr fb + fb_length fb)) by lia.
  destruct (Z.ltb_spec page (fb_addr fb + fb_length fb)) as [Hlt|Hge].
  - unfold stlink_calculate_pagesize, stlink_flashloader_write, FLASH_PAGE.
    rewrite (bind_done _ _ x _ _ _ (call_run _ _ x)).
    set (h1 := snd (probe_calculate_pagesize (sl x) page)).
    rewrite bind_gets. cbn [sl set_sl].
    rewrite (bind_done _ _ (set_sl h1 x) _ _ _ (call_run _ _ _)).
    cbn [sl set_sl]. rewrite set_sl_set_sl.
    match goal with
    | |- context [probe_flashloader_write h1 ?a ?d ?l] =>
        set (e := fst (probe_flashloader_write h1 a d l));
        set (h2 := snd (probe_flashloader_write h1 a d l))
    end.
    destruct (Z.eqb_spec e 0) as [He|He]; cbn [negb].
    + rewrite bind_gets. cbn [sl set_sl].
      assert (Hpg : 0 < flash_pgsz h2 <= 2 ^ 31).
      { subst h2. rewrite Hwrite. subst h1. apply Hcalc. }
      rewrite (u32_small (flash_pgsz h2)) by lia.
      rewrite (u32_small (page + flash_pgsz h2)) by lia.
      destruct (IH (page + flash_pgsz h2) (set_sl h2 x)) as (o & evs & h & Hrun); [lia|lia|].
      rewrite Hrun. cbn. eauto.
    + cbn. eauto.
  - exists None, [], (sl x). destruct x; reflexivity.
Qed.

Lemma flash_write_blocks_done (fuel : nat) :
  pagesize_contract ->
  forall (blocks : list flash_block) (x : server B K),
    Forall (fun fb => block_in_range fb /\ fb_length fb < Z.of_nat fuel) blocks ->
    exists o evs h, flash_write_blocks fuel blocks x = (Done o, evs, set_sl h x).
Proof.
  intros Hc. induction blocks as [|fb rest IH]; intros x Hall.
  - exists None, [], (sl x). destruct x; reflexivity.
  - apply Forall_cons in Hall. destruct Hall as [[Hfb Hlen] Hrest].
    cbn [flash_write_blocks].
    destruct (flash_write_pages_done fb Hc Hfb fuel (fb_addr fb) x) as (o & evs & h & Hrun).
    { destruct Hfb as (? & ? & ?). lia. }
    { destruct Hfb as (? & ? & ?). lia. }
    rewrite (bind_done _ _ x _ _ _ Hrun).
    destruct o as [e|].
    + cbn. rewrite app_nil_r. eauto.
    + destruct (IH (set_sl h x) Hrest) as (o' & evs' & h' & Hrun').
      rewrite Hrun'. cbn. eauto.
Qed.

Lemma flash_free_blocks_run (blocks : list flash_block) : forall x : server B K,
  exists evs,
    flash_free_blocks blocks x = (Done tt, evs, set_heap (heap x ∖ staged_pointers blocks) x).
Proof.
  induction blocks as [|fb rest IH]; intros x.
  - exists []. cbn. unfold ret, staged_pointers. cbn.
    rewrite difference_empty_r. destruct x; reflexivity.
  - cbn [flash_free_blocks].
    rewrite (bind_done (free (fb_data_ptr fb)) _ x tt _ _ eq_refl).
    set (x1 := set_heap (heap x ∖ {[fb_data_ptr fb]}) x).
    rewrite (bind_done (free (fb_self fb)) _ x1 tt _ _ eq_refl).
    set (x2 := set_heap (heap x1 ∖ {[fb_self fb]}) x1).
    destruct (IH x2) as (evs & Hrun). rewrite Hrun.
    eexists. cbn [result_of events_of state_of fst snd]. f_equal.
    subst x2 x1. unfold set_heap. cbn. f_equal.
    unfold staged_pointers. cbn. apply difference_twice.
Qed.

Lemma flash_go_run (fuel : nat) (x : server B K) :
  pagesize_contract ->
  Forall (fun fb => block_in_range fb /\ fb_length fb < Z.of_nat fuel) (flash_root x) ->
  exists error evs h,
    flash_go fuel x =
      (Done error, evs,
       set_flash_root [] (set_heap (heap x ∖ staged_pointers (flash_root x)) (set_sl h x))) /\
    (error = 0 \/ error = -1).
Proof.
  intros Hc Hall. unfold flash_go.
  rewrite bind_gets. unfold stlink_target_connect, stlink_force_debug.
  rewrite (bind_done _ _ x _ _ _ (call_run _ _ x)).
  set (x1 := set_sl _ x).
  rewrite (bind_done _ _ x1 _ _ _ (call_run _ _ x1)).
  set (x2 := set_sl _ x1).
  rewrite bind_gets.
  change (flash_root x2) with (flash_root x).
  assert (Hcommit : exists error evs h,
            flash_go_commit fuel (flash_root x) x2 = (Done error, evs, set_sl h x)
            /\ (error = 0 \/ error = -1)).
  { unfold flash_go_commit.
    destruct (flash_erase_blocks_done fuel Hc (flash_root x) x2 Hall) as (o & evs & h & Hrun).
    rewrite (bind_done _ _ x2 _ _ _ Hrun).
    destruct o as [e|].
    - cbn. eauto 10.
    - unfold stlink_flashloader_start.
      rewrite (bind_done _ _ _ _ _ _ (call_run _ _ _)).
      set (x3 := set_sl _ (set_sl h x2)).
      destruct (negb (_ =? 0)).
      + cbn. eauto 10.
      + destruct (flash_write_blocks_done fuel Hc (flash_root x) x3 Hall)
          as (o' & evs' & h' & Hrun').
        rewrite (bind_done _ _ x3 _ _ _ Hrun').
        destruct o' as [e'|].
        * cbn. eauto 10.
        * unfold stlink_flashloader_stop, stlink_reset.
          rewrite (bind_done _ _ _ _ _ _ (call_run _ _ _)).
          rewrite (bind_done _ _ _ _ _ _ (call_run _ _ _)).
          cbn. eauto 10. }
  destruct Hcommit as (error & evs & h & Hrun & Herr).
  rewrite (bind_done _ _ x2 _ _ _ Hrun).
  rewrite bind_gets. change (flash_root (set_sl h x)) with (flash_root x).
  destruct (flash_free_blocks_run (flash_root x) (set_sl h x)) as (evs' & Hfree).
  rewrite (bind_done _ _ _ _ _ _ Hfree).
  rewrite bind_modify. cbn.
  exists error. eexists. exists h. split; [reflexivity|exact Herr].
Qed.

(** C6: the vFlashDone command returns, and, whether the commit succeeded
    (reply OK) or an erase or loader primitive failed (reply E08), the staging
    list is empty afterwards and every staged block and its data buffer has
    been freed: the live allocations are those from before minus the two
    allocations of each staged block. *)
Theorem vFlashDone_frees_staging (fuel : nat) (x : server B K) :
  pagesize_contract ->
  Forall (fun fb => block_in_range fb /\ fb_length fb < Z.of_nat fuel) (flash_root x) ->
  exists reply evs x',
    serve_packet fuel (Pkt_v V_FlashDone) x = (Done (Reply (Some reply) 0), evs, x') /\
    (reply = "OK"%string \/ reply = "E08"%string) /\
    flash_root x' = [] /\
    heap x' = (heap x ∖ staged_pointers (flash_root x)) /\
    (forall fb, fb ∈ flash_root x -> (fb_self fb ∉ heap x') /\ (fb_data_ptr fb ∉ heap x')).
Proof.
  intros Hc Hall.
  destruct (flash_go_run fuel x Hc Hall) as (error & evs & h & Hrun & Herr).
  unfold serve_packet, serve_v.
  assert (Hin : forall fb, fb ∈ flash_root x ->
            fb_self fb ∈ staged_pointers (flash_root x) /\
            fb_data_ptr fb ∈ staged_pointers (flash_root x)).
  { intros fb Hfb. unfold staged_pointers.
    split; apply elem_of_list_to_set, list_elem_of_In, in_flat_map;
      exists fb; (split; [apply list_elem_of_In; exact Hfb|cbn; auto]). }
  destruct Herr as [-> | ->]; unfold bind; rewrite Hrun; cbn.
  - exists "OK"%string. do 2 eexists. split; [reflexivity|].
    cbn. split; [auto|]. split; [reflexivity|]. split; [reflexivity|].
    intros fb Hfb. destruct (Hin fb Hfb). set_solver.
  - exists "E08"%string. do 2 eexists. split; [reflexivity|].
    cbn. split; [auto|]. split; [reflexivity|]. split; [reflexivity|].
    intros fb Hfb. destruct (Hin fb Hfb). set_solver.
Qed.

End FlashGo.

(** ** cache_sync before every resume *)

Lemma sync_state_app l1 : forall b l2,
  sync_state b (l1 ++ l2) =
    match sync_state b l1 with
    | Some c => sync_state c l2
    | None => None
    end.
Proof.
  induction l1 as [|e l1 IH]; intros b l2; [reflexivity|].
  destruct e; cbn [app sync_state]; try apply IH; destruct b; try apply IH; reflexivity.
Qed.

Lemma sync_state_quiet l : forall b, forallb quiet_event l = true -> sync_state b l = Some b.
Proof.
  induction l as [|e l IH]; intros b Hq; [reflexivity|].
  cbn [forallb] in Hq. apply andb_true_iff in Hq. destruct Hq as [He Hl].
  destruct e; cbn in He; try discriminate; cbn [sync_state]; apply IH; exact Hl.
Qed.

Section Sync.
Context {B K : Type} `{Probe B} `{Remote K}.
Local Open Scope server_scope.

Lemma events_of_bind {A A'} (m : M B K A) (f : A -> M B K A') x :
  (exists a, result_of (m x) = Done a /\
     events_of (bind m f x) = events_of (m x) ++ events_of (f a (state_of (m x))) /\
     result_of (bind m f x) = result_of (f a (state_of (m x)))) \/
  (result_of (m x) = Diverge /\ events_of (bind m f x) = events_of (m x) /\
     result_of (bind m f x) = Diverge).
Proof.
  unfold bind. destruct (m x) as [[[a|] e1] x1]; cbn.
  - left. exists a. destruct (f a x1) as [[? ?] ?]. cbn. auto.
  - right. auto.
Qed.

Lemma quiet_ret {A} (a : A) : quiet (ret (B:=B) (K:=K) a).
Proof. intros x. reflexivity. Qed.

Lemma quiet_gets {A} (f : server B K -> A) : quiet (gets f).
Proof. intros x. reflexivity. Qed.

Lemma quiet_modify (f : server B K -> server B K) : quiet (modify f).
Proof. intros x. reflexivity. Qed.

Lemma quiet_diverge {A} : quiet (diverge (B:=B) (K:=K) (A:=A)).
Proof. intros x. reflexivity. Qed.

Lemma quiet_bind {A A'} (m : M B K A) (f : A -> M B K A') :
  quiet m -> (forall a, quiet (f a)) -> quiet (bind m f).
Proof.
  intros Hm Hf x.
  destruct (events_of_bind m f x) as [(a & _ & -> & _)|(_ & -> & _)].
  - rewrite forallb_app, Hm, Hf. reflexivity.
  - apply Hm.
Qed.

Lemma quiet_call {A} (op : stlink_t B -> A * stlink_t B) (ev : A -> event) :
  (forall a, quiet_event (ev a) = true) -> quiet (call (K:=K) op ev).
Proof. intros Hev x. rewrite call_run. cbn. rewrite Hev. reflexivity. Qed.

Lemma quiet_for_range n : forall i (body : Z -> M B K unit),
  (forall j, quiet (body j)) -> quiet (for_range n i body).
Proof.
  induction n as [|n IH]; intros i body Hb; cbn [for_range].
  - apply quiet_ret.
  - apply quiet_bind; [apply Hb|]. intros _. apply IH. exact Hb.
Qed.

Lemma quiet_for_first {A} n : forall i (body : Z -> M B K (option A)),
  (forall j, quiet (body j)) -> quiet (for_first n i body).
Proof.
  induction n as [|n IH]; intros i body Hb; cbn [for_first].
  - apply quiet_ret.
  - apply quiet_bind; [apply Hb|]. intros [a|]; [apply quiet_ret|]. apply IH. exact Hb.
Qed.

Lemma quiet_write_debug32 reg val : quiet (stlink_write_debug32 (K:=K) reg val).
Proof. apply quiet_call. reflexivity. Qed.

Lemma quiet_read_debug32 reg : quiet (stlink_read_debug32 (K:=K) reg).
Proof. apply quiet_call. reflexivity. Qed.

Lemma quiet_cache_flush_sets fuel : forall desc addr max_addr way_sh dminl,
  quiet (cache_flush_sets (K:=K) fuel desc addr max_addr way_sh dminl).
Proof.
  induction fuel as [|fuel IH]; intros desc addr max_addr way_sh dminl; cbn [cache_flush_sets].
  - apply quiet_diverge.
  - destruct (addr <? max_addr); [|apply quiet_ret].
    apply quiet_bind; [|intros _; apply IH].
    apply quiet_for_range. intros way.
    apply quiet_bind; [apply quiet_write_debug32|intros _; apply quiet_ret].
Qed.

Lemma quiet_cache_flush_levels n : quiet (cache_flush_levels (K:=K) n).
Proof.
  induction n as [|n IH]; cbn [cache_flush_levels]; [apply quiet_ret|].
  apply quiet_bind; [apply quiet_gets|]. intros c.
  apply quiet_bind; [apply quiet_cache_flush_sets|]. intros _. exact IH.
Qed.

Lemma quiet_cache_flush ccr : quiet (cache_flush (K:=K) ccr).
Proof.
  unfold cache_flush. apply quiet_bind.
  - destruct (negb _); [|apply quiet_ret].
    apply quiet_bind; [apply quiet_gets|]. intros c. apply quiet_cache_flush_levels.
  - intros _. destruct (negb _); [|apply quiet_ret].
    apply quiet_bind; [apply quiet_write_debug32|intros _; apply quiet_ret].
Qed.

Lemma syncs_quiet {A} b (m : M B K A) : quiet m -> syncs b b m.
Proof.
  intros Hq x. exists b. split; [|auto]. apply sync_state_quiet. apply Hq.
Qed.

Lemma syncs_bind {A A'} b b' b'' (m : M B K A) (f : A -> M B K A') :
  syncs b b' m -> (forall a, syncs b' b'' (f a)) -> syncs b b'' (bind m f).
Proof.
  intros Hm Hf x. destruct (Hm x) as (c & Hc & Hdone).
  destruct (events_of_bind m f x) as [(a & Ha & -> & ->)|(Hd & -> & ->)].
  - rewrite sync_state_app, Hc. rewrite (Hdone a Ha).
    destruct (Hf a (state_of (m x))) as (c' & Hc' & Hdone'). eauto.
  - exists c. split; [exact Hc|]. intros a; discriminate.
Qed.

Lemma syncs_emit_sync b : syncs b true (emit (B:=B) (K:=K) EvCacheSync).
Proof. intros x. exists true. split; [reflexivity|auto]. Qed.

Lemma quiet_cache_sync_body :
  quiet (c <- gets cache_desc;
         if used c =? 0 then ret tt
         else
           cm <- gets cache_modified;
           if cm =? 0 then ret tt
           else
             modify (set_cache_modified 0);;
             ' (_, ccr) <- stlink_read_debug32 (K:=K) STLINK_REG_CM7_CCR;
             if negb (Z.land ccr (Z.lor STLINK_REG_CM7_CCR_IC STLINK_REG_CM7_CCR_DC) =? 0)
             then cache_flush ccr
             else ret tt).
Proof.
  apply quiet_bind; [apply quiet_gets|]. intros c.
  destruct (used c =? 0); [apply quiet_ret|].
  apply quiet_bind; [apply quiet_gets|]. intros cm.
  destruct (cm =? 0); [apply quiet_ret|].
  apply quiet_bind; [apply quiet_modify|]. intros _.
  apply quiet_bind; [apply quiet_read_debug32|]. intros [e ccr].
  destruct (negb _); [apply quiet_cache_flush|apply quiet_ret].
Qed.

(** [cache_sync] sets the flag, whatever it was. *)
Lemma syncs_cache_sync b : syncs b true (cache_sync (B:=B) (K:=K)).
Proof.
  unfold cache_sync. apply (syncs_bind b true true); [apply syncs_emit_sync|].
  intros _. apply syncs_quiet. apply quiet_cache_sync_body.
Qed.

(** The trace of [cache_sync] starts with its own event. *)
Lemma cache_sync_first (x : server B K) :
  exists rest, events_of (cache_sync x) = EvCacheSync :: rest.
Proof.
  unfold cache_sync.
  destruct (events_of_bind (emit EvCacheSync)
              (fun _ => c <- gets cache_desc;
                 if used c =? 0 then ret tt
                 else
                   cm <- gets cache_modified;
                   if cm =? 0 then ret tt
                   else
                     modify (set_cache_modified 0);;
                     ' (_, ccr) <- stlink_read_debug32 (K:=K) STLINK_REG_CM7_CCR;
                     if negb (Z.land ccr (Z.lor STLINK_REG_CM7_CCR_IC STLINK_REG_CM7_CCR_DC) =? 0)
                     then cache_flush ccr
                     else ret tt) x) as [(a & _ & -> & _)|(Hd & _)]; [|discriminate Hd].
  cbn. eauto.
Qed.

Lemma events_of_bind_prefix {A A'} (m : M B K A) (f : A -> M B K A') x :
  exists rest, events_of (bind m f x) = events_of (m x) ++ rest.
Proof.
  destruct (events_of_bind m f x) as [(a & _ & -> & _)|(_ & -> & _)].
  - eauto.
  - exists []. rewrite app_nil_r. reflexivity.
Qed.

Lemma syncs_run type : syncs true false (stlink_run (K:=K) type).
Proof. intros x. unfold stlink_run. rewrite call_run. cbn. eauto. Qed.

Lemma syncs_step : syncs true false (stlink_step (K:=K)).
Proof. intros x. unfold stlink_step. rewrite call_run. cbn. eauto. Qed.

Ltac quiet_tac :=
  repeat first
    [ apply quiet_ret | apply quiet_gets | apply quiet_modify | apply quiet_diverge
    | apply quiet_write_debug32 | apply quiet_read_debug32
    | apply quiet_call; intros; reflexivity
    | apply quiet_for_first; intros ?
    | apply quiet_for_range; intros ?
    | apply quiet_bind; [|intros ?]
    | match goal with
      | |- quiet (match ?c with _ => _ end) => destruct c
      end ].

Ltac syncs_tac :=
  repeat first
    [ apply syncs_cache_sync | apply syncs_run | apply syncs_step
    | match goal with
      | |- syncs ?b ?b' (bind cache_sync _) =>
          apply (syncs_bind b true b'); [apply syncs_cache_sync|intros ?]
      | |- syncs true ?b' (bind (stlink_run _) _) =>
          apply (syncs_bind true false b'); [apply syncs_run|intros ?]
      | |- syncs true ?b' (bind stlink_step _) =>
          apply (syncs_bind true false b'); [apply syncs_step|intros ?]
      | |- syncs ?b ?b' (bind ?m _) =>
          apply (syncs_bind b b b'); [apply syncs_quiet; solve [quiet_tac]|intros ?]
      | |- syncs ?b ?b (ret _) => apply syncs_quiet, quiet_ret
      | |- syncs _ _ (match ?c with _ => _ end) => destruct c
      end ].

Lemma quiet_has_breakpoint addr : quiet (has_breakpoint (B:=B) (K:=K) addr).
Proof. unfold has_breakpoint, has_breakpoint_slot. quiet_tac. Qed.

Lemma syncs_serve_c_halted : syncs false false (serve_c_halted (B:=B) (K:=K)).
Proof.
  unfold serve_c_halted, stlink_read_all_regs, stlink_read_mem32, do_semihosting,
    stlink_write_reg.
  syncs_tac.
Qed.

Lemma syncs_serve_c_poll : syncs false false (serve_c_poll (B:=B) (K:=K)).
Proof.
  unfold serve_c_poll, gdb_check_for_interrupt, close_socket, stlink_force_debug,
    stlink_status.
  assert (Hq : forall (op : K -> Z * K), quiet (on_client (B:=B) op EvCheckForInterrupt)).
  { intros op x. unfold on_client. destruct (op (client x)). reflexivity. }
  apply (syncs_bind false false false); [apply syncs_quiet, Hq|]. intros status.
  destruct (status <? 0).
  { apply syncs_quiet. quiet_tac. intros x. reflexivity. }
  destruct (status =? 1).
  { apply syncs_quiet. quiet_tac. }
  apply (syncs_bind false false false); [apply syncs_quiet; quiet_tac|]. intros _.
  apply (syncs_bind false false false); [apply syncs_quiet; quiet_tac|]. intros cs.
  destruct cs; try solve [apply syncs_quiet; quiet_tac].
  apply (syncs_bind false false false); [apply syncs_serve_c_halted|]. intros stop.
  destruct stop; apply syncs_quiet; quiet_tac.
Qed.

Lemma syncs_serve_c_loop fuel : syncs false false (serve_c_loop (B:=B) (K:=K) fuel).
Proof.
  induction fuel as [|fuel IH]; cbn [serve_c_loop].
  - apply syncs_quiet, quiet_diverge.
  - apply (syncs_bind false false false); [apply syncs_serve_c_poll|]. intros [e|].
    + apply syncs_quiet, quiet_ret.
    + apply (syncs_bind false false false); [|intros _; exact IH].
      apply syncs_quiet. intros x. reflexivity.
Qed.

Lemma syncs_serve_c fuel : syncs false false (serve_c (B:=B) (K:=K) fuel).
Proof.
  unfold serve_c.
  apply (syncs_bind false true false); [apply syncs_cache_sync|]. intros _.
  apply (syncs_bind true false false); [apply syncs_run|]. intros _.
  apply (syncs_bind false false false); [apply syncs_serve_c_loop|]. intros e.
  destruct e; apply syncs_quiet, quiet_ret.
Qed.

Lemma syncs_serve_s : syncs false false (serve_s (B:=B) (K:=K)).
Proof.
  unfold serve_s.
  apply (syncs_bind false true false); [apply syncs_cache_sync|]. intros _.
  apply (syncs_bind true false false); [apply syncs_step|]. intros e.
  destruct (negb _); apply syncs_quiet, quiet_ret.
Qed.

Lemma syncs_monitor_resume cmd :
  starts_with "resume" cmd = true ->
  syncs false false (serve_q (B:=B) (K:=K) (Q_Rcmd cmd)).
Proof.
  intros Hcmd. unfold serve_q, serve_q_Rcmd. rewrite Hcmd.
  apply (syncs_bind false false false); [|intros [r|]; apply syncs_quiet, quiet_ret].
  apply (syncs_bind false true false); [apply syncs_cache_sync|]. intros _.
  apply (syncs_bind true false false); [apply syncs_run|]. intros e.
  destruct (negb _); apply syncs_quiet, quiet_ret.
Qed.

Lemma syncs_resumes_synced {A} b' (m : M B K A) x :
  syncs false b' m -> resumes_synced (events_of (m x)) = true.
Proof.
  intros Hm. destruct (Hm x) as (c & Hc & _). unfold resumes_synced. rewrite Hc. reflexivity.
Qed.

Lemma In_cache_sync_first {A} (f : unit -> M B K A) x :
  In EvCacheSync (events_of (bind cache_sync f x)).
Proof.
  destruct (events_of_bind_prefix cache_sync f x) as (rest & ->).
  destruct (cache_sync_first x) as (tl & ->). left. reflexivity.
Qed.

(** C5: on each of the four paths that resume the target for debugging,
    [cache_sync] is called and every [stlink_run] or [stlink_step] of the
    command comes after a [cache_sync] of its own: the 'c' command (its first
    resume and every resume after a semihosting call, for any number of
    polling turns), the 's' command, the monitor command resume, and the
    resume after one serviced semihosting call. *)
Theorem cache_sync_before_every_resume (fuel : nat) (x : server B K) (cmd : string) :
  (resumes_synced (events_of (serve_packet fuel Pkt_c x)) = true /\
   In EvCacheSync (events_of (serve_packet fuel Pkt_c x))) /\
  (resumes_synced (events_of (serve_packet fuel Pkt_s x)) = true /\
   In EvCacheSync (events_of (serve_packet fuel Pkt_s x))) /\
  (starts_with "resume" cmd = true ->
   resumes_synced (events_of (serve_packet fuel (Pkt_q (Q_Rcmd cmd)) x)) = true /\
   In EvCacheSync (events_of (serve_packet fuel (Pkt_q (Q_Rcmd cmd)) x))) /\
  (resumes_synced (events_of (serve_c_halted x)) = true /\
   (result_of (serve_c_halted x) = Done false ->
    exists before after ret,
      events_of (serve_c_halted x) = before ++ EvCacheSync :: after ++ [EvRun RUN_NORMAL ret] /\
      forallb quiet_event after = true)).
Proof.
  split; [|split; [|split]].
  - split.
    + apply (syncs_resumes_synced false). apply syncs_serve_c.
    + apply In_cache_sync_first.
  - split.
    + apply (syncs_resumes_synced false). apply syncs_serve_s.
    + apply In_cache_sync_first.
  - intros Hcmd. split.
    + apply (syncs_resumes_synced false). apply syncs_monitor_resume. exact Hcmd.
    + cbn [serve_packet]. unfold serve_q, serve_q_Rcmd. rewrite Hcmd.
      destruct (events_of_bind_prefix
                  (cache_sync;;
                   e <- stlink_run (K:=K) RUN_NORMAL;
                   if negb (e =? 0) then ret (Some "E00"%string) else ret (Some "OK"%string))
                  (fun reply => match reply with
                                | None => ret (Reply (Some ""%string) 0)
                                | Some _ => ret (Reply reply 0)
                                end) x) as (rest & ->).
      apply in_or_app. left. apply In_cache_sync_first.
  - split.
    + apply (syncs_resumes_synced false). apply syncs_serve_c_halted.
    + unfold serve_c_halted.
      rewrite bind_gets. destruct (semihosting (st x)); cbn [negb]; [|discriminate].
      unfold stlink_read_all_regs, stlink_read_mem32.
      rewrite (bind_done _ _ x _ _ _ (call_run _ _ x)).
      destruct (fst (probe_read_all_regs (sl x))) as [e0 reg] eqn:Hregs.
      set (x1 := set_sl _ x).
      rewrite (bind_done _ _ x1 _ _ _ (call_run _ _ x1)).
      set (x2 := set_sl _ x1).
      destruct (negb _); [cbn; discriminate|].
      rewrite bind_gets.
      destruct (has_breakpoint (u32 (zth 0 (r reg) 15 - zth 0 (r reg) 15 mod 4)) x2)
        as [[hb hev] x3] eqn:Hhb.
      assert (Hq := quiet_has_breakpoint
                      (u32 (zth 0 (r reg) 15 - zth 0 (r reg) 15 mod 4)) x2).
      rewrite Hhb in Hq. cbn [events_of fst snd] in Hq.
      destruct hb as [hb|]; [|rewrite (bind_diverge _ _ x2 _ _ Hhb); cbn; discriminate].
      rewrite (bind_done _ _ x2 _ _ _ Hhb).
      destruct (_ && _); [|cbn; discriminate].
      unfold do_semihosting, stlink_write_reg, stlink_run.
      rewrite (bind_done _ _ x3 _ _ _ (call_run _ _ x3)).
      destruct (fst (probe_do_semihosting (sl x3) _ _)) as [e2 r0].
      set (x4 := set_sl _ x3).
      rewrite (bind_done _ _ x4 _ _ _ (call_run _ _ x4)).
      set (x5 := set_sl _ x4).
      rewrite (bind_done _ _ x5 _ _ _ (call_run _ _ x5)).
      set (x6 := set_sl _ x5).
      destruct (cache_sync x6) as [[cr cev] x7] eqn:Hcs.
      destruct (cache_sync_first x6) as (tl & Htl). rewrite Hcs in Htl. cbn in Htl. subst cev.
      assert (Hqs := syncs_cache_sync false x6). rewrite Hcs in Hqs.
      destruct cr as [[]|]; [|rewrite (bind_diverge _ _ x6 _ _ Hcs); cbn; discriminate].
      rewrite (bind_done _ _ x6 _ _ _ Hcs).
      rewrite (bind_done _ _ x7 _ _ _ (call_run _ _ x7)).
      cbn [result_of events_of state_of fst snd ret app]. intros _.
      assert (Hqtl : forallb quiet_event tl = true).
      { pose proof (quiet_cache_sync_body x6) as Hb.
        revert Hcs. unfold cache_sync.
        destruct (events_of_bind (emit EvCacheSync)
          (fun _ => c <- gets cache_desc;
             if used c =? 0 then ret tt
             else
               cm <- gets cache_modified;
               if cm =? 0 then ret tt
               else
                 modify (set_cache_modified 0);;
                 ' (_, ccr) <- stlink_read_debug32 (K:=K) STLINK_REG_CM7_CCR;
                 if negb (Z.land ccr (Z.lor STLINK_REG_CM7_CCR_IC STLINK_REG_CM7_CCR_DC) =? 0)
                 then cache_flush ccr
                 else ret tt) x6) as [(a & _ & He & _)|(Hd & _)]; [|discriminate Hd].
        intros Hcs. rewrite Hcs in He. cbn in He. injection He as ->. exact Hb. }
      eexists (_ :: _ :: hev ++ [_; _; _]), tl, _. split; [|exact Hqtl].
      cbn [app]. rewrite <- app_assoc. reflexivity.
Qed.

End Sync.

(** ** cache_sync returns *)

Section CacheSync.
Context {B K : Type} `{Probe B} `{Remote K}.
Local Open Scope server_scope.

Lemma cache_flush_ways_run n : forall i addr way_sh (x : server B K),
  exists evs h,
    for_range n i (fun way =>
      stlink_write_debug32 STLINK_REG_CM7_DCCSW (Z.lor addr (u32 (Z.shiftl way way_sh)));;
      ret tt) x = (Done tt, evs, set_sl h x).
Proof.
  induction n as [|n IH]; intros i addr way_sh x; cbn [for_range].
  - exists [], (sl x). destruct x; reflexivity.
  - set (v := Z.lor addr (u32 (Z.shiftl i way_sh))).
    assert (Hbody : (stlink_write_debug32 (K:=K) STLINK_REG_CM7_DCCSW v;; ret tt) x
                    = (Done tt, [EvWriteDebug32 STLINK_REG_CM7_DCCSW v
                                   (fst (probe_write_debug32 (sl x) STLINK_REG_CM7_DCCSW v))],
                       set_sl (snd (probe_write_debug32 (sl x) STLINK_REG_CM7_DCCSW v)) x)).
    { unfold stlink_write_debug32.
      rewrite (bind_done _ _ x _ _ _ (call_run _ _ x)). reflexivity. }
    rewrite (bind_done _ _ x _ _ _ Hbody).
    destruct (IH (i + 1) addr way_sh
                (set_sl (snd (probe_write_debug32 (sl x) STLINK_REG_CM7_DCCSW v)) x))
      as (evs & h & Hrun).
    rewrite Hrun. cbn. eauto.
Qed.

Lemma cache_flush_sets_run desc max_addr way_sh dminl :
  0 < dminl <= 2 ^ 31 -> max_addr <= 2 ^ 31 ->
  forall fuel addr (x : server B K),
    0 <= addr < 2 ^ 32 -> Z.max 0 (max_addr - addr) < Z.of_nat fuel ->
    exists evs h,
      cache_flush_sets fuel desc addr max_addr way_sh dminl x = (Done tt, evs, set_sl h x).
Proof.
  intros Hd Hmax. induction fuel as [|fuel IH]; intros addr x Haddr Hfuel; [lia|].
  cbn [cache_flush_sets].
  destruct (Z.ltb_spec addr max_addr) as [Hlt|Hge].
  - destruct (cache_flush_ways_run (Z.to_nat (nways desc)) 0 addr way_sh x)
      as (evs & h & Hrun).
    rewrite (bind_done _ _ x _ _ _ Hrun).
    rewrite (u32_small (addr + dminl)) by lia.
    destruct (IH (addr + dminl) (set_sl h x)) as (evs' & h' & Hrun'); [lia|lia|].
    rewrite Hrun'. cbn. eauto.
  - exists [], (sl x). destruct x; reflexivity.
Qed.

Lemma cache_flush_levels_run n : forall x : server B K,
  cache_geometry_ok (cache_desc x) -> Z.of_nat n <= Z.max 0 (louu (cache_desc x)) ->
  exists evs h, cache_flush_levels n x = (Done tt, evs, set_sl h x).
Proof.
  induction n as [|n IH]; intros x Hok Hn; cbn [cache_flush_levels].
  - exists [], (sl x). destruct x; reflexivity.
  - rewrite bind_gets.
    pose proof Hok as (Hd & Hlouu & Hw).
    pose proof (Hw (Z.of_nat n) ltac:(lia)) as Hwn.
    set (desc := zth no_level (dcache (cache_desc x)) (Z.of_nat n)) in *.
    assert (Hmax : u32 (Z.shiftl 1 (width desc)) <= 2 ^ 31).
    { rewrite Z.shiftl_1_l. rewrite u32_small.
      - apply Z.pow_le_mono_r; lia.
      - split; [apply Z.pow_nonneg; lia|]. apply Z.pow_lt_mono_r; lia. }
    assert (Hpos : 0 <= u32 (Z.shiftl 1 (width desc))) by (apply Z.mod_pos_bound; lia).
    destruct (cache_flush_sets_run desc (u32 (Z.shiftl 1 (width desc)))
                (u32 (32 - log2_nways desc)) (dminline (cache_desc x)) Hd Hmax
                (S (Z.to_nat (u32 (Z.shiftl 1 (width desc))))) (Z.shiftl (Z.of_nat n) 1) x)
      as (evs & h & Hrun).
    { rewrite (Z.shiftl_mul_pow2 (Z.of_nat n) 1) by lia. change (2 ^ 1) with 2. lia. }
    { rewrite (Z.shiftl_mul_pow2 (Z.of_nat n) 1) by lia. change (2 ^ 1) with 2.
      generalize dependent (u32 (Z.shiftl 1 (width desc))). intros m _ Hm. lia. }
    rewrite (bind_done _ _ x _ _ _ Hrun).
    destruct (IH (set_sl h x)) as (evs' & h' & Hrun'); [exact Hok|cbn; lia|].
    rewrite Hrun'. cbn. eauto.
Qed.

Lemma cache_flush_run ccr (x : server B K) :
  cache_geometry_ok (cache_desc x) ->
  exists evs h, cache_flush ccr x = (Done tt, evs, set_sl h x).
Proof.
  intros Hok. unfold cache_flush.
  assert (Hfirst : exists evs h,
            (if negb (Z.land ccr STLINK_REG_CM7_CCR_DC =? 0)
             then c <- gets cache_desc; cache_flush_levels (Z.to_nat (louu c))
             else ret tt) x = (Done tt, evs, set_sl h x)).
  { destruct (negb _).
    - rewrite bind_gets. apply cache_flush_levels_run; [exact Hok|lia].
    - exists [], (sl x). destruct x; reflexivity. }
  destruct Hfirst as (evs & h & Hrun).
  rewrite (bind_done _ _ x _ _ _ Hrun).
  destruct (negb (Z.land ccr STLINK_REG_CM7_CCR_IC =? 0)).
  - unfold stlink_write_debug32.
    rewrite (bind_done _ _ _ _ _ _ (call_run _ _ _)). cbn. eauto.
  - cbn. rewrite app_nil_r. eauto.
Qed.

(** [cache_sync] returns, having touched nothing but the probe handle and
    [cache_modified]; its trace is its own event followed by debug register
    accesses. *)
Lemma cache_sync_run (x : server B K) :
  used (cache_desc x) = 0 \/ cache_geometry_ok (cache_desc x) ->
  exists evs h cm,
    cache_sync x = (Done tt, EvCacheSync :: evs, set_cache_modified cm (set_sl h x)) /\
    forallb quiet_event evs = true.
Proof.
  intros Hok.
  pose proof (quiet_cache_sync_body x) as Hq.
  unfold cache_sync.
  rewrite (bind_done (emit EvCacheSync) _ x tt [EvCacheSync] x eq_refl).
  cbn [app].
  match goal with
  | |- context [result_of ?o] => set (body := o) in *
  end.
  assert (Hbody : exists h cm,
            result_of body = Done tt /\ state_of body = set_cache_modified cm (set_sl h x)).
  { subst body. rewrite bind_gets.
    destruct (Z.eqb_spec (used (cache_desc x)) 0) as [Hu|Hu].
    { exists (sl x), (cache_modified x). destruct x; split; reflexivity. }
    destruct Hok as [Hz|Hok]; [contradiction|].
    rewrite bind_gets.
    destruct (cache_modified x =? 0).
    { exists (sl x), (cache_modified x). destruct x; split; reflexivity. }
    rewrite bind_modify. unfold stlink_read_debug32.
    rewrite (bind_done _ _ _ _ _ _ (call_run _ _ _)).
    destruct (fst (probe_read_debug32 _ _)) as [e ccr].
    destruct (negb _).
    - destruct (cache_flush_run ccr
                  (set_sl (snd (probe_read_debug32 (sl (set_cache_modified 0 x))
                                  STLINK_REG_CM7_CCR)) (set_cache_modified 0 x)) Hok)
        as (evs & h & Hrun).
      rewrite Hrun. cbn. exists h, 0. split; reflexivity.
    - cbn. eexists _, 0. split; reflexivity. }
  destruct Hbody as (h & cm & Hres & Hst).
  exists (events_of body), h, cm. split; [|exact Hq].
  rewrite <- Hres, <- Hst. reflexivity.
Qed.

End CacheSync.

(** ** The semihosting trap loop of the 'c' command *)

Section Trap.
Context {B K : Type} `{Probe B} `{Remote K}.
Local Open Scope server_scope.

Lemma has_breakpoint_scan addr (x : server B K) n : forall i,
  for_first n i (has_breakpoint_slot addr) x =
    (Done (if existsb (fun i => bp_addr (zth no_break (code_breaks x) i) =? addr)
                (seqZ i (Z.of_nat n))
           then Some 1 else None), [], x).
Proof.
  induction n as [|n IH]; intros i; [reflexivity|].
  cbn [for_first].
  rewrite seqZ_cons by lia. cbn [existsb].
  replace (Z.pred (Z.of_nat (S n))) with (Z.of_nat n) by lia.
  assert (Hslot : has_breakpoint_slot addr i x =
            (Done (if bp_addr (zth no_break (code_breaks x) i) =? addr then Some 1 else None),
             [], x)).
  { unfold has_breakpoint_slot. rewrite bind_gets.
    destruct (bp_addr (zth no_break (code_breaks x) i) =? addr); reflexivity. }
  rewrite (bind_done _ _ x _ _ _ Hslot).
  destruct (bp_addr (zth no_break (code_breaks x) i) =? addr).
  - reflexivity.
  - rewrite IH. replace (Z.succ i) with (i + 1) by lia. reflexivity.
Qed.

Lemma has_breakpoint_run addr (x : server B K) :
  has_breakpoint addr x = (Done (if breakpoint_slot_holds x addr then 1 else 0), [], x).
Proof.
  unfold has_breakpoint, breakpoint_slot_holds. rewrite bind_gets.
  rewrite (bind_done _ _ x _ _ _ (has_breakpoint_scan addr x _ 0)).
  assert (Hs : seqZ 0 (Z.of_nat (Z.to_nat (code_break_num x))) = seqZ 0 (code_break_num x)).
  { unfold seqZ. rewrite Nat2Z.id. reflexivity. }
  rewrite Hs. destruct (existsb _ _); reflexivity.
Qed.

Lemma forallb_read_quiet evs :
  forallb read_event evs = true -> forallb quiet_event evs = true.
Proof.
  induction evs as [|e evs IH]; [reflexivity|]. cbn [forallb].
  rewrite !andb_true_iff. intros [He Hevs]. split; [|apply IH; exact Hevs].
  destruct e; try discriminate He; reflexivity.
Qed.

(** What the halted check does, case by case. *)
Lemma serve_c_halted_cases (x : server B K) :
  used (cache_desc x) = 0 \/ cache_geometry_ok (cache_desc x) ->
  let regs := probe_read_all_regs (sl x) in
  let reg := snd (fst regs) in
  let pc := zth 0 (r reg) 15 in
  let offset := pc mod 4 in
  let addr := u32 (pc - offset) in
  let len := if offset >? 2 then 8 else 4 in
  let mem := probe_read_mem32 (snd regs) addr len in
  let insn := insn_at (q_buf (snd mem)) offset in
  let semi := probe_do_semihosting (snd mem) (zth 0 (r reg) 0) (zth 0 (r reg) 1) in
  let dispatch :=
    semihosting (st x) && (fst mem =? 0) && (insn =? 0xBEAB)
    && negb (breakpoint_slot_holds x addr) in
  let out := serve_c_halted x in
  (semihosting (st x) = false -> out = (Done true, [], x)) /\
  (semihosting (st x) = true ->
     exists rest,
       events_of out = EvReadAllRegs (fst (fst regs)) :: EvReadMem32 addr len (fst mem) :: rest) /\
  (dispatch = true ->
     result_of out = Done false /\
     exists w0 w1 sync run,
       events_of out =
         [EvReadAllRegs (fst (fst regs)); EvReadMem32 addr len (fst mem);
          EvSemihosting (zth 0 (r reg) 0) (zth 0 (r reg) 1) (fst (fst semi));
          EvWriteReg (snd (fst semi)) 0 w0;
          EvWriteReg (u32 (pc + 2)) 15 w1]
         ++ EvCacheSync :: sync ++ [EvRun RUN_NORMAL run] /\
       forallb quiet_event sync = true) /\
  (dispatch = false ->
     result_of out = Done true /\ forallb read_event (events_of out) = true).
Proof.
  intros Hcache. cbv zeta. unfold serve_c_halted. rewrite bind_gets.
  destruct (semihosting (st x)) eqn:Hsemi; cbn [negb andb].
  2:{ cbn. repeat split; try discriminate; auto. }
  split; [discriminate|].
  unfold stlink_read_all_regs, stlink_read_mem32.
  rewrite (bind_done _ _ x _ _ _ (call_run _ _ x)).
  destruct (probe_read_all_regs (sl x)) as [[e0 reg] h0]. cbn [fst snd].
  set (pc := zth 0 (r reg) 15). set (offset := pc mod 4).
  set (addr := u32 (pc - offset)). set (len := if offset >? 2 then 8 else 4).
  set (x1 := set_sl h0 x).
  rewrite (bind_done _ _ x1 _ _ _ (call_run _ _ x1)).
  change (sl x1) with h0.
  destruct (probe_read_mem32 h0 addr len) as [e1 h1]. cbn [fst snd].
  set (x2 := set_sl h1 x1).
  destruct (Z.eqb_spec e1 0) as [Hm|Hm]; cbn [negb andb].
  2:{ cbn. split; [eauto|]. split; [discriminate|]. intros _. split; reflexivity. }
  rewrite bind_gets. change (q_buf (sl x2)) with (q_buf h1).
  set (insn := insn_at (q_buf h1) offset).
  rewrite (bind_done _ _ x2 _ _ _ (has_breakpoint_run addr x2)).
  change (breakpoint_slot_holds x2 addr) with (breakpoint_slot_holds x addr).
  cbn [app].
  destruct (insn =? 48811) eqn:Hinsn; cbn [andb].
  2:{ cbn. split; [eauto|]. split; [discriminate|]. intros _. split; reflexivity. }
  destruct (breakpoint_slot_holds x addr) eqn:Hhb; cbn [negb Z.eqb].
  { cbn. split; [eauto|]. split; [discriminate|]. intros _. split; reflexivity. }
  unfold do_semihosting, stlink_write_reg, stlink_run.
  rewrite (bind_done _ _ x2 _ _ _ (call_run _ _ x2)).
  change (sl x2) with h1.
  destruct (probe_do_semihosting h1 (zth 0 (r reg) 0) (zth 0 (r reg) 1)) as [[e2 r0] h2].
  cbn [fst snd].
  set (x3 := set_sl h2 x2).
  rewrite (bind_done _ _ x3 _ _ _ (call_run _ _ x3)).
  set (x4 := set_sl _ x3).
  rewrite (bind_done _ _ x4 _ _ _ (call_run _ _ x4)).
  set (x5 := set_sl _ x4).
  destruct (cache_sync_run x5 Hcache) as (sync & h & cm & Hsync & Hquiet).
  rewrite (bind_done _ _ x5 _ _ _ Hsync).
  rewrite (bind_done _ _ _ _ _ _ (call_run _ _ _)).
  cbn [result_of events_of state_of fst snd ret app].
  split; [eauto|]. split; [|discriminate]. intros _. split; [reflexivity|].
  do 4 eexists. split; [|exact Hquiet].
  cbn [app]. try rewrite app_nil_r. reflexivity.
Qed.

(** One polling turn that finds the target halted ends the loop exactly
    when the halted check says so. *)
Lemma serve_c_poll_halted (y : server B K) :
  let chk := remote_check_for_interrupt (client y) in
  let stat := probe_status (sl y) in
  let x := set_sl (snd stat) (set_client (snd chk) y) in
  0 <= fst chk -> fst chk <> 1 -> core_stat (snd stat) = TARGET_HALTED ->
  result_of (serve_c_poll y) =
    match result_of (serve_c_halted x) with
    | Done true => Done (Some LoopBreak)
    | Done false => Done None
    | Diverge => Diverge
    end.
Proof.
  intros chk stat x Hpos Hne Hhalt.
  unfold serve_c_poll, gdb_check_for_interrupt, stlink_status.
  assert (Hchk : on_client (B:=B) remote_check_for_interrupt EvCheckForInterrupt y
                 = (Done (fst chk), [EvCheckForInterrupt (fst chk)], set_client (snd chk) y)).
  { unfold on_client. subst chk. destruct (remote_check_for_interrupt (client y)). reflexivity. }
  rewrite (bind_done _ _ y _ _ _ Hchk).
  destruct (Z.ltb_spec (fst chk) 0); [lia|].
  destruct (Z.eqb_spec (fst chk) 1); [contradiction|].
  rewrite (bind_done _ _ _ _ _ _ (call_run _ _ _)).
  rewrite bind_gets. cbn [sl set_sl set_client]. fold stat. rewrite Hhalt.
  change (set_sl (snd stat) (set_client (snd chk) y)) with x.
  destruct (serve_c_halted x) as [[[stop|] evs] x'] eqn:Hrun.
  - rewrite (bind_done _ _ x _ _ _ Hrun). destruct stop; reflexivity.
  - rewrite (bind_diverge _ _ x _ _ Hrun). reflexivity.
Qed.

Lemma serve_c_loop_break fuel (y : server B K) :
  result_of (serve_c_poll y) = Done (Some LoopBreak) ->
  result_of (serve_c_loop (S fuel) y) = Done LoopBreak.
Proof.
  intros Hpoll. cbn [serve_c_loop].
  destruct (serve_c_poll y) as [[res evs] y'] eqn:Hrun. cbn in Hpoll. subst res.
  rewrite (bind_done _ _ y _ _ _ Hrun). reflexivity.
Qed.

Lemma serve_c_reply fuel (x : server B K) h :
  result_of (serve_c fuel x) = Done h -> h = Return1 \/ h = Reply (Some "S05"%string) 0.
Proof.
  unfold serve_c.
  destruct (events_of_bind cache_sync
              (fun _ => stlink_run RUN_NORMAL;;
                 e <- serve_c_loop fuel;
                 match e with
                 | LoopReturn1 => ret Return1
                 | LoopBreak => ret (Reply (Some "S05"%string) 0)
                 end) x) as [(a & _ & _ & ->)|(_ & _ & ->)]; [|discriminate].
  destruct (events_of_bind (stlink_run RUN_NORMAL)
              (fun _ => e <- serve_c_loop fuel;
                 match e with
                 | LoopReturn1 => ret Return1
                 | LoopBreak => ret (Reply (Some "S05"%string) 0)
                 end) (state_of (cache_sync x))) as [(b & _ & _ & ->)|(_ & _ & ->)];
    [|discriminate].
  destruct (events_of_bind (serve_c_loop fuel)
              (fun e => match e with
                 | LoopReturn1 => ret Return1
                 | LoopBreak => ret (Reply (Some "S05"%string) 0)
                 end) (state_of (stlink_run RUN_NORMAL (state_of (cache_sync x)))))
    as [(e & _ & _ & ->)|(_ & _ & ->)]; [|discriminate].
  destruct e; cbn; intros [= <-]; auto.
Qed.

(** C1 (amended): when the polling loop of the 'c' command finds the
    target halted, then: with semihosting disabled it stops without reading
    anything; with semihosting enabled it reads all registers and then 4
    bytes at PC - PC%4, or 8 bytes when PC%4 > 2; it services the trap (the
    handler called with r0 and r1, its return written to r0, PC + 2 written to
    r15, [cache_sync], resume) if and only if semihosting is enabled, that
    read succeeded, the half-word at offset PC%4 of the buffer is 0xBEAB and
    no user breakpoint is set at PC; in every other case it makes no call
    beyond the two reads and stops, and the loop ends; whenever the 'c'
    command returns a reply it is S05.  The part about the breakpoint is
    stated for the sessions in which the lookup of [has_breakpoint] at
    PC - PC%4 answers whether a breakpoint is set at PC; what the code does
    where the lookup differs (it compares the address field of a slot only)
    is left open. *)
Theorem semihosting_trap_dispatch (x : server B K) :
  used (cache_desc x) = 0 \/ cache_geometry_ok (cache_desc x) ->
  let regs := probe_read_all_regs (sl x) in
  let reg := snd (fst regs) in
  let pc := zth 0 (r reg) 15 in
  let offset := pc mod 4 in
  let addr := u32 (pc - offset) in
  let len := if offset >? 2 then 8 else 4 in
  let mem := probe_read_mem32 (snd regs) addr len in
  let insn := insn_at (q_buf (snd mem)) offset in
  let semi := probe_do_semihosting (snd mem) (zth 0 (r reg) 0) (zth 0 (r reg) 1) in
  let trap := semihosting (st x) && (fst mem =? 0) && (insn =? 0xBEAB) in
  let dispatch := trap && negb (user_breakpoint_at x pc) in
  let out := serve_c_halted x in
  (* semihosting disabled: nothing is read *)
  (semihosting (st x) = false -> out = (Done true, [], x)) /\
  (* semihosting enabled: the two reads *)
  (semihosting (st x) = true ->
     exists rest,
       events_of out = EvReadAllRegs (fst (fst regs)) :: EvReadMem32 addr len (fst mem) :: rest) /\
  (* no trap to service: the check stops, whatever the breakpoints *)
  (trap = false ->
     result_of out = Done true /\ forallb read_event (events_of out) = true) /\
  (* where the lookup is exact, the trap is serviced if and only if [dispatch] *)
  (breakpoint_slot_holds x addr = user_breakpoint_at x pc ->
     (dispatch = true ->
        result_of out = Done false /\
        exists w0 w1 sync run,
          events_of out =
            [EvReadAllRegs (fst (fst regs)); EvReadMem32 addr len (fst mem);
             EvSemihosting (zth 0 (r reg) 0) (zth 0 (r reg) 1) (fst (fst semi));
             EvWriteReg (snd (fst semi)) 0 w0;
             EvWriteReg (u32 (pc + 2)) 15 w1]
            ++ EvCacheSync :: sync ++ [EvRun RUN_NORMAL run] /\
          forallb quiet_event sync = true) /\
     (dispatch = false ->
        result_of out = Done true /\ forallb read_event (events_of out) = true)) /\
  (* a halted check that stops ends the loop, and the reply is S05 *)
  (forall fuel (y : server B K),
     x = set_sl (snd (probe_status (sl y)))
           (set_client (snd (remote_check_for_interrupt (client y))) y) ->
     0 <= fst (remote_check_for_interrupt (client y)) ->
     fst (remote_check_for_interrupt (client y)) <> 1 ->
     core_stat (sl x) = TARGET_HALTED ->
     breakpoint_slot_holds x addr = user_breakpoint_at x pc ->
     dispatch = false ->
     result_of (serve_c_loop (S fuel) y) = Done LoopBreak) /\
  (forall fuel (y : server B K) h,
     result_of (serve_packet fuel Pkt_c y) = Done h ->
     h = Return1 \/ h = Reply (Some "S05"%string) 0).
Proof.
  intros Hcache regs reg pc offset addr len mem insn semi trap dispatch out.
  destruct (serve_c_halted_cases x Hcache) as (Hoff & Hon & Hyes & Hno).
  fold regs reg pc offset addr len mem insn semi out in Hyes, Hno.
  change (semihosting (st x) && (fst mem =? 0) && (insn =? 0xBEAB)) with trap in Hyes, Hno.
  split; [exact Hoff|]. split; [exact Hon|].
  split.
  { intros Htrap. apply Hno. rewrite Htrap. reflexivity. }
  split.
  { intros Hexact. rewrite Hexact in Hyes, Hno. split; [exact Hyes|exact Hno]. }
  split.
  - intros fuel y Hx Hpos Hne Hhalt Hexact Hd.
    apply serve_c_loop_break.
    rewrite (serve_c_poll_halted y Hpos Hne).
    + rewrite <- Hx. rewrite Hexact in Hno. destruct (Hno Hd) as [Hr _].
      unfold out in Hr. rewrite Hr. reflexivity.
    + rewrite Hx in Hhalt. exact Hhalt.
  - intros fuel y h. apply serve_c_reply.
Qed.

End Trap.

(** ** Probe failures and the reply *)


Section Failures.
Context {B K : Type} `{Probe B} `{Remote K}.
Local Open Scope server_scope.

Lemma result_of_bind {A A'} (m : M B K A) (k : A -> M B K A') x :
  result_of (bind m k x) =
    match result_of (m x) with
    | Done a => result_of (k a (state_of (m x)))
    | Diverge => Diverge
    end.
Proof. unfold bind. destruct (m x) as [[[a|] e] x1]; cbn; [|reflexivity].
  destruct (k a x1) as [[? ?] ?]. reflexivity. Qed.



















Lemma bind_assoc {A A' A''} (m : M B K A) (f : A -> M B K A') (k : A' -> M B K A'') x :
  bind (bind m f) k x = bind m (fun a => bind (f a) k) x.
Proof.
  unfold bind. destruct (m x) as [[[a|] e1] x1]; [|reflexivity].
  destruct (f a x1) as [[[a'|] e2] x2]; [|reflexivity].
  destruct (k a' x2) as [[r e3] x3]. rewrite app_assoc. reflexivity.
Qed.

Lemma stlink_write_mem8_run addr len (x : server B K) :
  stlink_write_mem8 addr len x =
    (Done (fst (probe_write_mem8 (sl x) addr len)),
     [EvWriteMem8 addr len (take (Z.to_nat len) (q_buf (sl x)))
        (fst (probe_write_mem8 (sl x) addr len))],
     set_sl (snd (probe_write_mem8 (sl x) addr len)) x).
Proof. unfold stlink_write_mem8. rewrite call_run. reflexivity. Qed.

Lemma stlink_write_mem32_run addr len (x : server B K) :
  stlink_write_mem32 addr len x =
    (Done (fst (probe_write_mem32 (sl x) addr len)),
     [EvWriteMem32 addr len (take (Z.to_nat len) (q_buf (sl x)))
        (fst (probe_write_mem32 (sl x) addr len))],
     set_sl (snd (probe_write_mem32 (sl x) addr len)) x).
Proof. unfold stlink_write_mem32. rewrite call_run. reflexivity. Qed.

Lemma on_client_run {A} (op : K -> A * K) (ev : A -> event) (x : server B K) :
  on_client op ev x =
    (Done (fst (op (client x))), [ev (fst (op (client x)))], set_client (snd (op (client x))) x).
Proof. unfold on_client. destruct (op (client x)) as [a c]. reflexivity. Qed.










(** vFlashDone answers E08, not E00. *)
Lemma serve_v_FlashDone_reply fuel (x : server B K) h :
  result_of (serve_v fuel V_FlashDone x) = Done h ->
  h = Reply (Some "E08"%string) 0 \/ h = Reply (Some "OK"%string) 0.
Proof.
  unfold serve_v. rewrite bind_assoc, result_of_bind.
  destruct (result_of (flash_go fuel x)) as [e|]; [|discriminate].
  destruct (negb (e =? 0)); rewrite bind_ret; cbn; intros [= <-]; auto.
Qed.


End Failures.

(** ** Further properties of the handlers *)

Lemma flash_populate_blocks_count addr data length blocks : forall fit_blocks fit_length,
  0 <= fit_blocks ->
  fit_blocks + Z.of_nat (List.length blocks) < 2 ^ 32 ->
  snd (fst (flash_populate_blocks addr data length blocks fit_blocks fit_length)) =
    fit_blocks + Z.of_nat (List.length (List.filter (block_intersects addr length) blocks)).
Proof.
  induction blocks as [|fb next IH]; intros fit_blocks fit_length Hpos Hbound.
  - cbn. lia.
  - cbn [flash_populate_blocks List.filter]. cbn [List.length] in Hbound.
    unfold flash_populate_block.
    change ((addr <? u32 (fb_addr fb + fb_length fb)) && (u32 (addr + length) >? fb_addr fb))
      with (block_intersects addr length fb).
    destruct (block_intersects addr length fb).
    + rewrite (u32_small (fit_blocks + 1)) by lia.
      match goal with
      | |- context [flash_populate_blocks addr data length next (fit_blocks + 1) ?fl] =>
          specialize (IH (fit_blocks + 1) fl);
          destruct (flash_populate_blocks addr data length next (fit_blocks + 1) fl)
            as [[next' n] l]
      end.
      specialize (IH ltac:(lia) ltac:(lia)).
      cbn [fst snd List.length] in *. lia.
    + specialize (IH fit_blocks fit_length Hpos). specialize (IH ltac:(lia)).
      destruct (flash_populate_blocks addr data length next fit_blocks fit_length)
        as [[next' n] l]. cbn [fst snd] in *. lia.
Qed.

Lemma filter_none_existsb {A} (f : A -> bool) l :
  (Z.of_nat (List.length (List.filter f l)) =? 0) = negb (existsb f l).
Proof.
  induction l as [|a l IH]; [reflexivity|].
  cbn [List.filter existsb]. destruct (f a); [|exact IH].
  cbn [List.length orb negb]. apply Z.eqb_neq. lia.
Qed.

Section Further.
Context {B K : Type} `{Probe B} `{Remote K}.
Local Open Scope server_scope.

(** [flash_populate] answers -1 exactly when no staged block meets the
    write range, and 0 as soon as one does, whatever the number of bytes that
    fitted; it makes no call to the probe. *)
Theorem flash_populate_result (addr : Z) (data : list Z) (length : Z) (x : server B K) :
  Z.of_nat (List.length (flash_root x)) < 2 ^ 32 ->
  result_of (flash_populate addr data length x) =
    Done (if existsb (block_intersects addr length) (flash_root x) then 0 else -1) /\
  events_of (flash_populate addr data length x) = [].
Proof.
  intros Hlen. unfold flash_populate. rewrite bind_gets.
  pose proof (flash_populate_blocks_count addr data length (flash_root x) 0 0
                ltac:(lia) ltac:(lia)) as Hcount.
  destruct (flash_populate_blocks addr data length (flash_root x) 0 0) as [[root' n] l].
  cbn [fst snd] in Hcount. rewrite bind_modify. subst n. rewrite Z.add_0_l.
  rewrite filter_none_existsb.
  destruct (existsb (block_intersects addr length) (flash_root x)); split; reflexivity.
Qed.

(** The 'k' command resumes the target with no [cache_sync] before. *)
Theorem kill_resumes_without_cache_sync (fuel : nat) (x : server B K) :
  exists ret rest,
    events_of (serve_packet fuel Pkt_k x) = EvRun RUN_NORMAL ret :: rest /\
    resumes_synced (events_of (serve_packet fuel Pkt_k x)) = false.
Proof.
  cbn [serve_packet]. unfold serve_k, stlink_run.
  rewrite (bind_done _ _ _ _ _ _ (call_run _ _ _)).
  cbn [events_of fst snd app]. do 2 eexists. split; reflexivity.
Qed.

End Further.

(** A payload of 0x800 bytes over a staged block of 0x400 bytes: accepted. *)
Lemma flash_populate_result_witness :
  result_of (flash_populate 0x08000000 (repeat 0x11 2048) 2048
               (state_of (serve_packet 0 (Pkt_v (V_FlashErase 0x08000000 0x400))
                            (sim_server (sim_target 0 0 []) 0 false))))
    = Done 0.
Proof.
  refine (proj1 (flash_populate_result 0x08000000 (repeat 0x11 2048) 2048
            (state_of (serve_packet 0 (Pkt_v (V_FlashErase 0x08000000 0x400))
                         (sim_server (sim_target 0 0 []) 0 false))) _)).
  vm_compute. reflexivity.
Defined.

(** ** Concrete runs on the scripted probe *)

(** C1, counterexample: found halted at PC = 0x08000100 with semihosting
    enabled, the 'c' command reads 4 bytes at 0x08000100 (not 2); at
    PC = 0x08000103 it reads 8 bytes (not 4); with semihosting disabled it
    reads nothing at all. *)
Lemma continue_reads_whole_words :
  events_of (serve_packet 1 Pkt_c
               (sim_server (sim_target 0 0x08000100 [0; 0; 0; 0]) 0 true))
    = [EvCacheSync; EvRun RUN_NORMAL 0; EvCheckForInterrupt 0; EvStatus 0;
       EvReadAllRegs 0; EvReadMem32 0x08000100 4 0] /\
  events_of (serve_packet 1 Pkt_c
               (sim_server (sim_target 0 0x08000103 [0; 0; 0; 0; 0; 0; 0; 0]) 0 true))
    = [EvCacheSync; EvRun RUN_NORMAL 0; EvCheckForInterrupt 0; EvStatus 0;
       EvReadAllRegs 0; EvReadMem32 0x08000100 8 0] /\
  events_of (serve_packet 1 Pkt_c
               (sim_server (sim_target 0 0x08000100 [0xAB; 0xBE; 0; 0]) 0 false))
    = [EvCacheSync; EvRun RUN_NORMAL 0; EvCheckForInterrupt 0; EvStatus 0].
Proof. vm_compute. repeat split. Qed.

(** A target halted on BKPT 0xAB at 0x08000100 with semihosting enabled:
    the trap is serviced when no breakpoint is set, and it is not once a
    breakpoint has been set at 0x08000100. *)
Lemma semihosting_trap_dispatch_witness :
  result_of (serve_c_halted (sim_server (sim_target 0 0x08000100 [0xAB; 0xBE; 0; 0]) 0 true))
    = Done false /\
  result_of (serve_c_halted
               (state_of (update_code_breakpoint 0x08000100 1
                  (sim_server (sim_target 0 0x08000100 [0xAB; 0xBE; 0; 0]) 0 true))))
    = Done true.
Proof.
  split.
  - refine (proj1 (proj1 (proj1 (proj2 (proj2 (proj2
      (semihosting_trap_dispatch
         (sim_server (sim_target 0 0x08000100 [0xAB; 0xBE; 0; 0]) 0 true)
         (or_introl eq_refl))))) _) _)).
    + vm_compute. reflexivity.
    + vm_compute. reflexivity.
  - refine (proj1 (proj2 (proj1 (proj2 (proj2 (proj2
      (semihosting_trap_dispatch
         (state_of (update_code_breakpoint 0x08000100 1
            (sim_server (sim_target 0 0x08000100 [0xAB; 0xBE; 0; 0]) 0 true)))
         (or_introl eq_refl))))) _) _)).
    + vm_compute. reflexivity.
    + vm_compute. reflexivity.
Defined.

(** A session where the lookup of [has_breakpoint] differs from the
    breakpoints set: after a breakpoint at 0x08000100 was set and removed
    again its slot still holds the address, and the trap at 0x08000100 is not
    serviced although no breakpoint is set there. *)
Example stale_slot_blocks_semihosting :
  let x := state_of (update_code_breakpoint 0x08000100 0
             (state_of (update_code_breakpoint 0x08000100 1
                (sim_server (sim_target 0 0x08000100 [0xAB; 0xBE; 0; 0]) 0 true)))) in
  user_breakpoint_at x 0x08000100 = false /\
  breakpoint_slot_holds x 0x08000100 = true /\
  result_of (serve_c_halted x) = Done true.
Proof. vm_compute. repeat split. Qed.


(** The scripted probe keeps the page size at 0x400. *)
Lemma sim_pagesize_contract : pagesize_contract (B:=sim).
Proof.
  split; [|split].
  - intros h a. cbn. lia.
  - intros h a. reflexivity.
  - intros h a d l. reflexivity.
Qed.

(** vFlashDone after one vFlashErase, on a probe where every call fails. *)
Lemma vFlashDone_frees_staging_witness :
  exists reply evs x',
    serve_packet 2000 (Pkt_v V_FlashDone)
      (state_of (serve_packet 0 (Pkt_v (V_FlashErase 0x08000000 0x400))
                   (sim_server (sim_target 1 0 []) 0 false)))
      = (Done (Reply (Some reply) 0), evs, x') /\
    (reply = "OK"%string \/ reply = "E08"%string) /\
    flash_root x' = [] /\
    heap x' =
      (heap (state_of (serve_packet 0 (Pkt_v (V_FlashErase 0x08000000 0x400))
                         (sim_server (sim_target 1 0 []) 0 false)))
       ∖ staged_pointers
           (flash_root (state_of (serve_packet 0 (Pkt_v (V_FlashErase 0x08000000 0x400))
                                    (sim_server (sim_target 1 0 []) 0 false))))) /\
    (forall fb,
       fb ∈ flash_root (state_of (serve_packet 0 (Pkt_v (V_FlashErase 0x08000000 0x400))
                                    (sim_server (sim_target 1 0 []) 0 false))) ->
       (fb_self fb ∉ heap x') /\ (fb_data_ptr fb ∉ heap x')).
Proof.
  apply (vFlashDone_frees_staging 2000
           (state_of (serve_packet 0 (Pkt_v (V_FlashErase 0x08000000 0x400))
                        (sim_server (sim_target 1 0 []) 0 false)))).
  - exact sim_pagesize_contract.
  - cbn. repeat constructor; cbn; lia.
Defined.

(** * Further properties of the tables, the flash staging and the session *)

(** ** Watchpoints: removal *)

Section WatchRemoval.
Context {B K : Type} `{Probe B} `{Remote K}.
Local Open Scope server_scope.

Lemma delete_slot_miss addr j (x : server B K) :
  wp_match x addr j = false -> delete_data_watchpoint_slot addr j x = (Done None, [], x).
Proof.
  intros Hj. unfold delete_data_watchpoint_slot. rewrite bind_gets.
  unfold wp_match in Hj. rewrite Hj. reflexivity.
Qed.

Lemma delete_slot_hit addr i (x : server B K) :
  wp_match x addr i = true ->
  delete_data_watchpoint_slot addr i x =
    (Done (Some 0),
     [EvWriteDebug32 (STLINK_REG_CM3_DWT_FUNn i) 0
        (fst (probe_write_debug32 (sl x) (STLINK_REG_CM3_DWT_FUNn i) 0))],
     set_sl (snd (probe_write_debug32 (sl x) (STLINK_REG_CM3_DWT_FUNn i) 0))
       (set_data_watches
          (zset (data_watches x) i
             {| wp_addr := wp_addr (zth no_watch (data_watches x) i);
                wp_mask := wp_mask (zth no_watch (data_watches x) i);
                wp_fun := WATCHDISABLED |}) x)).
Proof.
  intros Hi. unfold delete_data_watchpoint_slot. rewrite bind_gets.
  unfold wp_match in Hi. rewrite Hi. rewrite bind_modify.
  unfold stlink_write_debug32.
  rewrite (bind_done _ _ _ _ _ _ (call_run _ _ _)). reflexivity.
Qed.

Lemma delete_data_watchpoint_miss addr (x : server B K) :
  (forall i, 0 <= i < 4 -> wp_match x addr i = false) ->
  delete_data_watchpoint addr x = (Done (-1), [], x).
Proof.
  intros Hnone. unfold delete_data_watchpoint.
  rewrite (bind_done _ _ x None [] x); [reflexivity|].
  apply for_first_none. intros j Hj. apply delete_slot_miss. apply Hnone.
  change (Z.of_nat (Z.to_nat DATA_WATCH_NUM)) with 4 in Hj. lia.
Qed.

Lemma delete_data_watchpoint_hit addr i (x : server B K) :
  0 <= i < 4 -> wp_match x addr i = true ->
  (forall j, 0 <= j < i -> wp_match x addr j = false) ->
  delete_data_watchpoint addr x =
    (Done 0,
     [EvWriteDebug32 (STLINK_REG_CM3_DWT_FUNn i) 0
        (fst (probe_write_debug32 (sl x) (STLINK_REG_CM3_DWT_FUNn i) 0))],
     set_sl (snd (probe_write_debug32 (sl x) (STLINK_REG_CM3_DWT_FUNn i) 0))
       (set_data_watches
          (zset (data_watches x) i
             {| wp_addr := wp_addr (zth no_watch (data_watches x) i);
                wp_mask := wp_mask (zth no_watch (data_watches x) i);
                wp_fun := WATCHDISABLED |}) x)).
Proof.
  intros Hi Hhit Hbefore. unfold delete_data_watchpoint.
  erewrite bind_done.
  2:{ apply (for_first_hit (Z.to_nat DATA_WATCH_NUM) (Z.to_nat i) 0).
      - change DATA_WATCH_NUM with 4. lia.
      - intros j Hj. apply delete_slot_miss. apply Hbefore. lia.
      - rewrite Z.add_0_l, Z2Nat.id by lia. apply delete_slot_hit. exact Hhit. }
  cbn. rewrite ?app_nil_r. reflexivity.
Qed.

(** A removal answers 0 exactly when an active entry watches [addr]; it
    then disables the first such entry, and only that one, with one write of
    0 to its function register.  Otherwise it answers -1, changes nothing and
    makes no call to the probe. *)
Theorem delete_data_watchpoint_first_match (addr : Z) (x : server B K) :
  let out := delete_data_watchpoint addr x in
  (result_of out = Done 0 \/ result_of out = Done (-1)) /\
  (result_of out = Done 0 <-> exists i, 0 <= i < 4 /\ wp_match x addr i = true) /\
  (result_of out = Done 0 ->
     exists i e,
       0 <= i < 4 /\ wp_match x addr i = true /\
       (forall j, 0 <= j < i -> wp_match x addr j = false) /\
       data_watches (state_of out) =
         zset (data_watches x) i
           {| wp_addr := wp_addr (zth no_watch (data_watches x) i);
              wp_mask := wp_mask (zth no_watch (data_watches x) i);
              wp_fun := WATCHDISABLED |} /\
       events_of out = [EvWriteDebug32 (STLINK_REG_CM3_DWT_FUNn i) 0 e]) /\
  (result_of out = Done (-1) -> events_of out = [] /\ state_of out = x).
Proof.
  intros out. subst out.
  destruct (first_index_dec (wp_match x addr) 4 0) as [Hnone|(k & Hk & Hpk & Hbefore)].
  - rewrite delete_data_watchpoint_miss by (intros i Hi; apply Hnone; lia). cbn.
    split; [auto|]. split.
    + split; [discriminate|]. intros (i & Hi & Hm). rewrite Hnone in Hm by lia. discriminate.
    + split; [discriminate|]. auto.
  - rewrite Z.add_0_l in Hpk.
    rewrite (delete_data_watchpoint_hit addr (Z.of_nat k)); [|lia|exact Hpk|].
    2:{ intros j Hj. apply Hbefore. lia. }
    cbn. split; [auto|]. split.
    + split; [|reflexivity]. intros _. exists (Z.of_nat k). split; [lia|exact Hpk].
    + split; [|discriminate]. intros _. exists (Z.of_nat k). eexists.
      split; [lia|]. split; [exact Hpk|]. split.
      * intros j Hj. apply Hbefore. lia.
      * split; reflexivity.
Qed.

(** An insertion at an address no active entry watches, followed by a
    removal at that address: both succeed and the set of active entries is
    the one from before (the slot used keeps the address and the mask, and is
    disabled again; the other slots are untouched). *)
Theorem watchpoint_insert_then_remove (wf : watchfun) (addr len : Z) (x : server B K) :
  length (data_watches x) = 4%nat ->
  1 <= len < 65536 ->
  wf <> WATCHDISABLED ->
  unwatched (data_watches x) addr = true ->
  (exists i, 0 <= i < 4 /\ wp_free x i) ->
  let o1 := add_data_watchpoint wf addr len x in
  let o2 := delete_data_watchpoint addr (state_of o1) in
  result_of o1 = Done 0 /\
  result_of o2 = Done 0 /\
  (forall j, 0 <= j < 4 ->
     wp_fun (zth no_watch (data_watches (state_of o2)) j) =
     wp_fun (zth no_watch (data_watches x) j)) /\
  (forall j, 0 <= j < 4 -> ~ wp_free x j ->
     zth no_watch (data_watches (state_of o2)) j = zth no_watch (data_watches x) j).
Proof.
  intros Hlen Hrange Hwf Hun Hsome o1 o2.
  destruct (wp_first_free x) as [Hfull|(i & Hi & Hfree & Hbefore)].
  { destruct Hsome as (i & Hi & Hfree). exfalso. exact (Hfull i Hi Hfree). }
  destruct (add_data_watchpoint_hit wf addr len x i Hrange Hi Hfree Hbefore)
    as (e1 & e2 & e3 & e4 & v & h & Hadd).
  subst o2 o1. rewrite Hadd. cbn [result_of state_of fst snd].
  set (w := {| wp_addr := addr; wp_mask := Z.log2 len; wp_fun := wf |}).
  set (x1 := set_sl h (set_data_watches (zset (data_watches x) i w) x)).
  assert (Hi' : 0 <= i < Z.of_nat (length (data_watches x))) by (rewrite Hlen; lia).
  assert (Hhit : wp_match x1 addr i = true).
  { unfold wp_match. cbn [x1 data_watches set_sl set_data_watches].
    rewrite zth_zset_eq by exact Hi'. cbn [w wp_addr wp_fun].
    rewrite Z.eqb_refl. apply watchfun_eqb_false in Hwf. rewrite Hwf. reflexivity. }
  assert (Hmiss : forall j, 0 <= j < i -> wp_match x1 addr j = false).
  { intros j Hj. unfold wp_match. cbn [x1 data_watches set_sl set_data_watches].
    rewrite zth_zset_ne by lia.
    assert (Hact : wp_fun (zth no_watch (data_watches x) j) <> WATCHDISABLED)
      by (apply (Hbefore j Hj)).
    pose proof (unwatched_spec (data_watches x) addr Hlen Hun j ltac:(lia) Hact) as Hne.
    destruct (Z.eqb_spec (wp_addr (zth no_watch (data_watches x) j)) addr); [contradiction|].
    reflexivity. }
  rewrite (delete_data_watchpoint_hit addr i x1 Hi Hhit Hmiss).
  cbn [result_of state_of fst snd x1 data_watches set_sl set_data_watches].
  rewrite zset_zset.
  split; [reflexivity|]. split; [reflexivity|]. split.
  - intros j Hj. destruct (Z.eq_dec j i) as [->|Hne].
    + rewrite zth_zset_eq by exact Hi'. cbn [wp_fun]. symmetry. exact Hfree.
    + rewrite zth_zset_ne by lia. reflexivity.
  - intros j Hj Hbusy. destruct (Z.eq_dec j i) as [->|Hne]; [contradiction|].
    rewrite zth_zset_ne by lia. reflexivity.
Qed.

End WatchRemoval.

(** A read watchpoint of 4 bytes set and removed on a fresh session. *)
Lemma watchpoint_insert_then_remove_witness :
  result_of (delete_data_watchpoint 0x20000000
               (state_of (add_data_watchpoint WATCHREAD 0x20000000 4
                            (sim_server (sim_target 0 0 []) 0 false)))) = Done 0.
Proof.
  refine (proj1 (proj2 (watchpoint_insert_then_remove WATCHREAD 0x20000000 4
            (sim_server (sim_target 0 0 []) 0 false) _ _ _ _ _))).
  - reflexivity.
  - lia.
  - discriminate.
  - reflexivity.
  - exists 0. split; [lia|reflexivity].
Defined.

(** ** Breakpoints: the outcomes of [update_code_breakpoint] *)

Section BreakUpdate.
Context {B K : Type} `{Probe B} `{Remote K}.
Local Open Scope server_scope.

Lemma update_slot_run fpb_addr set i (x : server B K) :
  update_code_breakpoint_slot fpb_addr set i x =
    (Done (if bp_search x fpb_addr set i then Some i else None), [], x).
Proof.
  unfold update_code_breakpoint_slot, bp_search. rewrite bind_gets.
  destruct ((fpb_addr =? bp_addr (zth no_break (code_breaks x) i))
            || negb (set =? 0) && (bp_type (zth no_break (code_breaks x) i) =? 0));
    reflexivity.
Qed.

Lemma update_code_breakpoint_not_found addr set (x : server B K) :
  Z.land addr 1 = 0 ->
  (forall i, 0 <= i < code_break_num x ->
     bp_search x (fpb_address (code_break_rev x) addr) set i = false) ->
  update_code_breakpoint addr set x = (Done (if set =? 0 then 0 else -1), [], x).
Proof.
  intros Heven Hnone. unfold update_code_breakpoint. rewrite Heven. cbn [Z.eqb negb].
  rewrite !bind_gets.
  erewrite bind_done.
  2:{ apply for_first_none. intros j Hj. rewrite update_slot_run.
      fold (fpb_address (code_break_rev x) addr).
      rewrite Hnone; [reflexivity|].
      destruct (Z.le_gt_cases 0 (code_break_num x)); [rewrite Z2Nat.id in Hj by lia; lia|].
      rewrite Z2Nat.nonpos in Hj by lia. cbn in Hj. lia. }
  cbn. destruct (set =? 0); reflexivity.
Qed.

Lemma update_code_breakpoint_found addr set id (x : server B K) :
  Z.land addr 1 = 0 ->
  0 <= id < code_break_num x ->
  bp_search x (fpb_address (code_break_rev x) addr) set id = true ->
  (forall j, 0 <= j < id -> bp_search x (fpb_address (code_break_rev x) addr) set j = false) ->
  let old := bp_type (zth no_break (code_breaks x) id) in
  let type := fpb_type (code_break_rev x) addr in
  let new := if negb (set =? 0) then Z.lor old type else Z.land old (Z.lnot type) in
  let fpb_addr := fpb_address (code_break_rev x) addr in
  let x1 := set_code_breaks (zset (code_breaks x) id {| bp_addr := fpb_addr; bp_type := new |}) x in
  let wr := probe_write_debug32 (sl x) (STLINK_REG_CM3_FP_COMPn id) (fp_comp_value new fpb_addr) in
  update_code_breakpoint addr set x =
    (Done 0,
     [EvWriteDebug32 (STLINK_REG_CM3_FP_COMPn id) (fp_comp_value new fpb_addr) (fst wr)],
     set_sl (snd wr) x1).
Proof.
  intros Heven Hid Hhit Hbefore old type new fpb_addr x1 wr.
  unfold update_code_breakpoint. rewrite Heven. cbn [Z.eqb negb].
  rewrite !bind_gets.
  erewrite bind_done.
  2:{ apply (for_first_hit (Z.to_nat (code_break_num x)) (Z.to_nat id) 0).
      - lia.
      - intros j Hj. rewrite update_slot_run.
        fold (fpb_address (code_break_rev x) addr).
        rewrite Hbefore by lia. reflexivity.
      - rewrite Z.add_0_l, Z2Nat.id by lia. rewrite update_slot_run.
        fold (fpb_address (code_break_rev x) addr). rewrite Hhit. reflexivity. }
  cbn [result_of events_of state_of fst snd app].
  rewrite bind_gets.
  fold (fpb_type (code_break_rev x) addr). fold (fpb_address (code_break_rev x) addr).
  fold old. fold type. fold fpb_addr. fold new.
  rewrite bind_modify. fold x1.
  unfold stlink_write_debug32.
  assert (Hwr : (if new =? 0
                 then call (K:=K) (fun h => probe_write_debug32 h (STLINK_REG_CM3_FP_COMPn id) 0)
                        (EvWriteDebug32 (STLINK_REG_CM3_FP_COMPn id) 0)
                 else call (fun h => probe_write_debug32 h (STLINK_REG_CM3_FP_COMPn id)
                                       (u32 (Z.lor (Z.lor (Z.shiftl (Z.land new 3) 30) fpb_addr) 1)))
                        (EvWriteDebug32 (STLINK_REG_CM3_FP_COMPn id)
                           (u32 (Z.lor (Z.lor (Z.shiftl (Z.land new 3) 30) fpb_addr) 1)))) x1
                = (Done (fst wr),
                   [EvWriteDebug32 (STLINK_REG_CM3_FP_COMPn id) (fp_comp_value new fpb_addr) (fst wr)],
                   set_sl (snd wr) x1)).
  { subst wr. unfold fp_comp_value. destruct (new =? 0); rewrite call_run; reflexivity. }
  rewrite (bind_done _ _ _ _ _ _ Hwr). reflexivity.
Qed.

Lemma fpb_type_cases rev addr :
  fpb_type rev addr = 1 \/ fpb_type rev addr = 2 \/ fpb_type rev addr = 4.
Proof.
  unfold fpb_type. destruct (rev =? CODE_BREAK_REV_V1); [|auto].
  destruct (negb (Z.land addr 2 =? 0)); auto.
Qed.

Lemma existsb_seqZ (f : Z -> bool) n i :
  0 <= i < n -> f i = true -> existsb f (seqZ 0 n) = true.
Proof.
  intros Hi Hf. apply existsb_exists. exists i. split; [|exact Hf].
  apply list_elem_of_In, elem_of_seqZ. lia.
Qed.

(** The three outcomes of [update_code_breakpoint] that leave everything as
    it is: an odd address is refused with -1; clearing a breakpoint whose
    comparator address no slot holds answers 0 (it is already removed);
    setting one when no slot holds its comparator address and every slot is
    in use answers -1.  None of them changes the table or calls the probe. *)
Theorem update_code_breakpoint_noop (addr set : Z) (x : server B K) :
  (Z.land addr 1 <> 0 -> update_code_breakpoint addr set x = (Done (-1), [], x)) /\
  (Z.land addr 1 = 0 -> set = 0 ->
   (forall i, 0 <= i < code_break_num x ->
      bp_addr (zth no_break (code_breaks x) i) <> fpb_address (code_break_rev x) addr) ->
   update_code_breakpoint addr set x = (Done 0, [], x)) /\
  (Z.land addr 1 = 0 -> set <> 0 ->
   (forall i, 0 <= i < code_break_num x ->
      bp_addr (zth no_break (code_breaks x) i) <> fpb_address (code_break_rev x) addr /\
      bp_type (zth no_break (code_breaks x) i) <> 0) ->
   update_code_breakpoint addr set x = (Done (-1), [], x)).
Proof.
  split; [|split].
  - intros Hodd. unfold update_code_breakpoint.
    destruct (Z.eqb_spec (Z.land addr 1) 0); [contradiction|]. reflexivity.
  - intros Heven -> Hnone.
    rewrite update_code_breakpoint_not_found; [reflexivity|exact Heven|].
    intros i Hi. unfold bp_search. cbn [Z.eqb negb andb]. rewrite orb_false_r.
    apply Z.eqb_neq. intros E. apply (Hnone i Hi). symmetry. exact E.
  - intros Heven Hset Hfull.
    rewrite update_code_breakpoint_not_found; [|exact Heven|].
    + destruct (Z.eqb_spec set 0); [contradiction|reflexivity].
    + intros i Hi. unfold bp_search. destruct (Hfull i Hi) as [Ha Ht].
      destruct (Z.eqb_spec (fpb_address (code_break_rev x) addr)
                  (bp_addr (zth no_break (code_breaks x) i))) as [E|_];
        [exfalso; apply Ha; symmetry; exact E|].
      destruct (Z.eqb_spec (bp_type (zth no_break (code_breaks x) i)) 0); [contradiction|].
      rewrite andb_false_r. reflexivity.
Qed.

(** A breakpoint set at an even address whose comparator address no slot
    holds goes into the first unused slot, with the type of its half-word (or
    REMAP) and one write of the comparator value; clearing it afterwards
    writes 0 to the same comparator and gives every slot its former type
    back.  The slot keeps the address: [has_breakpoint] still answers 1 for
    it after the removal. *)
Theorem breakpoint_set_then_clear (addr id : Z) (x : server B K) :
  Z.land addr 1 = 0 ->
  0 <= id < code_break_num x ->
  code_break_num x <= Z.of_nat (length (code_breaks x)) ->
  (forall i, 0 <= i < code_break_num x ->
     bp_addr (zth no_break (code_breaks x) i) <> fpb_address (code_break_rev x) addr) ->
  bp_type (zth no_break (code_breaks x) id) = 0 ->
  (forall j, 0 <= j < id -> bp_type (zth no_break (code_breaks x) j) <> 0) ->
  let fpb_addr := fpb_address (code_break_rev x) addr in
  let type := fpb_type (code_break_rev x) addr in
  let o1 := update_code_breakpoint addr 1 x in
  let o2 := update_code_breakpoint addr 0 (state_of o1) in
  result_of o1 = Done 0 /\
  code_breaks (state_of o1) =
    zset (code_breaks x) id {| bp_addr := fpb_addr; bp_type := type |} /\
  (exists e, events_of o1 =
     [EvWriteDebug32 (STLINK_REG_CM3_FP_COMPn id)
        (u32 (Z.lor (Z.lor (Z.shiftl (Z.land type 0x03) 30) fpb_addr) 1)) e]) /\
  result_of o2 = Done 0 /\
  code_breaks (state_of o2) =
    zset (code_breaks x) id {| bp_addr := fpb_addr; bp_type := 0 |} /\
  (exists e, events_of o2 = [EvWriteDebug32 (STLINK_REG_CM3_FP_COMPn id) 0 e]) /\
  (forall j, 0 <= j < code_break_num x ->
     bp_type (zth no_break (code_breaks (state_of o2)) j) =
     bp_type (zth no_break (code_breaks x) j)) /\
  result_of (has_breakpoint fpb_addr (state_of o2)) = Done 1.
Proof.
  intros Heven Hid Hlen Hnone Hfree Hbefore fpb_addr type o1 o2.
  assert (Hid' : 0 <= id < Z.of_nat (length (code_breaks x))) by lia.
  assert (Htype : type <> 0 /\ Z.lor 0 type = type /\ Z.land type (Z.lnot type) = 0).
  { subst type. destruct (fpb_type_cases (code_break_rev x) addr) as [-> | [-> | ->]];
      repeat split; discriminate. }
  destruct Htype as (Hnz & Hlor & Hland).
  (* set *)
  pose proof (update_code_breakpoint_found addr 1 id x Heven Hid) as Hset.
  cbv zeta in Hset. rewrite Hfree in Hset. cbn [Z.eqb negb] in Hset.
  fold type in Hset. fold fpb_addr in Hset. rewrite Hlor in Hset.
  specialize (Hset ltac:(unfold bp_search; rewrite Hfree; apply orb_true_r)).
  specialize (Hset ltac:(intros j Hj; unfold bp_search;
    destruct (Z.eqb_spec fpb_addr (bp_addr (zth no_break (code_breaks x) j))) as [E|_];
      [exfalso; apply (Hnone j ltac:(lia)); symmetry; exact E|];
    destruct (Z.eqb_spec (bp_type (zth no_break (code_breaks x) j)) 0) as [E|_];
      [exfalso; exact (Hbefore j Hj E)|]; reflexivity)).
  subst o2 o1. rewrite Hset. cbn [result_of events_of state_of fst snd].
  set (x1 := set_sl _ _).
  (* clear *)
  pose proof (update_code_breakpoint_found addr 0 id x1 Heven Hid) as Hclr.
  cbv zeta in Hclr.
  change (code_break_rev x1) with (code_break_rev x) in Hclr.
  change (code_breaks x1)
    with (zset (code_breaks x) id {| bp_addr := fpb_addr; bp_type := type |}) in Hclr.
  fold type in Hclr. fold fpb_addr in Hclr.
  rewrite zth_zset_eq in Hclr by exact Hid'. cbn [bp_type Z.eqb negb] in Hclr.
  rewrite Hland, zset_zset in Hclr.
  specialize (Hclr ltac:(unfold bp_search;
    change (code_breaks x1)
      with (zset (code_breaks x) id {| bp_addr := fpb_addr; bp_type := type |});
    rewrite zth_zset_eq by exact Hid'; cbn [bp_addr]; rewrite Z.eqb_refl; reflexivity)).
  specialize (Hclr ltac:(intros j Hj; unfold bp_search;
    change (code_breaks x1)
      with (zset (code_breaks x) id {| bp_addr := fpb_addr; bp_type := type |});
    rewrite zth_zset_ne by lia; cbn [Z.eqb negb andb]; rewrite orb_false_r;
    apply Z.eqb_neq; intros E; apply (Hnone j ltac:(lia)); symmetry; exact E)).
  rewrite Hclr. cbn [result_of events_of state_of fst snd].
  split; [reflexivity|]. split; [reflexivity|].
  split.
  { eexists. unfold fp_comp_value. destruct (Z.eqb_spec type 0); [contradiction|reflexivity]. }
  split; [reflexivity|]. split; [reflexivity|].
  split; [eexists; reflexivity|].
  split.
  - intros j Hj. cbn [code_breaks set_sl set_code_breaks].
    destruct (Z.eq_dec j id) as [->|Hne].
    + rewrite zth_zset_eq by exact Hid'. cbn [bp_type]. symmetry. exact Hfree.
    + rewrite zth_zset_ne by lia. reflexivity.
  - rewrite has_breakpoint_run. cbn [result_of fst].
    unfold breakpoint_slot_holds. cbn [code_breaks code_break_num set_sl set_code_breaks x1].
    rewrite (existsb_seqZ _ _ id Hid); [reflexivity|].
    rewrite zth_zset_eq by exact Hid'. cbn [bp_addr]. apply Z.eqb_refl.
Qed.

End BreakUpdate.

(** A breakpoint at 0x08000102 set and cleared on a fresh session of
    revision 1. *)
Lemma breakpoint_set_then_clear_witness :
  result_of (has_breakpoint 0x08000100
               (state_of (update_code_breakpoint 0x08000102 0
                  (state_of (update_code_breakpoint 0x08000102 1
                     (sim_server (sim_target 0 0 []) CODE_BREAK_REV_V1 false))))))
    = Done 1.
Proof.
  refine (proj2 (proj2 (proj2 (proj2 (proj2 (proj2 (proj2
    (breakpoint_set_then_clear 0x08000102 0
       (sim_server (sim_target 0 0 []) CODE_BREAK_REV_V1 false) _ _ _ _ _ _)))))))).
  - reflexivity.
  - cbn. lia.
  - cbn. lia.
  - intros i Hi. cbn in Hi.
    assert (Hc : i = 0 \/ i = 1 \/ i = 2 \/ i = 3 \/ i = 4 \/ i = 5) by lia.
    destruct Hc as [-> | [-> | [-> | [-> | [-> | ->]]]]]; discriminate.
  - reflexivity.
  - intros j Hj. lia.
Defined.

(** ** What a command leaves alone *)

Section Frame.
Context {B K : Type} `{Probe B} `{Remote K}.
Local Open Scope server_scope.

Lemma state_of_bind {A A'} (m : M B K A) (k : A -> M B K A') x :
  state_of (bind m k x) =
    match result_of (m x) with
    | Done a => state_of (k a (state_of (m x)))
    | Diverge => state_of (m x)
    end.
Proof.
  unfold bind. destruct (m x) as [[[a|] e] x1]; cbn; [|reflexivity].
  destruct (k a x1) as [[? ?] ?]. reflexivity.
Qed.

Section Keeps.
Context {T : Type} (f : server B K -> T).
Hypothesis f_sl : forall h x, f (set_sl h x) = f x.
Hypothesis f_client : forall c x, f (set_client c x) = f x.

Lemma keeps_ret {A} (a : A) : keeps f (ret a).
Proof. intros x. reflexivity. Qed.

Lemma keeps_gets {A} (g : server B K -> A) : keeps f (gets g).
Proof. intros x. reflexivity. Qed.

Lemma keeps_emit e : keeps f (emit e).
Proof. intros x. reflexivity. Qed.

Lemma keeps_diverge {A} : keeps f (diverge (A:=A)).
Proof. intros x. reflexivity. Qed.

Lemma keeps_modify (g : server B K -> server B K) :
  (forall x, f (g x) = f x) -> keeps f (modify g).
Proof. intros Hg x. apply Hg. Qed.

Lemma keeps_call {A} (op : stlink_t B -> A * stlink_t B) (ev : A -> event) :
  keeps f (call op ev).
Proof. intros x. rewrite call_run. apply f_sl. Qed.

Lemma keeps_on_client {A} (op : K -> A * K) (ev : A -> event) :
  keeps f (on_client op ev).
Proof.
  intros x. unfold on_client. destruct (op (client x)) as [a c]. apply f_client.
Qed.

Lemma keeps_bind {A A'} (m : M B K A) (k : A -> M B K A') :
  keeps f m -> (forall a, keeps f (k a)) -> keeps f (bind m k).
Proof.
  intros Hm Hk x. rewrite state_of_bind.
  destruct (result_of (m x)) as [a|]; [rewrite Hk|]; apply Hm.
Qed.

Lemma keeps_for_range (body : Z -> M B K unit) n :
  (forall i, keeps f (body i)) -> forall i, keeps f (for_range n i body).
Proof.
  intros Hb. induction n as [|n IH]; intros i; cbn [for_range].
  - apply keeps_ret.
  - apply keeps_bind; [apply Hb|]. intros _. apply IH.
Qed.

Lemma keeps_for_first {A} (body : Z -> M B K (option A)) n :
  (forall i, keeps f (body i)) -> forall i, keeps f (for_first n i body).
Proof.
  intros Hb. induction n as [|n IH]; intros i; cbn [for_first].
  - apply keeps_ret.
  - apply keeps_bind; [apply Hb|]. intros [a|]; [apply keeps_ret|apply IH].
Qed.

End Keeps.

End Frame.

(** The probe and client wrappers, as calls. *)
Ltac unfold_wrappers :=
  unfold stlink_target_connect, stlink_force_debug, stlink_run, stlink_step, stlink_status,
    stlink_reset, stlink_exit_debug_mode, stlink_close, stlink_read_all_regs,
    stlink_read_reg, stlink_read_unsupported_reg, stlink_write_reg,
    stlink_write_unsupported_reg, stlink_read_mem32, stlink_write_mem32, stlink_write_mem8,
    stlink_read_debug32, stlink_write_debug32, stlink_calculate_pagesize,
    stlink_get_erased_pattern, stlink_erase_flash_page, stlink_flashloader_start,
    stlink_flashloader_write, stlink_flashloader_stop, do_semihosting, FLASH_PAGE,
    gdb_recv_packet, gdb_send_packet, gdb_check_for_interrupt, close_socket, usleep.

Ltac keeps_tac :=
  repeat first
    [ apply keeps_ret | apply keeps_gets | apply keeps_emit | apply keeps_diverge
    | apply keeps_call; intros; reflexivity
    | apply keeps_on_client; intros; reflexivity
    | apply keeps_modify; intros; reflexivity
    | apply keeps_for_range; intros
    | apply keeps_for_first; intros
    | apply keeps_bind; [|intros]
    | match goal with
      | |- keeps _ (fun x => call _ _ x) => intros ?; rewrite call_run; reflexivity
      | |- keeps _ (if ?b then _ else _) => destruct b
      | |- keeps _ (let '(_, _) := ?a in _) => destruct a
      | |- keeps _ (match ?o with Some _ => _ | None => _ end) => destruct o
      | |- keeps _ (match ?o with LoopBreak => _ | LoopReturn1 => _ end) => destruct o
      end ].

Section FrameTables.
Context {B K : Type} `{Probe B} `{Remote K}.
Local Open Scope server_scope.

Lemma keeps_tables_cache_flush_sets fuel desc : forall addr max_addr way_sh dminl,
  keeps tables (cache_flush_sets (B:=B) (K:=K) fuel desc addr max_addr way_sh dminl).
Proof.
  induction fuel as [|fuel IH]; intros addr max_addr way_sh dminl; cbn [cache_flush_sets].
  - apply keeps_diverge.
  - destruct (addr <? max_addr); [|apply keeps_ret].
    apply keeps_bind; [|intros; apply IH]. unfold_wrappers. keeps_tac.
Qed.

Lemma keeps_tables_cache_flush_levels n :
  keeps tables (cache_flush_levels (B:=B) (K:=K) n).
Proof.
  induction n as [|n IH]; cbn [cache_flush_levels]; [apply keeps_ret|].
  apply keeps_bind; [apply keeps_gets|]. intros c.
  apply keeps_bind; [apply keeps_tables_cache_flush_sets|]. intros _. exact IH.
Qed.

Lemma keeps_tables_cache_sync : keeps tables (cache_sync (B:=B) (K:=K)).
Proof.
  unfold cache_sync, cache_flush. unfold_wrappers.
  keeps_tac; apply keeps_tables_cache_flush_levels.
Qed.

Lemma keeps_tables_has_breakpoint addr : keeps tables (has_breakpoint (B:=B) (K:=K) addr).
Proof. unfold has_breakpoint, has_breakpoint_slot. keeps_tac. Qed.

Lemma keeps_tables_serve_c_halted : keeps tables (serve_c_halted (B:=B) (K:=K)).
Proof.
  unfold serve_c_halted. unfold_wrappers.
  keeps_tac; apply keeps_tables_cache_flush_levels.
Qed.

Lemma keeps_tables_serve_c_loop fuel : keeps tables (serve_c_loop (B:=B) (K:=K) fuel).
Proof.
  induction fuel as [|fuel IH]; cbn [serve_c_loop]; [apply keeps_diverge|].
  apply keeps_bind.
  - unfold serve_c_poll. unfold_wrappers.
    keeps_tac.
    match goal with |- keeps _ (match ?c with TARGET_HALTED => _ | _ => _ end) => destruct c end.
    all: keeps_tac; apply keeps_tables_cache_flush_levels.
  - intros [e|]; [apply keeps_ret|].
    apply keeps_bind; [apply keeps_emit|]. intros _. exact IH.
Qed.

(** The commands that only read, write registers or memory, or resume the
    target leave the watchpoint table, the breakpoint comparators, the staged
    flash blocks and their allocations as they are, whatever the probe
    answers and also when a polling loop does not end. *)
Theorem tables_untouched (fuel : nat) (p : packet) (x : server B K) :
  touches_tables p = false ->
  tables (state_of (serve_packet fuel p x)) = tables x.
Proof.
  intros Hp. revert x. change (keeps tables (serve_packet fuel p)).
  destruct p; cbn [touches_tables] in Hp; try discriminate Hp; cbn [serve_packet].
  - (* q *)
    unfold serve_q. destruct q as [| | type op annex addr length | cmd |].
    + keeps_tac.
    + keeps_tac.
    + unfold serve_q_Xfer. keeps_tac.
    + unfold serve_q_Rcmd. unfold_wrappers.
      destruct (starts_with "resume" cmd);
        [keeps_tac; apply keeps_tables_cache_flush_levels|].
      destruct (starts_with "halt" cmd); [keeps_tac|].
      destruct (starts_with "jtag_reset" cmd); [keeps_tac|].
      destruct (starts_with "reset" cmd); [discriminate Hp|].
      keeps_tac.
    + keeps_tac.
  - (* v *)
    unfold serve_v. destruct v; try discriminate Hp; keeps_tac.
  - (* c *)
    unfold serve_c. unfold_wrappers.
    keeps_tac;
      first [apply keeps_tables_cache_flush_levels | apply keeps_tables_serve_c_loop].
  - unfold serve_s. unfold_wrappers. keeps_tac; apply keeps_tables_cache_flush_levels.
  - keeps_tac.
  - unfold serve_g. unfold_wrappers. keeps_tac.
  - unfold serve_p. unfold_wrappers. keeps_tac.
  - unfold serve_P. unfold_wrappers. keeps_tac.
  - unfold serve_G. unfold_wrappers. keeps_tac.
  - unfold serve_m. unfold_wrappers. keeps_tac.
  - unfold serve_M, fill_q_buf, cache_change. unfold_wrappers. keeps_tac.
  - keeps_tac.
  - keeps_tac.
Qed.

End FrameTables.

(** A register dump on a session with a staged flash block. *)
Lemma tables_untouched_witness :
  tables (state_of (serve_packet 0 Pkt_g
            (state_of (serve_packet 0 (Pkt_v (V_FlashErase 0x08000000 0x400))
                         (sim_server (sim_target 1 0 []) 0 false)))))
    = tables (state_of (serve_packet 0 (Pkt_v (V_FlashErase 0x08000000 0x400))
                          (sim_server (sim_target 1 0 []) 0 false))).
Proof.
  apply (tables_untouched 0 Pkt_g). reflexivity.
Defined.

(** ** Initialisation of the tables *)

Lemma land_15_bound v : 0 <= Z.land v 0xf <= 15.
Proof.
  assert (E : Z.land v 0xf = v mod 16) by (apply (Z.land_ones v 4); lia).
  rewrite E. assert (H16 : 0 < 16) by lia.
  pose proof (Z.mod_pos_bound v 16 H16). lia.
Qed.

Lemma no_type_in_prefix (l : list code_hw_breakpoint) : forall n,
  (forall j, 0 <= j < Z.of_nat n -> bp_type (zth no_break l j) = 0) ->
  filter (fun b => bp_type b <> 0) (take n l) = [].
Proof.
  induction l as [|b l IH]; intros n Hz; [destruct n; reflexivity|].
  destruct n as [|n]; [reflexivity|].
  cbn [take]. rewrite filter_cons.
  destruct (decide (bp_type b <> 0)) as [Hb|_].
  - exfalso. apply Hb. apply (Hz 0). lia.
  - apply IH. intros j Hj.
    assert (Hj1 : 0 <= j + 1 < Z.of_nat (S n)) by lia. specialize (Hz (j + 1) Hj1).
    unfold zth in *. destruct (Z.ltb_spec (j + 1) 0); [lia|].
    destruct (Z.ltb_spec j 0); [lia|].
    replace (Z.to_nat (j + 1)) with (S (Z.to_nat j)) in Hz by lia. exact Hz.
Qed.

Section Post.
Context {B K : Type} `{Probe B} `{Remote K}.
Local Open Scope server_scope.

Lemma state_of_skip {A A'} (m : M B K A) (k : M B K A') x :
  returns m -> state_of ((m ;; k) x) = state_of (k (state_of (m x))).
Proof. intros Hm. rewrite state_of_bind. destruct (Hm x) as [a ->]. reflexivity. Qed.

Lemma post_ret {A} (Q : A -> server B K -> Prop) a x : Q a x -> post Q (ret a x).
Proof. intros HQ. exists a. split; [reflexivity|exact HQ]. Qed.

Lemma post_bind {A A'} (Q1 : A -> server B K -> Prop) (Q : A' -> server B K -> Prop)
    (m : M B K A) (k : A -> M B K A') x :
  post Q1 (m x) -> (forall a y, Q1 a y -> post Q (k a y)) -> post Q (bind m k x).
Proof.
  intros (a & Hres & HQ1) Hk. unfold post.
  rewrite result_of_bind, state_of_bind, Hres. apply Hk. exact HQ1.
Qed.

Lemma post_bind_call {A A'} (Q : A' -> server B K -> Prop)
    (op : stlink_t B -> A * stlink_t B) (ev : A -> event) (k : A -> M B K A') x :
  (forall a h, post Q (k a (set_sl h x))) -> post Q (bind (call op ev) k x).
Proof.
  intros Hk. unfold post. rewrite result_of_bind, state_of_bind, call_run.
  cbn [result_of state_of fst snd]. apply Hk.
Qed.

Lemma post_bind_client {A A'} (Q : A' -> server B K -> Prop)
    (op : K -> A * K) (ev : A -> event) (k : A -> M B K A') x :
  (forall a c, post Q (k a (set_client c x))) -> post Q (bind (on_client op ev) k x).
Proof.
  intros Hk. unfold post. rewrite result_of_bind, state_of_bind, on_client_run.
  cbn [result_of state_of fst snd]. apply Hk.
Qed.

Lemma post_bind_emit {A'} (Q : A' -> server B K -> Prop) e (k : unit -> M B K A') x :
  post Q (k tt x) -> post Q (bind (emit e) k x).
Proof.
  intros Hk. unfold post. rewrite result_of_bind, state_of_bind. exact Hk.
Qed.

Lemma post_bind_done {A A'} (Q : A' -> server B K -> Prop)
    (m : M B K A) (k : A -> M B K A') x a e x1 :
  m x = (Done a, e, x1) -> post Q (k a x1) -> post Q (bind m k x).
Proof.
  intros Hm Hk. unfold post. rewrite result_of_bind, state_of_bind, Hm. exact Hk.
Qed.

Lemma post_weaken {A} (Q Q' : A -> server B K -> Prop) o :
  post Q o -> (forall a y, Q a y -> Q' a y) -> post Q' o.
Proof. intros (a & Hres & HQ) Himp. exists a. split; [exact Hres|apply Himp; exact HQ]. Qed.

Lemma post_for_range (I : Z -> server B K -> Prop) (body : Z -> M B K unit) :
  forall n i x,
    (forall j y, i <= j < i + Z.of_nat n -> I j y -> post (fun _ => I (j + 1)) (body j y)) ->
    I i x -> post (fun _ => I (i + Z.of_nat n)) (for_range n i body x).
Proof.
  induction n as [|n IH]; intros i x Hbody HI; cbn [for_range].
  - apply post_ret. replace (i + Z.of_nat 0) with i by lia. exact HI.
  - apply (post_bind (fun _ => I (i + 1))); [apply Hbody; [lia|exact HI]|].
    intros _ y Hy. replace (i + Z.of_nat (S n)) with (i + 1 + Z.of_nat n) by lia.
    apply IH; [|exact Hy]. intros j z Hj. apply Hbody. lia.
Qed.

End Post.

(** One step of a run towards its postcondition. *)
Ltac post_step :=
  first
    [ rewrite bind_gets | rewrite bind_ret | rewrite bind_modify | rewrite bind_assoc
    | apply post_bind_call; intros
    | eapply post_bind_done; [apply stlink_write_mem8_run|]
    | eapply post_bind_done; [apply stlink_write_mem32_run|]
    | apply post_bind_client; intros
    | apply post_bind_emit
    | match goal with
      | |- post _ ((let '(_, _) := ?a in _) _) => destruct a
      | |- post _ ((if ?c then _ else _) _) => destruct c eqn:?
      | |- post _ (bind (if ?c then _ else _) _ _) => destruct c eqn:?
      end ];
  cbv beta iota.

Section Init.
Context {B K : Type} `{Probe B} `{Remote K}.
Local Open Scope server_scope.

Lemma init_code_breakpoints_table (x : server B K) :
  length (code_breaks x) = Z.to_nat CODE_BREAK_NUM_MAX ->
  let out := init_code_breakpoints x in
  result_of out = Done tt /\
  0 <= code_break_num (state_of out) <= CODE_BREAK_NUM_MAX /\
  length (code_breaks (state_of out)) = Z.to_nat CODE_BREAK_NUM_MAX /\
  data_watches (state_of out) = data_watches x /\
  (forall j, 0 <= j < code_break_num (state_of out) ->
     bp_type (zth no_break (code_breaks (state_of out)) j) = 0) /\
  (forall j, bp_addr (zth no_break (code_breaks (state_of out)) j) =
             bp_addr (zth no_break (code_breaks x) j)) /\
  occupied_slots (state_of out) = 0%nat.
Proof.
  intros Hlen out. subst out.
  set (Inv := fun (N i : Z) (y : server B K) =>
    code_break_num y = N /\
    length (code_breaks y) = Z.to_nat CODE_BREAK_NUM_MAX /\
    data_watches y = data_watches x /\
    (forall j, 0 <= j < i -> bp_type (zth no_break (code_breaks y) j) = 0) /\
    (forall j, bp_addr (zth no_break (code_breaks y) j) =
               bp_addr (zth no_break (code_breaks x) j))).
  assert (Hpost : post (fun _ y => 0 <= code_break_num y <= 15 /\
                                   Inv (code_break_num y) (code_break_num y) y)
                    (init_code_breakpoints x)).
  { unfold init_code_breakpoints. unfold_wrappers. repeat post_step.
    all: cbn [code_break_num set_sl set_code_break_regs].
    all: match goal with
         | |- post _ (for_range (Z.to_nat (Z.land ?v 15)) 0 ?body ?y) =>
             pose proof (land_15_bound v) as Hn;
             apply (post_weaken
                      (fun _ => Inv (Z.land v 15) (0 + Z.of_nat (Z.to_nat (Z.land v 15)))));
             [apply (post_for_range (Inv (Z.land v 15)) body)|]
         end.
    all: try (intros i y Hi (Hnum & Hl & Hdw & Hzero & Haddr);
              rewrite Z.add_0_l, Z2Nat.id in Hi by lia;
              assert (Hi' : 0 <= i < Z.of_nat (length (code_breaks y)))
                by (rewrite Hl; change (Z.of_nat (Z.to_nat CODE_BREAK_NUM_MAX)) with 15; lia);
              repeat post_step; apply post_ret; unfold Inv;
              cbn [code_break_num code_breaks data_watches set_sl set_code_breaks];
              split; [exact Hnum|]; split; [rewrite length_zset; exact Hl|];
              split; [exact Hdw|]; split;
              [ intros j Hj; destruct (Z.eq_dec j i) as [->|Hne];
                [rewrite zth_zset_eq by exact Hi'; reflexivity
                |rewrite zth_zset_ne by lia; apply Hzero; lia]
              | intros j; rewrite <- Haddr; destruct (Z.eq_dec j i) as [->|Hne];
                [rewrite zth_zset_eq by exact Hi'; reflexivity
                |rewrite zth_zset_ne by lia; reflexivity] ]).
    all: unfold Inv.
    all: try (intros _ y (Hnum & Hrest); rewrite Z.add_0_l, Z2Nat.id in Hrest by lia;
              rewrite Hnum; split; [lia|]; split; [reflexivity|exact Hrest]).
    all: cbn [code_break_num code_breaks data_watches set_sl set_code_break_regs].
    all: split; [reflexivity|]; split; [exact Hlen|]; split; [reflexivity|];
      split; [intros j Hj; lia|reflexivity]. }
  destruct Hpost as (a & Hres & Hnum & _ & Hl & Hdw & Hzero & Haddr).
  destruct a. split; [exact Hres|].
  split; [change CODE_BREAK_NUM_MAX with 15; lia|].
  split; [exact Hl|]. split; [exact Hdw|]. split; [exact Hzero|]. split; [exact Haddr|].
  unfold occupied_slots. rewrite no_type_in_prefix; [reflexivity|].
  intros j Hj. apply Hzero. lia.
Qed.

(** [init_code_breakpoints] returns with a comparator count between 0 and
    15 (the size of the table), every comparator in use cleared (type 0, so
    no slot is occupied), and the addresses of the slots and the watchpoint
    table as they were. *)
Theorem init_code_breakpoints_clears (x : server B K) :
  length (code_breaks x) = Z.to_nat CODE_BREAK_NUM_MAX ->
  let out := init_code_breakpoints x in
  result_of out = Done tt /\
  0 <= code_break_num (state_of out) <= CODE_BREAK_NUM_MAX /\
  length (code_breaks (state_of out)) = Z.to_nat CODE_BREAK_NUM_MAX /\
  data_watches (state_of out) = data_watches x /\
  (forall j, 0 <= j < code_break_num (state_of out) ->
     bp_type (zth no_break (code_breaks (state_of out)) j) = 0) /\
  (forall j, bp_addr (zth no_break (code_breaks (state_of out)) j) =
             bp_addr (zth no_break (code_breaks x) j)) /\
  occupied_slots (state_of out) = 0%nat.
Proof. exact (init_code_breakpoints_table x). Qed.

Lemma keeps_breaks_init_data_watchpoints :
  keeps (fun y : server B K => (code_breaks y, code_break_num y)) init_data_watchpoints.
Proof. unfold init_data_watchpoints. unfold_wrappers. keeps_tac. Qed.

(** The 'R' command answers OK whatever the probe returns; its first call
    is the reset of the core, and it leaves the session attached, every
    watchpoint disabled and every breakpoint comparator below the count it
    has read again from the probe cleared (type 0), so that none of them
    counts as occupied. *)
Theorem serve_R_clears_tables (fuel : nat) (x : server B K) :
  length (code_breaks x) = Z.to_nat CODE_BREAK_NUM_MAX ->
  length (data_watches x) = 4%nat ->
  let out := serve_packet fuel Pkt_R x in
  result_of out = Done (Reply (Some "OK"%string) 0) /\
  attached (state_of out) = 1 /\
  (forall j, 0 <= j < code_break_num (state_of out) ->
     bp_type (zth no_break (code_breaks (state_of out)) j) = 0) /\
  occupied_slots (state_of out) = 0%nat /\
  (forall i, 0 <= i < 4 -> wp_free (state_of out) i) /\
  exists e rest, events_of out = EvReset RESET_SOFT_AND_HALT e :: rest.
Proof.
  intros Hcb Hdw out. subst out. cbn [serve_packet].
  assert (Hpost : post (fun r y => r = Reply (Some "OK"%string) 0 /\ attached y = 1 /\
                                   (forall j, 0 <= j < code_break_num y ->
                                      bp_type (zth no_break (code_breaks y) j) = 0) /\
                                   forall i, 0 <= i < 4 -> wp_free y i) (serve_R x)).
  { unfold serve_R, stlink_reset. apply post_bind_call. intros a h.
    apply (post_bind (fun _ y => length (data_watches y) = 4%nat /\
                                 forall j, 0 <= j < code_break_num y ->
                                   bp_type (zth no_break (code_breaks y) j) = 0)).
    { destruct (init_code_breakpoints_table (set_sl h x) Hcb)
        as (Hres & _ & _ & Hd & Hzero & _ & _).
      exists tt. split; [exact Hres|]. split; [rewrite Hd; exact Hdw|exact Hzero]. }
    intros _ y (Hdy & Hzero).
    apply (post_bind (fun _ z => (forall j, 0 <= j < code_break_num z ->
                                    bp_type (zth no_break (code_breaks z) j) = 0) /\
                                 forall i, 0 <= i < 4 -> wp_free z i)).
    { destruct (init_data_watchpoints_table y Hdy) as (Hres & _ & Hfree).
      exists tt. split; [exact Hres|]. split; [|exact Hfree].
      pose proof (keeps_breaks_init_data_watchpoints y) as Hk. cbv beta in Hk.
      injection Hk as Hk1 Hk2. rewrite Hk1, Hk2. exact Hzero. }
    intros _ z (Hzero' & Hfree).
    rewrite bind_modify. apply post_ret. auto. }
  destruct Hpost as (r & Hres & -> & Hatt & Hzero & Hfree).
  split; [exact Hres|]. split; [exact Hatt|]. split; [exact Hzero|].
  split.
  { unfold occupied_slots. rewrite no_type_in_prefix; [reflexivity|].
    intros j Hj. apply Hzero. lia. }
  split; [exact Hfree|].
  unfold serve_R, stlink_reset.
  destruct (events_of_bind_prefix (call (fun h => probe_reset h RESET_SOFT_AND_HALT)
                                     (EvReset RESET_SOFT_AND_HALT))
              (fun _ => init_code_breakpoints;; init_data_watchpoints;;
                        modify (set_attached 1);; ret (Reply (Some "OK"%string) 0)) x)
    as (rest & Hev).
  rewrite Hev, call_run. cbn. eauto.
Qed.

End Init.

(** A probe that reports six comparators, on a session whose slot 0 holds
    a breakpoint: the count is 6 and slot 0 is cleared, with its address
    kept. *)
Lemma init_code_breakpoints_clears_witness :
  bp_type (zth no_break (code_breaks m7_server) 0) = CODE_BREAK_LOW /\
  code_break_num (state_of (init_code_breakpoints m7_server)) = 6 /\
  bp_type (zth no_break (code_breaks (state_of (init_code_breakpoints m7_server))) 0) = 0 /\
  bp_addr (zth no_break (code_breaks (state_of (init_code_breakpoints m7_server))) 0)
    = 0x08000100.
Proof.
  pose proof (init_code_breakpoints_clears m7_server eq_refl) as Hc. cbv zeta in Hc.
  destruct Hc as (_ & _ & _ & _ & Hzero & Haddr & _).
  split; [reflexivity|]. split; [vm_compute; reflexivity|]. split.
  - apply Hzero. vm_compute. split; [discriminate|reflexivity].
  - rewrite Haddr. reflexivity.
Defined.

(** 'R' on the same session, which is detached and has a breakpoint in
    slot 0 and a watchpoint in slot 0: afterwards it is attached, the six
    comparators are cleared and the watchpoint is free. *)
Lemma serve_R_clears_tables_witness :
  attached m7_server = 0 /\
  bp_type (zth no_break (code_breaks m7_server) 0) = CODE_BREAK_LOW /\
  wp_fun (zth no_watch (data_watches m7_server) 0) = WATCHWRITE /\
  result_of (serve_packet 0 Pkt_R m7_server) = Done (Reply (Some "OK"%string) 0) /\
  attached (state_of (serve_packet 0 Pkt_R m7_server)) = 1 /\
  code_break_num (state_of (serve_packet 0 Pkt_R m7_server)) = 6 /\
  bp_type (zth no_break (code_breaks (state_of (serve_packet 0 Pkt_R m7_server))) 0) = 0 /\
  wp_free (state_of (serve_packet 0 Pkt_R m7_server)) 0.
Proof.
  pose proof (serve_R_clears_tables 0 m7_server eq_refl eq_refl) as Hc. cbv zeta in Hc.
  destruct Hc as (Hres & Hatt & Hzero & _ & Hfree & _).
  split; [reflexivity|]. split; [reflexivity|]. split; [reflexivity|].
  split; [exact Hres|]. split; [exact Hatt|]. split; [vm_compute; reflexivity|]. split.
  - apply Hzero. vm_compute. split; [discriminate|reflexivity].
  - apply Hfree. split; [discriminate|reflexivity].
Defined.

(** ** Flash staging *)

Section Staging.
Context {B K : Type} `{Probe B} `{Remote K}.
Local Open Scope server_scope.

Lemma malloc_run (x : server B K) :
  malloc x = (Done (fresh (heap x)), [EvMalloc (fresh (heap x))],
              set_heap ({[fresh (heap x)]} ∪ heap x) x).
Proof. reflexivity. Qed.

(** [flash_add_block] stages a block exactly when it lies inside the
    flash ([FLASH_BASE <= addr] and [addr + length <= FLASH_BASE + flash_size],
    in 32-bit arithmetic) and its address and length are multiples of the
    page size at [addr].  The new block is put in front of the list, filled
    with the erased pattern, on two fresh allocations.  A refused block
    answers -1 and leaves the list and the allocations as they are; a block
    out of the flash is refused before any call to the probe.  (The page size
    is taken non-zero where the code divides by it.) *)
Theorem flash_add_block_result (addr length : Z) (x : server B K) :
  let out := flash_add_block addr length x in
  let inside :=
    negb ((addr <? FLASH_BASE) || (u32 (addr + length) >? u32 (FLASH_BASE + flash_size (sl x)))) in
  let h := snd (probe_calculate_pagesize (sl x) addr) in
  let aligned := (addr mod flash_pgsz h =? 0) && (length mod flash_pgsz h =? 0) in
  (inside = false -> out = (Done (-1), [], x)) /\
  (inside = true -> flash_pgsz h <> 0 -> aligned = false ->
     result_of out = Done (-1) /\
     flash_root (state_of out) = flash_root x /\ heap (state_of out) = heap x) /\
  (inside = true -> flash_pgsz h <> 0 -> aligned = true ->
     result_of out = Done 0 /\
     exists new data,
       (new ∉ heap x) /\ (data ∉ heap x) /\ new <> data /\
       heap (state_of out) = {[data]} ∪ ({[new]} ∪ heap x) /\
       flash_root (state_of out) =
         {| fb_self := new; fb_addr := addr; fb_length := length; fb_data_ptr := data;
            fb_data := repeat (probe_get_erased_pattern h) (Z.to_nat length) |}
         :: flash_root x).
Proof.
  intros out inside h aligned. subst out. unfold flash_add_block.
  rewrite bind_gets. fold inside.
  split; [|split].
  - intros Hin. apply negb_false_iff in Hin. subst inside. rewrite Hin. reflexivity.
  - intros Hin _ Hal. apply negb_true_iff in Hin. subst inside. rewrite Hin.
    unfold stlink_calculate_pagesize, FLASH_PAGE.
    rewrite (bind_done _ _ _ _ _ _ (call_run _ _ _)). rewrite bind_gets.
    cbn [sl set_sl]. fold h.
    assert (Hc : negb (addr mod flash_pgsz h =? 0) || negb (length mod flash_pgsz h =? 0) = true).
    { subst aligned. rewrite <- negb_andb. rewrite Hal. reflexivity. }
    rewrite Hc. cbn. auto.
  - intros Hin _ Hal. apply negb_true_iff in Hin. subst inside. rewrite Hin.
    unfold stlink_calculate_pagesize, FLASH_PAGE, stlink_get_erased_pattern.
    rewrite (bind_done _ _ _ _ _ _ (call_run _ _ _)). rewrite bind_gets.
    cbn [sl set_sl]. fold h.
    assert (Hc : negb (addr mod flash_pgsz h =? 0) || negb (length mod flash_pgsz h =? 0) = false).
    { subst aligned. rewrite <- negb_andb. rewrite Hal. reflexivity. }
    rewrite Hc.
    rewrite (bind_done _ _ _ _ _ _ (malloc_run _)).
    rewrite (bind_done _ _ _ _ _ _ (malloc_run _)).
    rewrite bind_gets, bind_modify.
    cbn [result_of events_of state_of fst snd ret sl heap flash_root set_sl set_heap
         set_flash_root].
    split; [reflexivity|].
    exists (fresh (heap x)), (fresh ({[fresh (heap x)]} ∪ heap x)).
    pose proof (is_fresh (heap x)) as Hf1.
    pose proof (is_fresh ({[fresh (heap x)]} ∪ heap x)) as Hf2.
    split; [exact Hf1|]. split; [set_solver|]. split; [set_solver|].
    split; reflexivity.
Qed.

Lemma flash_populate_blocks_map addr data length blocks : forall fit_blocks fit_length,
  fst (fst (flash_populate_blocks addr data length blocks fit_blocks fit_length)) =
    map (fun fb => fst (flash_populate_block addr data length fb)) blocks.
Proof.
  induction blocks as [|fb next IH]; intros fit_blocks fit_length; [reflexivity|].
  cbn [flash_populate_blocks map].
  destruct (flash_populate_block addr data length fb) as [fb' fit].
  specialize (IH (match fit with Some _ => u32 (fit_blocks + 1) | None => fit_blocks end)
                 (match fit with Some n => u32 (fit_length + n) | None => fit_length end)).
  destruct (flash_populate_blocks addr data length next _ _) as [[next' n] l].
  cbn [fst snd] in *. rewrite IH. reflexivity.
Qed.

Lemma flash_populate_block_inside addr data length fb :
  0 <= fb_addr fb -> fb_addr fb + fb_length fb < 2 ^ 32 ->
  0 < length -> addr + length < 2 ^ 32 ->
  fb_addr fb <= addr < fb_addr fb + fb_length fb ->
  let off := addr - fb_addr fb in
  let n := Z.min length (fb_length fb - off) in
  flash_populate_block addr data length fb =
    ({| fb_self := fb_self fb; fb_addr := fb_addr fb; fb_length := fb_length fb;
        fb_data_ptr := fb_data_ptr fb;
        fb_data := take (Z.to_nat off) (fb_data fb) ++ take (Z.to_nat n) data
                   ++ drop (Z.to_nat (off + n)) (fb_data fb) |},
     Some n).
Proof.
  intros HX HY Hlen Hb Hin off n. unfold flash_populate_block.
  rewrite (u32_small (fb_addr fb + fb_length fb)), (u32_small (addr + length)) by lia.
  destruct (Z.ltb_spec addr (fb_addr fb + fb_length fb)); [|lia].
  destruct (Z.gtb_spec (addr + length) (fb_addr fb)); [|lia].
  cbn [andb].
  assert (Hstart : u32 ((if addr >? fb_addr fb then addr else fb_addr fb) - fb_addr fb) = off).
  { subst off. destruct (Z.gtb_spec addr (fb_addr fb)); rewrite u32_small; lia. }
  assert (Hend : u32 ((if addr + length >? fb_addr fb + fb_length fb
                       then fb_addr fb + fb_length fb else addr + length) - fb_addr fb)
                 = off + n).
  { subst off n. destruct (Z.gtb_spec (addr + length) (fb_addr fb + fb_length fb));
      rewrite u32_small; lia. }
  rewrite Hstart, Hend.
  replace (u32 (off + n - off)) with n by (rewrite u32_small; subst off n; lia).
  reflexivity.
Qed.

Lemma flash_populate_block_outside addr data length fb :
  block_intersects addr length fb = false ->
  flash_populate_block addr data length fb = (fb, None).
Proof.
  unfold block_intersects, flash_populate_block. intros ->. reflexivity.
Qed.

(** [flash_populate] treats every staged block on its own.  A block that the
    write range does not meet stays as it is.  A block in which the payload
    starts (its address is not above [addr]) receives the first
    [n = min (length, end of block - addr)] bytes of the payload at offset
    [addr - block address]; its other bytes are unchanged.  (The block buffer
    has the length of the block and the payload at least [length] bytes, as
    [memcpy] needs.) *)
Theorem flash_populate_inside_block (addr : Z) (data : list Z) (length : Z) (x : server B K) :
  0 < length -> addr + length < 2 ^ 32 ->
  let out := flash_populate addr data length x in
  let after := fun fb => fst (flash_populate_block addr data length fb) in
  flash_root (state_of out) = map after (flash_root x) /\
  (forall fb, block_intersects addr length fb = false -> after fb = fb) /\
  (forall fb,
     0 <= fb_addr fb -> fb_addr fb + fb_length fb < 2 ^ 32 ->
     Z.of_nat (List.length (fb_data fb)) = fb_length fb ->
     length <= Z.of_nat (List.length data) ->
     fb_addr fb <= addr < fb_addr fb + fb_length fb ->
     let off := addr - fb_addr fb in
     let n := Z.min length (fb_length fb - off) in
     after fb =
       {| fb_self := fb_self fb; fb_addr := fb_addr fb; fb_length := fb_length fb;
          fb_data_ptr := fb_data_ptr fb;
          fb_data := take (Z.to_nat off) (fb_data fb) ++ take (Z.to_nat n) data
                     ++ drop (Z.to_nat (off + n)) (fb_data fb) |}).
Proof.
  intros Hlen Hb out after. subst out. split; [|split].
  - unfold flash_populate. rewrite bind_gets.
    pose proof (flash_populate_blocks_map addr data length (flash_root x) 0 0) as Hmap.
    destruct (flash_populate_blocks addr data length (flash_root x) 0 0) as [[root' n] l].
    cbn [fst] in Hmap. rewrite bind_modify.
    destruct (n =? 0); cbn; exact Hmap.
  - intros fb Hno. subst after. cbv beta.
    rewrite flash_populate_block_outside by exact Hno. reflexivity.
  - intros fb HX HY _ _ Hin off n. subst after. cbv beta.
    rewrite flash_populate_block_inside by assumption. reflexivity.
Qed.

End Staging.

(** A page of the scripted target staged on a fresh session. *)
Lemma flash_add_block_result_witness :
  result_of (flash_add_block 0x08000400 0x400 (sim_server (sim_target 0 0 []) 0 false))
    = Done 0.
Proof.
  refine (proj1 (proj2 (proj2
    (flash_add_block_result 0x08000400 0x400 (sim_server (sim_target 0 0 []) 0 false)))
    _ _ _)).
  - reflexivity.
  - discriminate.
  - reflexivity.
Defined.

(** One page staged at 0x08000000, then 8 bytes written at 0x08000004. *)
Lemma flash_populate_inside_block_witness :
  map fb_data
    (flash_root
       (state_of (flash_populate 0x08000004 [1; 2; 3; 4; 5; 6; 7; 8] 8
          (state_of (flash_add_block 0x08000000 0x400
                       (sim_server (sim_target 0 0 []) 0 false))))))
  = [repeat 0xff 4 ++ [1; 2; 3; 4; 5; 6; 7; 8] ++ repeat 0xff 1012].
Proof.
  rewrite (proj1 (flash_populate_inside_block 0x08000004 [1; 2; 3; 4; 5; 6; 7; 8] 8
             (state_of (flash_add_block 0x08000000 0x400
                          (sim_server (sim_target 0 0 []) 0 false)))
             ltac:(lia) ltac:(lia))).
  vm_compute. reflexivity.
Defined.

(** ** The order of a flash commit *)



Section Commit.
Context {B K : Type} `{Probe B} `{Remote K}.
Local Open Scope server_scope.

















Section Emits.
Context (P : event -> Prop).

Lemma emits_ret {A} (a : A) : emits P (ret (B:=B) (K:=K) a).
Proof. intros x. constructor. Qed.

Lemma emits_gets {A} (f : server B K -> A) : emits P (gets f).
Proof. intros x. constructor. Qed.

Lemma emits_modify (g : server B K -> server B K) : emits P (modify g).
Proof. intros x. constructor. Qed.

Lemma emits_diverge {A} : emits P (diverge (B:=B) (K:=K) (A:=A)).
Proof. intros x. constructor. Qed.

Lemma emits_call {A} (op : stlink_t B -> A * stlink_t B) (ev : A -> event) :
  (forall a, P (ev a)) -> emits P (call (K:=K) op ev).
Proof. intros Hev x. rewrite call_run. repeat constructor. apply Hev. Qed.

Lemma emits_emit e : P e -> emits P (emit (B:=B) (K:=K) e).
Proof. intros He x. repeat constructor. exact He. Qed.

Lemma emits_free p : P (EvFree p) -> emits P (free (B:=B) (K:=K) p).
Proof. intros He x. repeat constructor. exact He. Qed.

Lemma emits_bind {A A'} (m : M B K A) (k : A -> M B K A') :
  emits P m -> (forall a, emits P (k a)) -> emits P (bind m k).
Proof.
  intros Hm Hk x.
  destruct (events_of_bind m k x) as [(a & _ & -> & _)|(_ & -> & _)].
  - apply Forall_app. split; [apply Hm|apply Hk].
  - apply Hm.
Qed.

End Emits.

Ltac emits_tac :=
  repeat first
    [ apply emits_ret | apply emits_gets | apply emits_modify | apply emits_diverge
    | apply emits_call; intros; exact I
    | apply emits_free; exact I
    | apply emits_emit; exact I
    | apply emits_bind; [|intros]
    | match goal with
      | |- emits _ (if ?b then _ else _) => destruct b
      | |- emits _ (match ?o with Some _ => _ | None => _ end) => destruct o
      end ].

Lemma emits_staged_erase_pages blocks fuel fb : forall page,
  emits (staged_write blocks) (flash_erase_pages (B:=B) (K:=K) fuel fb page).
Proof.
  induction fuel as [|fuel IH]; intros page; cbn [flash_erase_pages].
  - apply emits_diverge.
  - unfold stlink_calculate_pagesize, stlink_erase_flash_page, FLASH_PAGE.
    emits_tac. apply IH.
Qed.

Lemma emits_staged_erase_blocks blocks fuel bl :
  emits (staged_write blocks) (flash_erase_blocks (B:=B) (K:=K) fuel bl).
Proof.
  induction bl as [|fb rest IH]; cbn [flash_erase_blocks]; [apply emits_ret|].
  apply emits_bind; [apply emits_staged_erase_pages|].
  intros [e|]; [apply emits_ret|exact IH].
Qed.

Lemma emits_staged_write_pages blocks fuel fb :
  In fb blocks ->
  forall page, emits (staged_write blocks) (flash_write_pages (B:=B) (K:=K) fuel fb page).
Proof.
  intros Hin. induction fuel as [|fuel IH]; intros page; cbn [flash_write_pages].
  - apply emits_diverge.
  - cbv zeta. unfold stlink_calculate_pagesize, stlink_flashloader_write, FLASH_PAGE.
    destruct (page <? u32 (fb_addr fb + fb_length fb)); [|apply emits_ret].
    apply emits_bind; [apply emits_call; intros; exact I|]. intros _.
    apply emits_bind; [apply emits_gets|]. intros pg.
    apply emits_bind.
    { apply emits_call. intros e. cbn [staged_write]. exists fb. split; [exact Hin|reflexivity]. }
    intros e. destruct (negb (e =? 0)); [apply emits_ret|].
    apply emits_bind; [apply emits_gets|]. intros pg'. apply IH.
Qed.

Lemma emits_staged_write_blocks blocks fuel bl :
  incl bl blocks ->
  emits (staged_write blocks) (flash_write_blocks (B:=B) (K:=K) fuel bl).
Proof.
  induction bl as [|fb rest IH]; intros Hincl; cbn [flash_write_blocks]; [apply emits_ret|].
  apply emits_bind.
  - apply emits_staged_write_pages. apply Hincl. left. reflexivity.
  - intros [e|]; [apply emits_ret|]. apply IH. intros b Hb. apply Hincl. right. exact Hb.
Qed.

Lemma emits_staged_free_blocks blocks bl :
  emits (staged_write blocks) (flash_free_blocks (B:=B) (K:=K) bl).
Proof.
  induction bl as [|fb rest IH]; cbn [flash_free_blocks]; [apply emits_ret|].
  emits_tac. exact IH.
Qed.

(** Whatever [flash_go] hands to the loader was staged: the bytes of each
    write are the bytes of a staged block at the offset of the page written
    (as many as the length passed).  This holds in every run, finished or
    not. *)
Theorem flash_go_writes_staged (fuel : nat) (x : server B K) :
  Forall (staged_write (flash_root x)) (events_of (flash_go fuel x)).
Proof.
  unfold flash_go, stlink_target_connect, stlink_force_debug.
  rewrite bind_gets.
  rewrite (bind_done _ _ _ _ _ _ (call_run _ _ _)).
  rewrite (bind_done _ _ _ _ _ _ (call_run _ _ _)).
  rewrite bind_gets.
  cbn [events_of fst snd flash_root set_sl app].
  repeat (apply Forall_cons; split; [exact I|]).
  match goal with
  | |- Forall _ (events_of (bind ?m ?k ?y)) =>
      change (Forall (staged_write (flash_root x)) (events_of (bind m k y)));
      apply (emits_bind (staged_write (flash_root x)) m k)
  end.
  - unfold flash_go_commit, stlink_flashloader_start, stlink_flashloader_stop, stlink_reset.
    apply emits_bind; [apply emits_staged_erase_blocks|].
    intros [e|]; [apply emits_ret|].
    apply emits_bind; [apply emits_call; intros; exact I|].
    intros e. destruct (negb (e =? 0)); [apply emits_ret|].
    apply emits_bind; [apply emits_staged_write_blocks; apply incl_refl|].
    intros [e'|]; emits_tac.
  - intros e. apply emits_bind; [apply emits_gets|]. intros root.
    apply emits_bind; [apply emits_staged_free_blocks|]. intros _. emits_tac.
Qed.

End Commit.


(** ** Probe failures and the reply *)

Section FailurePolicy.
Context {B K : Type} `{Probe B} `{Remote K}.
Local Open Scope server_scope.



End FailurePolicy.

(** ** The cache description *)

Lemma ceil_log2_from_spec v : forall fuel res,
  0 <= res -> res + Z.of_nat fuel = 32 -> 0 <= v <= 2 ^ 31 ->
  (forall r, 0 <= r < res -> 2 ^ r < v) ->
  let out := ceil_log2_from fuel res v in
  res <= out <= 31 /\ v <= 2 ^ out /\ forall r, 0 <= r < out -> 2 ^ r < v.
Proof.
  induction fuel as [|fuel IH]; intros res Hres Hfuel Hv Hbelow out; subst out.
  - exfalso. assert (Hr : res = 32) by lia. subst res.
    specialize (Hbelow 31 ltac:(lia)). lia.
  - cbn [ceil_log2_from].
    assert (Hr : res <= 31) by lia.
    assert (Hsh : u32 (Z.shiftl 1 res) = 2 ^ res).
    { rewrite Z.shiftl_1_l. apply u32_small. split; [apply Z.pow_nonneg; lia|].
      apply Z.pow_lt_mono_r; lia. }
    rewrite Hsh. destruct (Z.ltb_spec (2 ^ res) v) as [Hlt|Hge].
    + assert (Hr' : res < 31).
      { destruct (Z.eq_dec res 31) as [->|]; [lia|lia]. }
      destruct (IH (res + 1) ltac:(lia) ltac:(lia) Hv) as (Hlo & Hle & Hmin).
      { intros r Hr0. destruct (Z.eq_dec r res) as [->|]; [exact Hlt|]. apply Hbelow. lia. }
      split; [lia|]. split; [exact Hle|exact Hmin].
    + split; [lia|]. split; [exact Hge|exact Hbelow].
Qed.

(** [ceil_log2 v], for [v] up to 2^31, is the smallest [R] with
    [v <= 2^R], as the comment above the function says: the ceiling of the
    binary logarithm, and 0 for 0 and 1. *)
Theorem ceil_log2_smallest (v : Z) :
  0 <= v <= 2 ^ 31 ->
  0 <= ceil_log2 v <= 31 /\
  v <= 2 ^ ceil_log2 v /\
  (forall r, 0 <= r < ceil_log2 v -> 2 ^ r < v) /\
  ceil_log2 v = Z.log2_up v.
Proof.
  intros Hv. unfold ceil_log2.
  destruct (ceil_log2_from_spec v 32 0 ltac:(lia) ltac:(lia) Hv) as (Hlo & Hle & Hmin).
  { intros r Hr. lia. }
  split; [exact Hlo|]. split; [exact Hle|]. split; [exact Hmin|].
  set (c := ceil_log2_from 32 0 v) in *.
  destruct (Z.le_gt_cases v 1) as [Hsmall|Hbig].
  - rewrite Z.log2_up_eqn0 by exact Hsmall.
    destruct (Z.eq_dec c 0) as [->|Hc]; [reflexivity|].
    specialize (Hmin 0 ltac:(lia)). cbn in Hmin. lia.
  - assert (Hc : c <> 0).
    { intros Hc. rewrite Hc in Hle. change (2 ^ 0) with 1 in Hle. lia. }
    symmetry. apply Z.log2_up_unique; [lia|]. split; [|exact Hle].
    replace (Z.pred c) with (c - 1) by lia. apply Hmin. lia.
Qed.

(** Nine ways: four index bits. *)
Lemma ceil_log2_smallest_witness : ceil_log2 9 = Z.log2_up 9.
Proof.
  refine (proj2 (proj2 (proj2 (ceil_log2_smallest 9 _)))). lia.
Defined.

(** ** Cache synchronisation *)

Section CacheKeeps.
Context {B K : Type} `{Probe B} `{Remote K}.
Context {T : Type} (f : server B K -> T).
Hypothesis f_sl : forall h x, f (set_sl h x) = f x.
Local Open Scope server_scope.

Lemma keeps_cache_flush_sets fuel desc : forall addr max_addr way_sh dminl,
  keeps f (cache_flush_sets fuel desc addr max_addr way_sh dminl).
Proof.
  induction fuel as [|fuel IH]; intros addr max_addr way_sh dminl; cbn [cache_flush_sets].
  - apply keeps_diverge.
  - destruct (addr <? max_addr); [|apply keeps_ret].
    apply keeps_bind; [|intros; apply IH].
    apply keeps_for_range. intros way. unfold stlink_write_debug32.
    apply keeps_bind; [apply keeps_call; exact f_sl|]. intros _. apply keeps_ret.
Qed.

Lemma keeps_cache_flush_levels n : keeps f (cache_flush_levels n).
Proof.
  induction n as [|n IH]; cbn [cache_flush_levels]; [apply keeps_ret|].
  apply keeps_bind; [apply keeps_gets|]. intros c.
  apply keeps_bind; [apply keeps_cache_flush_sets|]. intros _. exact IH.
Qed.

Lemma keeps_cache_flush ccr : keeps f (cache_flush ccr).
Proof.
  unfold cache_flush, stlink_write_debug32.
  apply keeps_bind.
  - destruct (negb _); [|apply keeps_ret].
    apply keeps_bind; [apply keeps_gets|]. intros c. apply keeps_cache_flush_levels.
  - intros _. destruct (negb _); [|apply keeps_ret].
    apply keeps_bind; [apply keeps_call; exact f_sl|]. intros _. apply keeps_ret.
Qed.

End CacheKeeps.

Section CacheSyncIdle.
Context {B K : Type} `{Probe B} `{Remote K}.
Local Open Scope server_scope.

Lemma cache_sync_idle_run (x : server B K) :
  used (cache_desc x) = 0 \/ cache_modified x = 0 ->
  cache_sync x = (Done tt, [EvCacheSync], x).
Proof.
  intros Hidle. unfold cache_sync.
  unfold bind at 1. cbn [emit]. rewrite bind_gets.
  destruct (Z.eqb_spec (used (cache_desc x)) 0) as [_|Hused]; [reflexivity|].
  rewrite bind_gets. destruct Hidle as [Hu|Hm]; [contradiction|].
  rewrite Hm. reflexivity.
Qed.

Lemma cache_sync_settles (x : server B K) :
  cache_desc (state_of (cache_sync x)) = cache_desc x /\
  (used (cache_desc x) = 0 \/ cache_modified (state_of (cache_sync x)) = 0).
Proof.
  unfold cache_sync.
  rewrite state_of_bind. cbn [emit result_of state_of fst snd].
  rewrite bind_gets.
  destruct (Z.eqb_spec (used (cache_desc x)) 0) as [Hu|Hused]; [cbn; auto|].
  rewrite bind_gets.
  destruct (Z.eqb_spec (cache_modified x) 0) as [Hm|Hm]; [cbn; auto|].
  rewrite bind_modify.
  set (rest := bind (stlink_read_debug32 STLINK_REG_CM7_CCR) _).
  assert (Hk : keeps (fun y : server B K => (cache_desc y, cache_modified y)) rest).
  { subst rest. unfold stlink_read_debug32.
    apply keeps_bind; [apply keeps_call; reflexivity|].
    intros [e ccr]. destruct (negb _); [|apply keeps_ret].
    apply keeps_cache_flush. reflexivity. }
  specialize (Hk (set_cache_modified 0 x)). cbv beta in Hk.
  injection Hk as Hk1 Hk2. split; [exact Hk1|]. right. exact Hk2.
Qed.

(** [cache_sync] calls the probe only when a cache is in use and memory
    was written since the last synchronisation; otherwise it changes nothing.
    Once it has returned, a second [cache_sync] in a row finds nothing to
    do. *)
Theorem cache_sync_idle (x : server B K) :
  (used (cache_desc x) = 0 \/ cache_modified x = 0 ->
   cache_sync x = (Done tt, [EvCacheSync], x)) /\
  (used (cache_desc x) = 0 \/ cache_geometry_ok (cache_desc x) ->
   result_of (cache_sync x) = Done tt /\
   cache_sync (state_of (cache_sync x)) = (Done tt, [EvCacheSync], state_of (cache_sync x))).
Proof.
  split; [apply cache_sync_idle_run|].
  intros Hok. destruct (cache_sync_run x Hok) as (evs & h & cm & Hrun & _).
  split; [rewrite Hrun; reflexivity|].
  apply cache_sync_idle_run.
  destruct (cache_sync_settles x) as [Hdesc [Hu|Hm]].
  - left. rewrite Hdesc. exact Hu.
  - right. exact Hm.
Qed.

End CacheSyncIdle.

Section CacheMarks.
Context {B K : Type} `{Probe B} `{Remote K}.
Local Open Scope server_scope.

Lemma cache_change_nonzero start count :
  count <> 0 -> cache_change (B:=B) (K:=K) start count = modify (set_cache_modified 1).
Proof.
  intros Hc. unfold cache_change. destruct (Z.eqb_spec count 0); [contradiction|reflexivity].
Qed.






End CacheMarks.


(** ** Memory reads *)

Lemma string_length_append (s t : string) :
  String.length (s ++ t)%string = (String.length s + String.length t)%nat.
Proof.
  induction s as [|a s IH]; [reflexivity|].
  change (String.length (String a s ++ t)%string) with (S (String.length (s ++ t)%string)).
  rewrite IH. reflexivity.
Qed.

Lemma concat_hex_length {A} (g : A -> Z) (l : list A) :
  String.length (concat_strings (map (fun i => hex_byte (g i)) l)) = (2 * List.length l)%nat.
Proof.
  induction l as [|a l IH]; [reflexivity|].
  cbn [map concat_strings List.length].
  rewrite string_length_append, IH.
  change (String.length (hex_byte (g a))) with 2%nat. lia.
Qed.

Section MemoryRead.
Context {B K : Type} `{Probe B} `{Remote K}.
Local Open Scope server_scope.

(** An 'm' request makes one read, at the word that holds [start], of
    [len] bytes: the count and the offset in the word, rounded up to whole
    words and cut to the page size and to 0x1800.  When the read succeeds
    the reply is the two hex digits of each of the first [min (count, len)]
    bytes of the probe buffer from the offset of [start] in its word on, in
    order; when the read fails the reply is empty.  The critical flag is
    never set. *)
Theorem read_memory_reply (start count : Z) (x : server B K) :
  0 <= start < 2 ^ 32 -> 0 <= count -> count + 6 < 2 ^ 32 ->
  let adj := start mod 4 in
  let len := Z.min (Z.min ((count + adj + 3) / 4 * 4) (flash_pgsz (sl x))) 0x1800 in
  let rd := probe_read_mem32 (sl x) (start - adj) len in
  let n := if fst rd =? 0 then Z.min count len else 0 in
  let text := concat_strings
                (map (fun i => hex_byte (zth 0 (q_buf (snd rd)) (i + adj))) (seqZ 0 n)) in
  serve_m start count x =
    (Done (Reply (Some text) 0), [EvReadMem32 (start - adj) len (fst rd)], set_sl (snd rd) x) /\
  (start - adj) mod 4 = 0 /\
  strlen text = 2 * Z.max 0 n /\ n <= count /\ n <= 0x1800 /\
  (fst rd <> 0 -> text = EmptyString).
Proof.
  intros Hstart Hcount Hbound adj len rd n text.
  pose proof (Z.mod_pos_bound start 4 ltac:(lia)) as Hm. fold adj in Hm.
  pose proof (Z.mod_le start 4 ltac:(lia) ltac:(lia)) as Hle. fold adj in Hle.
  assert (Hmin : forall a b, (if a >? b then b else a) = Z.min a b).
  { intros a b. unfold Z.min, Z.gtb. destruct (a ?= b); reflexivity. }
  assert (Hrnd : u32 (u32 (count + adj + 4 - 1) / 4 * 4) = (count + adj + 3) / 4 * 4).
  { replace (count + adj + 4 - 1) with (count + adj + 3) by lia.
    rewrite (u32_small (count + adj + 3)) by lia.
    apply u32_small.
    pose proof (Z.mul_div_le (count + adj + 3) 4 ltac:(lia)) as Hd.
    pose proof (Z.div_pos (count + adj + 3) 4 ltac:(lia) ltac:(lia)) as Hp. lia. }
  assert (Hlen : len <= 0x1800) by (subst len; lia).
  split.
  { unfold serve_m. cbv zeta. fold adj. rewrite bind_gets. rewrite Hrnd, !Hmin. fold len.
    unfold stlink_read_mem32.
    rewrite (bind_done _ _ _ _ _ _ (call_run _ _ _)). rewrite bind_gets.
    rewrite (u32_small (start - adj)) by lia. fold rd.
    cbn [result_of events_of state_of fst snd ret app sl set_sl].
    assert (Hn : (if negb (fst rd =? 0) then 0
                  else if len <? count then len else count) = n).
    { subst n. destruct (fst rd =? 0); cbn [negb]; [|reflexivity].
      destruct (Z.ltb_spec len count); lia. }
    rewrite Hn. reflexivity. }
  split.
  { unfold adj. rewrite Zminus_mod_idemp_r, Z.sub_diag. reflexivity. }
  split.
  { unfold text, strlen. rewrite concat_hex_length, length_seqZ. lia. }
  assert (Hn : n <= count /\ n <= 0x1800).
  { subst n. destruct (fst rd =? 0); lia. }
  split; [lia|]. split; [lia|].
  intros He. unfold text, n. destruct (Z.eqb_spec (fst rd) 0); [contradiction|]. reflexivity.
Qed.

End MemoryRead.

(** A read of 2 bytes at 0x20000002: the word at 0x20000000 is read and the
    reply holds its third and fourth byte. *)
Lemma read_memory_reply_witness :
  serve_m 0x20000002 2 (sim_server (sim_target 0 0 [0x11; 0x22; 0x33; 0x44]) 0 false)
    = (Done (Reply (Some "3344"%string) 0), [EvReadMem32 0x20000000 4 0],
       set_sl (snd (probe_read_mem32
                      (sl (sim_server (sim_target 0 0 [0x11; 0x22; 0x33; 0x44]) 0 false))
                      0x20000000 4))
         (sim_server (sim_target 0 0 [0x11; 0x22; 0x33; 0x44]) 0 false)).
Proof.
  assert (H1 : 0 <= 0x20000002 < 2 ^ 32) by (split; [discriminate|reflexivity]).
  assert (H2 : 0 <= 2) by discriminate.
  assert (H3 : 2 + 6 < 2 ^ 32) by reflexivity.
  exact (proj1 (read_memory_reply 0x20000002 2
                  (sim_server (sim_target 0 0 [0x11; 0x22; 0x33; 0x44]) 0 false) H1 H2 H3)).
Defined.

(** ** The cache description after [init_cache] *)

Lemma land_ones_bound v k : 0 <= k -> 0 <= Z.land v (Z.ones k) < 2 ^ k.
Proof.
  intros Hk. rewrite Z.land_ones by exact Hk. apply Z.mod_pos_bound.
  apply Z.pow_pos_nonneg; lia.
Qed.

Lemma ceil_log2_le v k : 0 <= k <= 31 -> 0 <= v <= 2 ^ k -> 0 <= ceil_log2 v <= k.
Proof.
  intros Hk Hv. unfold ceil_log2.
  assert (Hv' : 0 <= v <= 2 ^ 31).
  { split; [lia|]. apply Z.le_trans with (2 ^ k); [lia|]. apply Z.pow_le_mono_r; lia. }
  destruct (ceil_log2_from_spec v 32 0 ltac:(lia) ltac:(lia) Hv') as (Hlo & _ & Hmin).
  { intros r Hr. lia. }
  set (c := ceil_log2_from 32 0 v) in *. split; [lia|].
  destruct (Z.le_gt_cases c k) as [Hle|Hgt]; [exact Hle|].
  specialize (Hmin k ltac:(lia)). lia.
Qed.

Section CacheInit.
Context {B K : Type} `{Probe B} `{Remote K}.
Local Open Scope server_scope.

Lemma read_cache_level_desc_width (Q : unit -> server B K -> Prop)
    (k : cache_level_desc -> M B K unit) x :
  (forall d h, 0 <= width d <= 31 -> post Q (k d (set_sl h x))) ->
  post Q (bind read_cache_level_desc k x).
Proof.
  intros Hk. unfold read_cache_level_desc, stlink_read_debug32.
  rewrite bind_assoc. apply post_bind_call. intros [e ccsidr] h. cbv beta iota zeta.
  rewrite bind_ret. apply Hk. cbn [width].
  pose proof (land_ones_bound ccsidr 3 ltac:(lia)) as H7.
  pose proof (land_ones_bound (Z.shiftr ccsidr 13) 14 ltac:(lia)) as Hs.
  change (Z.ones 3) with 7 in H7. change (Z.ones 14) with 0x3fff in Hs.
  change (2 ^ 3) with 8 in H7. change (2 ^ 14) with 16384 in Hs.
  pose proof (ceil_log2_le (Z.land (Z.shiftr ccsidr 13) 0x3fff + 1) 14 ltac:(lia)) as Hc.
  change (2 ^ 14) with 16384 in Hc. specialize (Hc ltac:(lia)). lia.
Qed.

(** [init_cache] returns with either no cache in use, or a description with
    which the loops of [cache_flush] finish: a positive line size of at most
    2^31, at most seven levels, and for every data level a width of at most 31.
    It leaves the modified flag alone. *)
Theorem init_cache_geometry (x : server B K) :
  length (dcache (cache_desc x)) = 7%nat ->
  let out := init_cache x in
  result_of out = Done tt /\
  (used (cache_desc (state_of out)) = 0 \/
   used (cache_desc (state_of out)) = 1 /\ cache_geometry_ok (cache_desc (state_of out))) /\
  length (dcache (cache_desc (state_of out))) = 7%nat /\
  cache_modified (state_of out) = cache_modified x.
Proof.
  intros Hlen out. subst out.
  set (Inv := fun (i : Z) (y : server B K) =>
    used (cache_desc y) = 1 /\
    0 < dminline (cache_desc y) <= 2 ^ 31 /\
    0 <= louu (cache_desc y) <= 7 /\
    length (dcache (cache_desc y)) = 7%nat /\
    cache_modified y = cache_modified x /\
    forall level, 0 <= level < i ->
      0 <= width (zth no_level (dcache (cache_desc y)) level) <= 31).
  assert (Hpost : post (fun _ y => (used (cache_desc y) = 0 \/ Inv 7 y) /\
                                   length (dcache (cache_desc y)) = 7%nat /\
                                   cache_modified y = cache_modified x) (init_cache x)).
  { assert (Hsl : forall j h y, Inv j y -> Inv j (set_sl h y)) by (intros j h y HI; exact HI).
    assert (Hdc : forall i d y, 0 <= i < 7 -> 0 <= width d <= 31 -> Inv i y ->
              Inv (i + 1) (set_cache_desc (set_dcache i (fun _ => d) (cache_desc y)) y)).
    { intros i d y Hi Hd (Hu & Hdm & Hl & Hlen' & Hcm & Hw).
      assert (Hi' : 0 <= i < Z.of_nat (length (dcache (cache_desc y)))) by (rewrite Hlen'; lia).
      unfold Inv.
      cbn [cache_desc set_cache_desc set_dcache used dminline louu dcache cache_modified].
      split; [exact Hu|]. split; [exact Hdm|]. split; [exact Hl|].
      split; [rewrite length_zset; exact Hlen'|]. split; [exact Hcm|].
      intros level Hlv. destruct (Z.eq_dec level i) as [->|Hne].
      - rewrite zth_zset_eq by exact Hi'. exact Hd.
      - rewrite zth_zset_ne by lia. apply Hw. lia. }
    assert (Hmono : forall i j y, i <= j -> Inv j y -> Inv i y).
    { intros i j y Hij (Hu & Hdm & Hl & Hlen' & Hcm & Hw).
      repeat (split; [assumption|]). intros level Hlv. apply Hw. lia. }
    assert (Hic : forall j i f y, Inv j y ->
              Inv j (set_cache_desc (set_icache i f (cache_desc y)) y))
      by (intros j i f y HI; exact HI).
    unfold init_cache, stlink_read_debug32 at 1 2 3. repeat post_step.
    - apply post_ret. cbn. auto.
    - apply (post_weaken (fun _ => Inv (0 + Z.of_nat 7))).
      + apply (post_for_range Inv).
        * intros i y Hi HI. rewrite bind_modify.
          assert (HI0 : Inv (i + 1) (set_cache_desc
                     (set_icache i with_width0 (set_dcache i with_width0 (cache_desc y))) y)).
          { apply (Hic (i + 1) i with_width0
                     (set_cache_desc (set_dcache i with_width0 (cache_desc y)) y)).
            apply (Hdc i (with_width0 (zth no_level (dcache (cache_desc y)) i)) y);
              [lia|cbn; lia|exact HI]. }
          apply (post_bind (fun _ => Inv (i + 1))).
          -- destruct (_ || _).
             ++ unfold stlink_write_debug32. apply post_bind_call. intros e h'.
                apply read_cache_level_desc_width. intros d h'' Hd.
                exists tt. split; [reflexivity|].
                cbn [state_of modify snd]. apply Hdc; [lia|exact Hd|].
                apply (Hmono i (i + 1)); [lia|]. apply Hsl. apply Hsl. exact HI0.
             ++ apply post_ret. exact HI0.
          -- intros _ y1 HI1. destruct (_ || _).
             ++ unfold stlink_write_debug32. apply post_bind_call. intros e h'.
                apply read_cache_level_desc_width. intros d h'' Hd.
                exists tt. split; [reflexivity|].
                apply (Hic (i + 1) i). apply Hsl. apply Hsl. exact HI1.
             ++ apply post_ret. exact HI1.
        * unfold Inv. cbn [cache_desc set_cache_desc set_sl used dminline louu dcache cache_modified].
          split; [reflexivity|]. split.
          { pose proof (land_15_bound (Z.shiftr z0 16)) as Hn.
            set (n := Z.land (Z.shiftr z0 16) 15) in *.
            rewrite Z.shiftl_mul_pow2 by lia.
            assert (Hp : 1 <= 2 ^ n <= 2 ^ 15).
            { split; [apply (Z.pow_le_mono_r 2 0 n); lia|apply Z.pow_le_mono_r; lia]. }
            change (2 ^ 15) with 32768 in Hp.
            rewrite u32_small by (change (2 ^ 32) with 4294967296; lia).
            change (2 ^ 31) with 2147483648. lia. }
          split.
          { pose proof (land_ones_bound (Z.shiftr z2 27) 3 ltac:(lia)) as H7.
            change (Z.ones 3) with 7 in H7. change (2 ^ 3) with 8 in H7. lia. }
          split; [exact Hlen|]. split; [reflexivity|]. intros level Hlv. lia.
      + intros _ y HI. change (0 + Z.of_nat 7) with 7 in HI. split; [right; exact HI|].
        destruct HI as (_ & _ & _ & Hl & Hcm & _). auto. }
  destruct Hpost as ([] & Hres & Hgeo & Hl & Hcm).
  split; [exact Hres|]. split; [|split; [exact Hl|exact Hcm]].
  destruct Hgeo as [Hu|(Hu & Hdm & Hlo & _ & _ & Hw)]; [left; exact Hu|right].
  split; [exact Hu|]. split; [exact Hdm|]. split; [lia|].
  intros level Hlv. apply Hw. lia.
Qed.


End CacheInit.

(** A Cortex-M7 with a data cache of 128 sets of 4 ways and lines of 32
    bytes: the description is in use, with a line size of 32, one level and
    a width of 12 at level 0. *)
Lemma init_cache_geometry_witness :
  used (cache_desc (state_of (init_cache m7_server))) = 1 /\
  cache_geometry_ok (cache_desc (state_of (init_cache m7_server))) /\
  dminline (cache_desc (state_of (init_cache m7_server))) = 32 /\
  louu (cache_desc (state_of (init_cache m7_server))) = 1 /\
  width (zth no_level (dcache (cache_desc (state_of (init_cache m7_server)))) 0) = 12.
Proof.
  pose proof (init_cache_geometry m7_server eq_refl) as Hc. cbv zeta in Hc.
  destruct Hc as (_ & [Hnone|[Hused Hgeo]] & _ & _).
  - vm_compute in Hnone. discriminate Hnone.
  - split; [exact Hused|]. split; [exact Hgeo|].
    split; [vm_compute; reflexivity|]. split; vm_compute; reflexivity.
Defined.

(** ** How a session ends *)

Section Ends.
Context {B K : Type} `{Probe B} `{Remote K}.
Local Open Scope server_scope.

Lemma events_result_bind {A A'} (m : M B K A) (k : A -> M B K A') x b :
  result_of (bind m k x) = Done b ->
  exists a, result_of (m x) = Done a /\
    result_of (k a (state_of (m x))) = Done b /\
    events_of (bind m k x) = events_of (m x) ++ events_of (k a (state_of (m x))).
Proof.
  intros Hres. destruct (events_of_bind m k x) as [(a & Ha & Hev & Hr)|(_ & _ & Hr)].
  - exists a. split; [exact Ha|]. split; [rewrite <- Hr; exact Hres|exact Hev].
  - rewrite Hr in Hres. discriminate.
Qed.

Lemma ends_ret {A} (R : A -> list event -> Prop) a : R a [] -> ends (B:=B) (K:=K) R (ret a).
Proof. intros HR x b [= <-]. exact HR. Qed.

Lemma ends_diverge {A} (R : A -> list event -> Prop) : ends (B:=B) (K:=K) R diverge.
Proof. intros x b [=]. Qed.

Lemma ends_any {A} (m : M B K A) : ends (fun _ _ => True) m.
Proof. intros x a _. exact I. Qed.

(** After [m], the continuation either returns a value at once, or ends as
    [R] asks by itself. *)
Lemma ends_bind_mixed {A A'} (R' : A -> list event -> Prop) (R : A' -> list event -> Prop)
    (m : M B K A) (k : A -> M B K A') :
  (forall b tr pre, R b tr -> R b (pre ++ tr)) ->
  ends R' m ->
  (forall a, (exists b, k a = ret b /\ forall tr, R' a tr -> R b tr) \/ ends R (k a)) ->
  ends R (bind m k).
Proof.
  intros Hpre Hm Hk x b Hres.
  destruct (events_result_bind m k x b Hres) as (a & Ha & Hb & ->).
  destruct (Hk a) as [(b' & Hka & Himp)|Hends].
  - rewrite Hka in *. cbn in Hb. injection Hb as <-. cbn [events_of ret fst snd].
    rewrite app_nil_r. apply Himp. apply Hm. exact Ha.
  - apply Hpre. apply Hends. exact Hb.
Qed.

Lemma ends_bind {A A'} (R : A' -> list event -> Prop) (m : M B K A) (k : A -> M B K A') :
  (forall b tr pre, R b tr -> R b (pre ++ tr)) ->
  (forall a, ends R (k a)) -> ends R (bind m k).
Proof.
  intros Hpre Hk. apply (ends_bind_mixed (fun _ _ => True)); [exact Hpre|apply ends_any|].
  intros a. right. apply Hk.
Qed.

Lemma ends_bind_pure {A A'} (R' : A -> list event -> Prop) (R : A' -> list event -> Prop)
    (m : M B K A) (b : A') :
  ends R' m -> (forall a tr, R' a tr -> R b tr) -> ends R (bind m (fun _ => ret b)).
Proof.
  intros Hm Himp x b' Hres.
  destruct (events_result_bind m _ x b' Hres) as (a & Ha & Hb & ->).
  cbn in Hb. injection Hb as <-. cbn [events_of ret fst snd]. rewrite app_nil_r.
  apply (Himp a). apply Hm. exact Ha.
Qed.

Lemma last_app_keep (e : event) tr pre : last tr = Some e -> last (pre ++ tr) = Some e.
Proof. intros Hl. apply last_app_Some. left. exact Hl. Qed.

Lemma handled_end_app h tr pre : handled_end h tr -> handled_end h (pre ++ tr).
Proof. destruct h; cbn; [trivial| |]; apply last_app_keep. Qed.

Lemma session_closed_app e tr pre : session_closed e tr -> session_closed e (pre ++ tr).
Proof.
  intros [[-> Hl]|[-> Hl]]; [left|right]; (split; [reflexivity|]);
    apply last_app_keep; exact Hl.
Qed.

Lemma ends_close_socket : ends (B:=B) (K:=K) (fun _ tr => last tr = Some EvCloseSocket) close_socket.
Proof. intros x a _. reflexivity. Qed.

Lemma ends_cleanup : ends (B:=B) (K:=K) (fun _ tr => last tr = Some EvClose) _cleanup.
Proof.
  intros x a _. unfold _cleanup, stlink_run, stlink_exit_debug_mode, stlink_close.
  rewrite (bind_done _ _ _ _ _ _ (call_run _ _ _)).
  cbn [events_of fst snd].
  rewrite (bind_done _ _ _ _ _ _ (call_run _ _ _)).
  cbn [events_of fst snd]. rewrite call_run. reflexivity.
Qed.

End Ends.

(** One step towards [ends handled_end]. *)
Ltac ends_handled :=
  repeat first
    [ apply ends_diverge
    | apply ends_ret; exact I
    | apply (ends_bind_pure (fun _ tr => last tr = Some EvClose));
        [apply ends_cleanup|intros ? ? Hl; exact Hl]
    | apply ends_bind; [exact handled_end_app|intros]
    | match goal with
      | |- ends _ (if ?b then _ else _) => destruct b
      | |- ends _ (let '(_, _) := ?a in _) => destruct a
      | |- ends _ (match ?o with Some _ => _ | None => _ end) => destruct o
      end ].

Section SessionEnd.
Context {B K : Type} `{Probe B} `{Remote K}.
Local Open Scope server_scope.

Lemma ends_serve_c_poll :
  ends (B:=B) (K:=K)
    (fun o tr => match o with
                 | Some LoopReturn1 => last tr = Some EvCloseSocket
                 | _ => True
                 end) serve_c_poll.
Proof.
  unfold serve_c_poll.
  apply ends_bind.
  { intros [[|]|] tr pre; try trivial. apply last_app_keep. }
  intros status. destruct (status <? 0).
  { apply (ends_bind_pure (fun _ tr => last tr = Some EvCloseSocket));
      [apply ends_close_socket|intros ? ? Hl; exact Hl]. }
  assert (Hany : forall (m : M B K (option loop_exit)),
            (forall x a, result_of (m x) = Done a -> a <> Some LoopReturn1) ->
            ends (fun o tr => match o with
                              | Some LoopReturn1 => last tr = Some EvCloseSocket
                              | _ => True
                              end) m).
  { intros m Hm x a Ha. specialize (Hm x a Ha). destruct a as [[|]|]; try trivial.
    contradiction. }
  apply Hany. intros x a. destruct (status =? 1).
  - rewrite result_of_bind. destruct (result_of _); [|discriminate].
    intros [= <-]. discriminate.
  - rewrite result_of_bind. destruct (result_of _); [|discriminate].
    rewrite bind_gets. destruct (core_stat _); try (intros [= <-]; discriminate).
    rewrite result_of_bind. destruct (result_of _) as [[|]|]; try discriminate.
    all: intros [= <-]; discriminate.
Qed.

Lemma ends_serve_c_loop fuel :
  ends (B:=B) (K:=K)
    (fun e tr => match e with
                 | LoopReturn1 => last tr = Some EvCloseSocket
                 | LoopBreak => True
                 end) (serve_c_loop fuel).
Proof.
  induction fuel as [|fuel IH]; cbn [serve_c_loop]; [apply ends_diverge|].
  eapply ends_bind_mixed; [|apply ends_serve_c_poll|].
  { intros [|] tr pre; [trivial|apply last_app_keep]. }
  intros [e|].
  - left. exists e. split; [reflexivity|]. intros tr. destruct e; trivial.
  - right. apply ends_bind; [|intros _; exact IH].
    intros [|] tr pre; [trivial|apply last_app_keep].
Qed.

Lemma ends_serve_c fuel : ends (B:=B) (K:=K) handled_end (serve_c fuel).
Proof.
  unfold serve_c. apply ends_bind; [exact handled_end_app|]. intros _.
  apply ends_bind; [exact handled_end_app|]. intros _.
  eapply ends_bind_mixed; [exact handled_end_app|apply ends_serve_c_loop|].
  intros [|]; left; eexists; (split; [reflexivity|]); intros tr Htr; [exact I|exact Htr].
Qed.

Lemma ends_serve_packet fuel p : ends (B:=B) (K:=K) handled_end (serve_packet fuel p).
Proof.
  destruct p; cbn [serve_packet].
  - unfold serve_q. destruct q; ends_handled.
  - unfold serve_v. destruct v; ends_handled.
  - apply ends_serve_c.
  - unfold serve_s. ends_handled.
  - ends_handled.
  - unfold serve_g. ends_handled.
  - unfold serve_p. ends_handled.
  - unfold serve_P. ends_handled.
  - unfold serve_G. ends_handled.
  - unfold serve_m. ends_handled.
  - unfold serve_M. ends_handled.
  - unfold serve_Z. ends_handled.
  - unfold serve_z. ends_handled.
  - ends_handled.
  - unfold serve_R. ends_handled.
  - unfold serve_k. ends_handled.
  - ends_handled.
Qed.

End SessionEnd.

Section SessionLoop.
Context {B K : Type} `{Probe B} `{Remote K}.
Local Open Scope server_scope.

Lemma iteration_end_app (o : option session_end) tr pre :
  match o with Some e => session_closed e tr | None => True end ->
  match o with Some e => session_closed e (pre ++ tr) | None => True end.
Proof. destruct o; [apply session_closed_app|trivial]. Qed.

Lemma ends_close_return :
  ends (B:=B) (K:=K)
    (fun o tr => match o with Some e => session_closed e tr | None => True end)
    (close_socket;; ret (Some (Returned 1))).
Proof.
  apply (ends_bind_pure (fun _ tr => last tr = Some EvCloseSocket));
    [apply ends_close_socket|]. intros _ tr Hl. left. split; [reflexivity|exact Hl].
Qed.

Lemma ends_serve_iteration fuel :
  ends (B:=B) (K:=K)
    (fun o tr => match o with Some e => session_closed e tr | None => True end)
    (serve_iteration fuel).
Proof.
  unfold serve_iteration.
  apply ends_bind; [intros o tr pre; apply iteration_end_app|]. intros [status p].
  destruct (status <? 0); [apply ends_close_return|].
  eapply ends_bind_mixed;
    [intros o tr pre; apply iteration_end_app|apply ends_serve_packet|].
  intros [reply critical_error| |].
  - right. eapply ends_bind_mixed with
      (R' := fun o tr => match o with Some e => session_closed e tr | None => True end);
      [intros o tr pre; apply iteration_end_app| |].
    + destruct reply as [text|]; [|apply ends_ret; exact I].
      apply ends_bind; [intros o tr pre; apply iteration_end_app|]. intros result.
      destruct (negb (result =? 0)); [apply ends_close_return|apply ends_ret; exact I].
    + intros [e|].
      * left. exists (Some e). split; [reflexivity|]. intros tr Htr. exact Htr.
      * right. destruct (negb (critical_error =? 0));
          [apply ends_close_return|apply ends_ret; exact I].
  - left. eexists. split; [reflexivity|]. intros tr Htr. left. split; [reflexivity|exact Htr].
  - left. eexists. split; [reflexivity|]. intros tr Htr. right. split; [reflexivity|exact Htr].
Qed.

Lemma ends_serve_loop fuel turns : ends (B:=B) (K:=K) session_closed (serve_loop turns fuel).
Proof.
  induction turns as [|turns IH]; cbn [serve_loop]; [apply ends_diverge|].
  eapply ends_bind_mixed; [exact session_closed_app|apply ends_serve_iteration|].
  intros [e|].
  - left. exists e. split; [reflexivity|]. intros tr Htr. exact Htr.
  - right. exact IH.
Qed.

(** However a session ends, [serve] has returned 1 with the client socket
    closed as its last call, or the process has left with status 1 right
    after the probe was closed; [serve] never returns 0. *)
Theorem serve_ends_closed (turns fuel : nat) (x : server B K) (e : session_end) :
  result_of (serve turns fuel x) = Done e ->
  session_closed e (events_of (serve turns fuel x)).
Proof.
  revert x e. change (ends session_closed (serve turns fuel)). unfold serve.
  repeat (apply ends_bind; [exact session_closed_app|intros]).
  apply ends_serve_loop.
Qed.

End SessionLoop.

(** A session whose client has hung up before its first request. *)
Lemma serve_ends_closed_witness :
  session_closed (Returned 1)
    (events_of (serve 1 1 (hangup_server (sim_target 0 0 [])))).
Proof.
  apply (serve_ends_closed 1 1 (hangup_server (sim_target 0 0 [])) (Returned 1)).
  vm_compute. reflexivity.
Defined.

(** ** The decoded payload of vFlashWrite *)

Lemma unescape_loop_fits data n :
  n = Z.of_nat (length data) -> n < 2 ^ 32 - 1 ->
  forall fuel i decoded k reads,
    0 <= i <= n + 1 -> (0 < fuel)%nat -> n - i < Z.of_nat fuel ->
    0 <= k <= i -> k <= n -> length decoded = S (length data) ->
    exists decoded' k' reads',
      unescape_loop fuel data n i decoded k reads = Some (decoded', k', reads') /\
      length decoded' = S (length data) /\ 0 <= k' <= n.
Proof.
  intros Hn Hbound.
  induction fuel as [|fuel IH]; intros i decoded k reads Hi Hpos Hfuel Hk Hkn Hlen; [lia|].
  cbn [unescape_loop].
  destruct (Z.ltb_spec i n) as [Hlt|Hge].
  - destruct (zth 0 data i =? 0x7d).
    + rewrite (u32_small (i + 1)) by lia. rewrite (u32_small (i + 1 + 1)) by lia.
      rewrite (u32_small (k + 1)) by lia.
      apply IH; try lia. rewrite length_zset. exact Hlen.
    + rewrite (u32_small (i + 1)) by lia. rewrite (u32_small (k + 1)) by lia.
      apply IH; try lia. rewrite length_zset. exact Hlen.
  - exists decoded, k, reads. split; [reflexivity|]. split; [exact Hlen|lia].
Qed.

Lemma unescape_loop_plain data n :
  n = Z.of_nat (length data) -> n < 2 ^ 32 - 1 ->
  Forall (fun b => b <> 0x7d) data ->
  forall fuel i reads,
    0 <= i <= n -> n - i < Z.of_nat fuel ->
    exists reads',
      unescape_loop fuel data n i
        (take (Z.to_nat i) data ++ repeat 0 (S (length data) - Z.to_nat i)) i reads
      = Some (data ++ [0], n, reads').
Proof.
  intros Hn Hbound Hplain.
  induction fuel as [|fuel IH]; intros i reads Hi Hfuel; [lia|].
  cbn [unescape_loop].
  destruct (Z.ltb_spec i n) as [Hlt|Hge].
  - assert (Hin : (Z.to_nat i < length data)%nat) by lia.
    destruct (lookup_lt_is_Some_2 data (Z.to_nat i) Hin) as [b Hb].
    assert (Hz : zth 0 data i = b).
    { unfold zth. destruct (Z.ltb_spec i 0); [lia|]. apply nth_lookup_Some with (d := 0).
      exact Hb. }
    rewrite Hz. rewrite Forall_lookup in Hplain. specialize (Hplain _ _ Hb).
    destruct (Z.eqb_spec b 0x7d) as [Heq|_]; [contradiction|].
    rewrite (u32_small (i + 1)) by lia.
    assert (Hstep : zset (take (Z.to_nat i) data ++ repeat 0 (S (length data) - Z.to_nat i)) i b
                    = take (Z.to_nat (i + 1)) data
                        ++ repeat 0 (S (length data) - Z.to_nat (i + 1))).
    { unfold zset. destruct (Z.ltb_spec i 0); [lia|].
      rewrite insert_app_r_alt by (rewrite length_take; lia).
      rewrite length_take. replace (Z.to_nat i `min` length data)%nat with (Z.to_nat i) by lia.
      rewrite Nat.sub_diag.
      replace (S (length data) - Z.to_nat i)%nat
        with (S (S (length data) - Z.to_nat (i + 1))) by lia.
      cbn [repeat]. cbn [insert list_insert].
      replace (Z.to_nat (i + 1)) with (S (Z.to_nat i)) by lia.
      rewrite (take_S_r data (Z.to_nat i) b Hb). rewrite <- app_assoc. reflexivity. }
    rewrite Hstep. apply IH; lia.
  - assert (Hin : i = n) by lia. subst i.
    exists reads. rewrite Hn, Nat2Z.id.
    rewrite firstn_all. replace (S (length data) - length data)%nat with 1%nat by lia.
    reflexivity.
Qed.

(** The decoding loop of vFlashWrite finishes on every payload, and the
    length it hands to [flash_populate] is even and at most the size of the
    buffer [decoded] (one byte more than the payload): the alignment fix has
    its reserved byte. *)
Theorem unescape_length_fits (data : list Z) :
  Z.of_nat (length data) < 2 ^ 32 - 1 ->
  exists decoded dec_index reads,
    unescape data = Some (decoded, dec_index, reads) /\
    length decoded = S (length data) /\
    0 <= dec_index <= Z.of_nat (length decoded) /\
    dec_index mod 2 = 0.
Proof.
  intros Hbound. unfold unescape. rewrite u32_small by lia.
  destruct (unescape_loop_fits data (Z.of_nat (length data)) eq_refl Hbound
              (S (length data)) 0 (repeat 0 (S (length data))) 0 [])
    as (decoded & k & reads & Hrun & Hlen & Hk); try lia.
  { apply repeat_length. }
  rewrite Hrun. eexists _, _, _. split; [reflexivity|]. split; [exact Hlen|].
  rewrite Hlen. destruct (Z.eqb_spec (k mod 2) 0) as [Heven|Hodd]; cbn [negb].
  - split; [lia|exact Heven].
  - rewrite u32_small by lia. split; [lia|].
    pose proof (Z.mod_pos_bound k 2 ltac:(lia)) as Hm.
    replace (k + 1) with (k mod 2 + 1 + 2 * (k / 2)) by (pose proof (Z.div_mod k 2); lia).
    replace (k mod 2) with 1 by lia.
    rewrite Z.mul_comm, Z.mod_add by lia. reflexivity.
Qed.

(** A payload without the escape byte 0x7d is decoded to itself: the
    buffer holds the payload followed by the reserved zero byte, and the
    length is the length of the payload, made even. *)
Theorem unescape_plain_payload (data : list Z) :
  Z.of_nat (length data) < 2 ^ 32 - 1 ->
  Forall (fun b => b <> 0x7d) data ->
  exists reads,
    unescape data =
      Some (data ++ [0],
            Z.of_nat (length data) + Z.of_nat (length data) mod 2, reads).
Proof.
  intros Hbound Hplain. unfold unescape. rewrite u32_small by lia.
  destruct (unescape_loop_plain data (Z.of_nat (length data)) eq_refl Hbound Hplain
              (S (length data)) 0 []) as (reads & Hrun); try lia.
  change (Z.to_nat 0) with 0%nat in Hrun. change (take 0 data) with (@nil Z) in Hrun.
  rewrite Nat.sub_0_r in Hrun. cbn [app] in Hrun.
  rewrite Hrun. exists reads. f_equal. f_equal. f_equal.
  pose proof (Z.mod_pos_bound (Z.of_nat (length data)) 2 ltac:(lia)) as Hm.
  destruct (Z.eqb_spec (Z.of_nat (length data) mod 2) 0) as [Heven|Hodd]; cbn [negb].
  - lia.
  - rewrite u32_small by lia. lia.
Qed.

(** A payload that ends in an escape byte. *)
Lemma unescape_length_fits_witness :
  exists decoded dec_index reads,
    unescape [0x01; 0x7d] = Some (decoded, dec_index, reads) /\
    length decoded = S (length [0x01; 0x7d]) /\
    0 <= dec_index <= Z.of_nat (length decoded) /\
    dec_index mod 2 = 0.
Proof.
  apply (unescape_length_fits [0x01; 0x7d]). cbn. lia.
Defined.

(** Three plain bytes. *)
Lemma unescape_plain_payload_witness :
  exists reads, unescape [0x01; 0x02; 0x03] = Some ([0x01; 0x02; 0x03] ++ [0], 3 + 3 mod 2, reads).
Proof.
  apply (unescape_plain_payload [0x01; 0x02; 0x03]).
  - cbn. lia.
  - repeat constructor; discriminate.
Defined.

(** ** Watchpoints that are refused *)

Lemma count_shifts_negative fuel : forall i mask,
  i < 0 -> count_shifts fuel i mask = None.
Proof.
  induction fuel as [|fuel IH]; intros i mask Hi; [reflexivity|].
  cbn [count_shifts]. destruct (Z.eqb_spec i 0) as [->|_]; [lia|].
  apply IH. apply Z.shiftr_neg. exact Hi.
Qed.

Section WatchRefusal.
Context {B K : Type} `{Probe B} `{Remote K}.
Local Open Scope server_scope.

(** [add_data_watchpoint] refuses a length of 0 or of 65536 and more, and
    any length when the four slots are taken: it answers -1 with the table
    unchanged and no call to the probe.  For a length of 2^31 and more the
    loop that computes the mask works on a negative [int32_t], which the
    shifts never bring to 0: the function does not return. *)
Theorem add_data_watchpoint_refusals (wf : watchfun) (addr len : Z) (x : server B K) :
  (len = 0 \/ 65536 <= len < 2 ^ 31 ->
   add_data_watchpoint wf addr len x = (Done (-1), [], x)) /\
  (1 <= len < 65536 -> (forall i, 0 <= i < 4 -> ~ wp_free x i) ->
   add_data_watchpoint wf addr len x = (Done (-1), [], x)) /\
  (2 ^ 31 <= len < 2 ^ 32 ->
   (forall fuel, count_shifts fuel (s32 len) (u32 (-1)) = None) /\
   add_data_watchpoint wf addr len x = (Diverge, [], x)).
Proof.
  split; [apply add_data_watchpoint_reject|].
  split; [apply add_data_watchpoint_full|].
  intros Hlen.
  assert (Hneg : s32 len < 0).
  { unfold s32. rewrite Z.mod_small by lia. cbv zeta.
    destruct (Z.ltb_spec len (2 ^ 31)); lia. }
  split; [intros fuel; apply count_shifts_negative; exact Hneg|].
  unfold add_data_watchpoint. rewrite count_shifts_negative by exact Hneg. reflexivity.
Qed.

End WatchRefusal.
